(** * Geofence event processing: zone lookup, transition tracking, occupancy

    A shallow embedding of the geofence service (app/models.py, app/zones.py,
    app/state.py, app/logic.py and the endpoints of app/main.py).

    Conventions of the embedding.
    - Python [float] is IEEE-754 binary64, modelled by [spec_float] with
      precision 53 and maximal exponent 1024; comparisons are [SFleb] and
      [SFltb], so every comparison with a NaN is false.
    - Python [str] is a sequence of code points; a [string] carries it as
      its UTF-8 bytes.  [str.strip], [str.upper] and [float(str)] are written
      out on the code points, with the tables of the Unicode database.
    - Python [int] is [Z]; a [dict] with string keys is a [gmap string _].
    - The mutable singleton [state_manager] is threaded explicitly: every
      operation that mutates it returns the new store.
    - [datetime.utcnow()] is an explicit argument [now]. *)

From Stdlib Require Import ZArith NArith List String Ascii Bool Lia.
From Stdlib Require Import Floats.SpecFloat.
From stdpp Require Import gmap strings.

Local Open Scope Z_scope.

(* ===================================================================== *)
(** * Floating point (binary64)                                           *)
(* ===================================================================== *)

Module Float.

Definition prec : Z := 53.
Definition emax : Z := 1024.

Definition float : Type := spec_float.

(** [x <= y] and [x < y] on floats. *)
Definition leb (x y : float) : bool := SFleb x y.
Definition ltb (x y : float) : bool := SFltb x y.

(** [abs(x)]. *)
Definition abs (x : float) : float := SFabs x.

(** The float nearest to the integer [n]. *)
Definition of_Z (n : Z) : float := binary_normalize prec emax n 0 false.

(** The literal [0.0]. *)
Definition zero : float := S754_zero false.

(** The float nearest to [(-1)^s * m * 10^e], ties to even: the quotient of
    two exact integers, rounded once. *)
Definition of_decimal (s : bool) (m : positive) (e : Z) : float :=
  let num := Z.pos m * 10 ^ Z.max e 0 in
  let den := 10 ^ Z.max (- e) 0 in
  let '(q, e', l) := SFdiv_core_binary prec emax num 0 den 0 in
  binary_round_aux prec emax s q e' l.

Definition is_nan (x : float) : bool :=
  match x with S754_nan => true | _ => false end.

(** [math.isfinite]: neither NaN nor an infinity. *)
Definition is_finite (x : float) : bool :=
  match x with
  | S754_zero _ | S754_finite _ _ _ => true
  | S754_infinity _ | S754_nan => false
  end.

End Float.

Abbreviation float := Float.float.

(* ===================================================================== *)
(** * app/models.py                                                       *)
(* ===================================================================== *)

(** Timestamps ([datetime]) are kept as an integer count of microseconds. *)
Definition datetime : Type := Z.

(** class ZoneTransition(str, Enum) *)
Inductive ZoneTransition : Type := ENTER | EXIT | CHANGE.

(** [transition.value] *)
Definition ZoneTransition_value (t : ZoneTransition) : string :=
  match t with
  | ENTER => "ENTER"
  | EXIT => "EXIT"
  | CHANGE => "CHANGE"
  end.

(** class LocationEvent *)
Record LocationEvent : Type := {
  ev_vehicle_id : string;
  ev_latitude : string;
  ev_longitude : string;
  ev_timestamp : option datetime
}.

(** class Zone *)
Record Zone : Type := {
  zone_id : string;
  name : string;
  min_lat : float;
  max_lat : float;
  min_lng : float;
  max_lng : float
}.

(** Zone.contains:
    [self.min_lat <= lat <= self.max_lat and self.min_lng <= lng <= self.max_lng] *)
Definition contains (self : Zone) (lat lng : float) : bool :=
  (Float.leb (min_lat self) lat && Float.leb lat (max_lat self))
  && (Float.leb (min_lng self) lng && Float.leb lng (max_lng self)).

(* ===================================================================== *)
(** * app/zones.py: find_zone                                             *)
(* ===================================================================== *)

(** find_zone: the loop [for zone in zones: if zone.contains(lat, lng): return zone]
    followed by [return None]. *)
Fixpoint find_zone (lat lng : float) (zones : list Zone) : option Zone :=
  match zones with
  | [] => None
  | zone :: rest =>
      if contains zone lat lng then Some zone else find_zone lat lng rest
  end.

(* ===================================================================== *)
(** * app/state.py                                                        *)
(* ===================================================================== *)

(** One entry of [transition_history]: the dict with keys "transition",
    "from_zone", "to_zone" and "timestamp".  The source stores
    [timestamp.isoformat()], an injective rendering of the timestamp; the
    record keeps the timestamp it renders. *)
Record TransitionRecord : Type := {
  tr_transition : string;
  tr_from_zone : option string;
  tr_to_zone : option string;
  tr_timestamp : datetime
}.

(** class VehicleState *)
Record VehicleState : Type := {
  vehicle_id : string;
  current_zone : option string;
  last_update : option datetime;
  last_latitude : option float;
  last_longitude : option float;
  transition_history : list TransitionRecord
}.

(** VehicleState.__init__ *)
Definition VehicleState_init (vid : string) : VehicleState :=
  {| vehicle_id := vid;
     current_zone := None;
     last_update := None;
     last_latitude := None;
     last_longitude := None;
     transition_history := [] |}.

(** VehicleState.update_location *)
Definition update_location (self : VehicleState) (lat lng : float)
    (timestamp : datetime) : VehicleState :=
  {| vehicle_id := vehicle_id self;
     current_zone := current_zone self;
     last_update := Some timestamp;
     last_latitude := Some lat;
     last_longitude := Some lng;
     transition_history := transition_history self |}.

(** The slice [l[-n:]]: the last [n] elements, the whole list when it is
    shorter. *)
Definition slice_last {A : Type} (n : nat) (l : list A) : list A :=
  skipn (length l - n) l.

(** The history bound of [update_zone]. *)
Definition HISTORY_LIMIT : nat := 100.

(** VehicleState.update_zone *)
Definition update_zone (self : VehicleState) (zid : option string)
    (transition : ZoneTransition) (timestamp : datetime) : VehicleState :=
  let old_zone := current_zone self in
  let transition_record :=
    {| tr_transition := ZoneTransition_value transition;
       tr_from_zone := old_zone;
       tr_to_zone := zid;
       tr_timestamp := timestamp |} in
  let appended := transition_history self ++ [transition_record] in
  {| vehicle_id := vehicle_id self;
     current_zone := zid;
     last_update := last_update self;
     last_latitude := last_latitude self;
     last_longitude := last_longitude self;
     transition_history :=
       if (HISTORY_LIMIT <? length appended)%nat
       then slice_last HISTORY_LIMIT appended
       else appended |}.

(** class VehicleStatus (app/models.py): the snapshot returned to callers. *)
Record VehicleStatus : Type := {
  st_vehicle_id : string;
  st_current_zone : option string;
  st_last_update : option datetime;
  st_last_latitude : option float;
  st_last_longitude : option float;
  st_transition_history : list TransitionRecord
}.

(** VehicleState.to_status *)
Definition to_status (self : VehicleState) : VehicleStatus :=
  {| st_vehicle_id := vehicle_id self;
     st_current_zone := current_zone self;
     st_last_update := last_update self;
     st_last_latitude := last_latitude self;
     st_last_longitude := last_longitude self;
     st_transition_history := transition_history self |}.

(** class StateManager: the two dictionaries [_vehicles] and [_zone_counts]. *)
Record StateManager : Type := {
  _vehicles : gmap string VehicleState;
  _zone_counts : gmap string Z
}.

(** StateManager.__init__ *)
Definition StateManager_init : StateManager :=
  {| _vehicles := ∅; _zone_counts := ∅ |}.

(** StateManager.get_vehicle: get or create.  Returns the store after the
    possible insertion together with the vehicle's state. *)
Definition get_vehicle (self : StateManager) (vid : string)
    : StateManager * VehicleState :=
  match _vehicles self !! vid with
  | Some v => (self, v)
  | None =>
      let v := VehicleState_init vid in
      ({| _vehicles := <[vid := v]> (_vehicles self);
          _zone_counts := _zone_counts self |}, v)
  end.

(** Truth value of a zone id in a condition ([if old_zone:]): [None] is
    false (handled by the match below) and so is the empty string. *)
Definition str_truthy (s : string) : bool := negb (String.eqb s "").

(** [d.get(k, 0)] *)
Definition dict_get0 (d : gmap string Z) (k : string) : Z :=
  default 0 (d !! k).

(** StateManager.update_zone_count *)
Definition update_zone_count (self : StateManager)
    (old_zone new_zone : option string) : StateManager :=
  let counts := _zone_counts self in
  let counts :=
    match old_zone with
    | Some z =>
        if str_truthy z
        then <[z := Z.max 0 (dict_get0 counts z - 1)]> counts
        else counts
    | None => counts
    end in
  let counts :=
    match new_zone with
    | Some z =>
        if str_truthy z
        then <[z := dict_get0 counts z + 1]> counts
        else counts
    | None => counts
    end in
  {| _vehicles := _vehicles self; _zone_counts := counts |}.

(** StateManager.get_zone_count *)
Definition get_zone_count (self : StateManager) (z : string) : Z :=
  dict_get0 (_zone_counts self) z.

(* ===================================================================== *)
(** * ASCII characters                                                    *)
(* ===================================================================== *)

Module PyStr.

Definition code (c : ascii) : N := N_of_ascii c.

(** Py_TOUPPER: a..z go to A..Z. *)
Definition upper_char (c : ascii) : ascii :=
  if ((97 <=? code c) && (code c <=? 122))%N
  then ascii_of_N (code c - 32)
  else c.

(** An ASCII buffer in upper case. *)
Definition upper (s : list ascii) : list ascii := map upper_char s.

End PyStr.

(* ===================================================================== *)
(** * Python's float(str): the parser                                     *)
(* ===================================================================== *)

(** The conversion [float(s)] of CPython, on the ASCII buffer that the text
    is turned into (see [PyUnicode.transform] below): surrounding whitespace
    is skipped, underscores between digits are dropped, then the whole
    remaining text must be a decimal literal (sign, digits, point, digits,
    exponent) or a signed [inf], [infinity] or [nan] in any case.  [None]
    stands for [ValueError]. *)
Module PyFloat.

Import PyStr.

(** Py_ISSPACE: the whitespace the conversion itself skips. *)
Definition isspace (c : ascii) : bool :=
  ((9 <=? code c) && (code c <=? 13) || (code c =? 32))%N.

Definition is_digit (c : ascii) : bool :=
  ((48 <=? code c) && (code c <=? 57))%N.

Definition digit_val (c : ascii) : Z := Z.of_N (code c) - 48.

(** Py_TOLOWER *)
Definition lower_char (c : ascii) : ascii :=
  if ((65 <=? code c) && (code c <=? 90))%N
  then ascii_of_N (code c + 32)
  else c.

Fixpoint skip_leading (s : list ascii) : list ascii :=
  match s with
  | [] => []
  | c :: r => if isspace c then skip_leading r else s
  end.

Definition skip_trailing (s : list ascii) : list ascii :=
  rev (skip_leading (rev s)).

(** Underscore screening: an underscore must stand between two digits.
    [prev] is the previous character.  Returns the text without them. *)
Fixpoint drop_underscores (prev : ascii) (s : list ascii)
    : option (list ascii) :=
  match s with
  | [] => if Ascii.eqb prev "_" then None else Some []
  | c :: r =>
      if Ascii.eqb c "_" then
        if is_digit prev then drop_underscores c r else None
      else
        if Ascii.eqb prev "_" && negb (is_digit c) then None
        else option_map (cons c) (drop_underscores c r)
  end.

(** The longest prefix of digits, and what follows it. *)
Fixpoint span_digits (s : list ascii) : list ascii * list ascii :=
  match s with
  | c :: r =>
      if is_digit c
      then let '(ds, rest) := span_digits r in (c :: ds, rest)
      else ([], s)
  | [] => ([], [])
  end.

(** Value of a digit string, most significant digit first. *)
Definition digits_value (ds : list ascii) : Z :=
  fold_left (fun acc c => 10 * acc + digit_val c) ds 0.

Fixpoint drop_zeros (ds : list ascii) : list ascii :=
  match ds with
  | c :: r => if Ascii.eqb c "0" then drop_zeros r else ds
  | [] => []
  end.

(** An optional sign: [true] for minus. *)
Definition parse_sign (s : list ascii) : bool * list ascii :=
  match s with
  | c :: r =>
      if Ascii.eqb c "-" then (true, r)
      else if Ascii.eqb c "+" then (false, r)
      else (false, s)
  | [] => (false, [])
  end.

Definition MAX_DIGITS : Z := 1000000000.
Definition MAX_ABS_EXP : Z := 1100000000.

(** The exponent part: [e] or [E], an optional sign, at least one digit.
    Without a digit nothing is consumed.  The magnitude saturates at
    [MAX_ABS_EXP]. *)
Definition parse_exponent (s : list ascii) : Z * list ascii :=
  match s with
  | c :: r =>
      if Ascii.eqb c "e" || Ascii.eqb c "E" then
        let '(esign, r1) := parse_sign r in
        let '(ds, rest) := span_digits r1 in
        match ds with
        | [] => (0, s)
        | _ =>
            let sig := drop_zeros ds in
            let abs_exp := digits_value sig in
            let e :=
              if (9 <? Z.of_nat (length sig)) || (MAX_ABS_EXP <? abs_exp)
              then MAX_ABS_EXP else abs_exp in
            (if esign then - e else e, rest)
        end
      else (0, s)
  | [] => (0, [])
  end.

(** The correctly rounded value of [nd] significant digits [m] scaled by
    [10^e].  Far outside the binary64 range the result is known without
    computing the power. *)
Definition decimal_value (sign : bool) (m : Z) (nd : Z) (e : Z) : float :=
  match m with
  | Z.pos p =>
      if 310 <? nd + e then S754_infinity sign
      else if nd + e <? -330 then S754_zero sign
      else Float.of_decimal sign p e
  | _ => S754_zero sign
  end.

(** The decimal literal parser: the value and the unread rest, [None] when
    no digit was found (nothing is consumed then) or a digit count is over
    [MAX_DIGITS]. *)
Definition dg_strtod (s : list ascii) : option (float * list ascii) :=
  let '(sign, s1) := parse_sign s in
  let '(ip, s2) := span_digits s1 in
  let '(fp, s3) :=
    match s2 with
    | c :: r => if Ascii.eqb c "." then span_digits r else ([], s2)
    | [] => ([], s2)
    end in
  let digits := ip ++ fp in
  let sig := drop_zeros digits in
  match digits with
  | [] => None
  | _ =>
      if (MAX_DIGITS <? Z.of_nat (length sig))
         || (MAX_DIGITS <? Z.of_nat (length fp))
      then None
      else
        let '(e, s4) := parse_exponent s3 in
        Some (decimal_value sign (digits_value sig) (Z.of_nat (length sig))
                (e - Z.of_nat (length fp)), s4)
  end.

(** case_insensitive_match: [t] is given in lower case. *)
Fixpoint case_insensitive_match (s t : list ascii) {struct t}
    : option (list ascii) :=
  match t with
  | [] => Some s
  | d :: t' =>
      match s with
      | c :: s' =>
          if Ascii.eqb (lower_char c) d then case_insensitive_match s' t'
          else None
      | [] => None
      end
  end.

(** The special values: an optional sign, then [inf] optionally followed
    by [inity], or [nan]. *)
Definition parse_inf_or_nan (s : list ascii) : option (float * list ascii) :=
  let '(negate, s1) := parse_sign s in
  match case_insensitive_match s1 (list_ascii_of_string "inf") with
  | Some s2 =>
      match case_insensitive_match s2 (list_ascii_of_string "inity") with
      | Some s3 => Some (S754_infinity negate, s3)
      | None => Some (S754_infinity negate, s2)
      end
  | None =>
      match case_insensitive_match s1 (list_ascii_of_string "nan") with
      | Some s2 => Some (S754_nan, s2)
      | None => None
      end
  end.

(** A decimal literal first, the special values when no digit was read. *)
Definition ascii_strtod (s : list ascii) : option (float * list ascii) :=
  match dg_strtod s with
  | Some r => Some r
  | None => parse_inf_or_nan s
  end.

(** The whole text must be consumed. *)
Definition from_string_inner (s : list ascii) : option float :=
  match ascii_strtod s with
  | Some (x, []) => Some x
  | _ => None
  end.

(** [float(s)] *)
Definition of_string (s : list ascii) : option float :=
  let t := skip_trailing (skip_leading s) in
  if existsb (Ascii.eqb "_") t then
    match drop_underscores "000"%char t with
    | Some u => from_string_inner u
    | None => None
    end
  else from_string_inner t.

End PyFloat.

(* ===================================================================== *)
(** * Python str: code points                                             *)
(* ===================================================================== *)

(** A Python [str] is a sequence of code points.  At the interface of the
    model (event fields, ids, JSON text) a [str] is carried by the [string]
    of its UTF-8 bytes, and [codepoints] reads the code points back; the
    [str] methods and [float] work on the code points. *)
Definition pystr : Type := list N.

Module Utf8.

Local Open Scope N_scope.

(** A continuation byte, 10xxxxxx. *)
Definition is_continuation (b : N) : bool := (128 <=? b) && (b <? 192).

(** A byte that begins no sequence is read as the lone surrogate
    U+DC00 + b, as the [surrogateescape] error handler does. *)
Definition escape (b : N) : N := 56320 + b.

(** The code points of a byte sequence: one, two, three and four byte
    forms.  The three byte form of a surrogate is read as that surrogate, so
    that every [str] is the reading of some byte sequence. *)
Fixpoint decode (bs : list N) : pystr :=
  match bs with
  | [] => []
  | b0 :: r0 =>
      if b0 <? 128 then b0 :: decode r0
      else
        match r0 with
        | b1 :: r1 =>
            if (192 <=? b0) && (b0 <? 224) && is_continuation b1
            then ((b0 - 192) * 64 + (b1 - 128)) :: decode r1
            else
              match r1 with
              | b2 :: r2 =>
                  if (224 <=? b0) && (b0 <? 240)
                     && is_continuation b1 && is_continuation b2
                  then ((b0 - 224) * 4096 + (b1 - 128) * 64 + (b2 - 128))
                         :: decode r2
                  else
                    match r2 with
                    | b3 :: r3 =>
                        if (240 <=? b0) && (b0 <? 248) && is_continuation b1
                           && is_continuation b2 && is_continuation b3
                        then ((b0 - 240) * 262144 + (b1 - 128) * 4096
                              + (b2 - 128) * 64 + (b3 - 128)) :: decode r3
                        else escape b0 :: decode r0
                    | [] => escape b0 :: decode r0
                    end
              | [] => escape b0 :: decode r0
              end
        | [] => escape b0 :: decode r0
        end
  end.

(** The bytes of one code point. *)
Definition encode1 (c : N) : list N :=
  if c <? 128 then [c]
  else if c <? 2048 then [192 + c / 64; 128 + c mod 64]
  else if c <? 65536
  then [224 + c / 4096; 128 + (c / 64) mod 64; 128 + c mod 64]
  else [240 + (c / 262144) mod 8; 128 + (c / 4096) mod 64;
        128 + (c / 64) mod 64; 128 + c mod 64].

Definition encode (s : pystr) : list N := flat_map encode1 s.

End Utf8.

(** The code points of the [str] that a [string] carries, and back. *)
Definition codepoints (s : string) : pystr :=
  Utf8.decode (map N_of_ascii (list_ascii_of_string s)).

Definition of_codepoints (s : pystr) : string :=
  string_of_list_ascii (map ascii_of_N (Utf8.encode s)).

(** [x == y] on [str]. *)
Fixpoint pystr_eqb (x y : pystr) : bool :=
  match x, y with
  | [], [] => true
  | a :: x', b :: y' => (a =? b)%N && pystr_eqb x' y'
  | _, _ => false
  end.

(** The [str] methods and the conversion to [float], with the tables of the
    Unicode database that CPython 3.11 carries (Unicode 14.0.0). *)
Module PyUnicode.

Local Open Scope N_scope.

(** The code points for which [str.isspace] holds (Py_UNICODE_ISSPACE). *)
Definition WHITESPACE : list N :=
  [9; 10; 11; 12; 13; 28; 29; 30; 31; 32; 133; 160; 5760; 8192; 8193; 8194;
   8195; 8196; 8197; 8198; 8199; 8200; 8201; 8202; 8232; 8233; 8239; 8287;
   12288]%N.

Definition DECIMAL_ZEROS : list N :=
  [48; 1632; 1776; 1984; 2406; 2534; 2662; 2790; 2918; 3046; 3174; 3302;
   3430; 3558; 3664; 3792; 3872; 4160; 4240; 6112; 6160; 6470; 6608; 6784;
   6800; 6992; 7088; 7232; 7248; 42528; 43216; 43264; 43472; 43504; 43600;
   44016; 65296; 66720; 68912; 69734; 69872; 69942; 70096; 70384; 70736;
   70864; 71248; 71360; 71472; 71904; 72016; 72784; 73040; 73120; 92768;
   92864; 93008; 120782; 120792; 120802; 120812; 120822; 123200; 123632;
   125264; 130032]%N.

Definition UPPER : list (N * list N) :=
  [(181, [924]); (223, [83; 83]); (224, [192]); (225, [193]); (226, [194]);
   (227, [195]); (228, [196]); (229, [197]); (230, [198]); (231, [199]);
   (232, [200]); (233, [201]); (234, [202]); (235, [203]); (236, [204]);
   (237, [205]); (238, [206]); (239, [207]); (240, [208]); (241, [209]);
   (242, [210]); (243, [211]); (244, [212]); (245, [213]); (246, [214]);
   (248, [216]); (249, [217]); (250, [218]); (251, [219]); (252, [220]);
   (253, [221]); (254, [222]); (255, [376]); (257, [256]); (259, [258]);
   (261, [260]); (263, [262]); (265, [264]); (267, [266]); (269, [268]);
   (271, [270]); (273, [272]); (275, [274]); (277, [276]); (279, [278]);
   (281, [280]); (283, [282]); (285, [284]); (287, [286]); (289, [288]);
   (291, [290]); (293, [292]); (295, [294]); (297, [296]); (299, [298]);
   (301, [300]); (303, [302]); (305, [73]); (307, [306]); (309, [308]);
   (311, [310]); (314, [313]); (316, [315]); (318, [317]); (320, [319]);
   (322, [321]); (324, [323]); (326, [325]); (328, [327]); (329, [700; 78]);
   (331, [330]); (333, [332]); (335, [334]); (337, [336]); (339, [338]);
   (341, [340]); (343, [342]); (345, [344]); (347, [346]); (349, [348]);
   (351, [350]); (353, [352]); (355, [354]); (357, [356]); (359, [358]);
   (361, [360]); (363, [362]); (365, [364]); (367, [366]); (369, [368]);
   (371, [370]); (373, [372]); (375, [374]); (378, [377]); (380, [379]);
   (382, [381]); (383, [83]); (384, [579]); (387, [386]); (389, [388]);
   (392, [391]); (396, [395]); (402, [401]); (405, [502]); (409, [408]);
   (410, [573]); (414, [544]); (417, [416]); (419, [418]); (421, [420]);
   (424, [423]); (429, [428]); (432, [431]); (436, [435]); (438, [437]);
   (441, [440]); (445, [444]); (447, [503]); (453, [452]); (454, [452]);
   (456, [455]); (457, [455]); (459, [458]); (460, [458]); (462, [461]);
   (464, [463]); (466, [465]); (468, [467]); (470, [469]); (472, [471]);
   (474, [473]); (476, [475]); (477, [398]); (479, [478]); (481, [480]);
   (483, [482]); (485, [484]); (487, [486]); (489, [488]); (491, [490]);
   (493, [492]); (495, [494]); (496, [74; 780]); (498, [497]); (499, [497]);
   (501, [500]); (505, [504]); (507, [506]); (509, [508]); (511, [510]);
   (513, [512]); (515, [514]); (517, [516]); (519, [518]); (521, [520]);
   (523, [522]); (525, [524]); (527, [526]); (529, [528]); (531, [530]);
   (533, [532]); (535, [534]); (537, [536]); (539, [538]); (541, [540]);
   (543, [542]); (547, [546]); (549, [548]); (551, [550]); (553, [552]);
   (555, [554]); (557, [556]); (559, [558]); (561, [560]); (563, [562]);
   (572, [571]); (575, [11390]); (576, [11391]); (578, [577]); (583, [582]);
   (585, [584]); (587, [586]); (589, [588]); (591, [590]); (592, [11375]);
   (593, [11373]); (594, [11376]); (595, [385]); (596, [390]); (598, [393]);
   (599, [394]); (601, [399]); (603, [400]); (604, [42923]); (608, [403]);
   (609, [42924]); (611, [404]); (613, [42893]); (614, [42922]);
   (616, [407]); (617, [406]); (618, [42926]); (619, [11362]);
   (620, [42925]); (623, [412]); (625, [11374]); (626, [413]); (629, [415]);
   (637, [11364]); (640, [422]); (642, [42949]); (643, [425]);
   (647, [42929]); (648, [430]); (649, [580]); (650, [433]); (651, [434]);
   (652, [581]); (658, [439]); (669, [42930]); (670, [42928]); (837, [921]);
   (881, [880]); (883, [882]); (887, [886]); (891, [1021]); (892, [1022]);
   (893, [1023]); (912, [921; 776; 769]); (940, [902]); (941, [904]);
   (942, [905]); (943, [906]); (944, [933; 776; 769]); (945, [913]);
   (946, [914]); (947, [915]); (948, [916]); (949, [917]); (950, [918]);
   (951, [919]); (952, [920]); (953, [921]); (954, [922]); (955, [923]);
   (956, [924]); (957, [925]); (958, [926]); (959, [927]); (960, [928]);
   (961, [929]); (962, [931]); (963, [931]); (964, [932]); (965, [933]);
   (966, [934]); (967, [935]); (968, [936]); (969, [937]); (970, [938]);
   (971, [939]); (972, [908]); (973, [910]); (974, [911]); (976, [914]);
   (977, [920]); (981, [934]); (982, [928]); (983, [975]); (985, [984]);
   (987, [986]); (989, [988]); (991, [990]); (993, [992]); (995, [994]);
   (997, [996]); (999, [998]); (1001, [1000]); (1003, [1002]);
   (1005, [1004]); (1007, [1006]); (1008, [922]); (1009, [929]);
   (1010, [1017]); (1011, [895]); (1013, [917]); (1016, [1015]);
   (1019, [1018]); (1072, [1040]); (1073, [1041]); (1074, [1042]);
   (1075, [1043]); (1076, [1044]); (1077, [1045]); (1078, [1046]);
   (1079, [1047]); (1080, [1048]); (1081, [1049]); (1082, [1050]);
   (1083, [1051]); (1084, [1052]); (1085, [1053]); (1086, [1054]);
   (1087, [1055]); (1088, [1056]); (1089, [1057]); (1090, [1058]);
   (1091, [1059]); (1092, [1060]); (1093, [1061]); (1094, [1062]);
   (1095, [1063]); (1096, [1064]); (1097, [1065]); (1098, [1066]);
   (1099, [1067]); (1100, [1068]); (1101, [1069]); (1102, [1070]);
   (1103, [1071]); (1104, [1024]); (1105, [1025]); (1106, [1026]);
   (1107, [1027]); (1108, [1028]); (1109, [1029]); (1110, [1030]);
   (1111, [1031]); (1112, [1032]); (1113, [1033]); (1114, [1034]);
   (1115, [1035]); (1116, [1036]); (1117, [1037]); (1118, [1038]);
   (1119, [1039]); (1121, [1120]); (1123, [1122]); (1125, [1124]);
   (1127, [1126]); (1129, [1128]); (1131, [1130]); (1133, [1132]);
   (1135, [1134]); (1137, [1136]); (1139, [1138]); (1141, [1140]);
   (1143, [1142]); (1145, [1144]); (1147, [1146]); (1149, [1148]);
   (1151, [1150]); (1153, [1152]); (1163, [1162]); (1165, [1164]);
   (1167, [1166]); (1169, [1168]); (1171, [1170]); (1173, [1172]);
   (1175, [1174]); (1177, [1176]); (1179, [1178]); (1181, [1180]);
   (1183, [1182]); (1185, [1184]); (1187, [1186]); (1189, [1188]);
   (1191, [1190]); (1193, [1192]); (1195, [1194]); (1197, [1196]);
   (1199, [1198]); (1201, [1200]); (1203, [1202]); (1205, [1204]);
   (1207, [1206]); (1209, [1208]); (1211, [1210]); (1213, [1212]);
   (1215, [1214]); (1218, [1217]); (1220, [1219]); (1222, [1221]);
   (1224, [1223]); (1226, [1225]); (1228, [1227]); (1230, [1229]);
   (1231, [1216]); (1233, [1232]); (1235, [1234]); (1237, [1236]);
   (1239, [1238]); (1241, [1240]); (1243, [1242]); (1245, [1244]);
   (1247, [1246]); (1249, [1248]); (1251, [1250]); (1253, [1252]);
   (1255, [1254]); (1257, [1256]); (1259, [1258]); (1261, [1260]);
   (1263, [1262]); (1265, [1264]); (1267, [1266]); (1269, [1268]);
   (1271, [1270]); (1273, [1272]); (1275, [1274]); (1277, [1276]);
   (1279, [1278]); (1281, [1280]); (1283, [1282]); (1285, [1284]);
   (1287, [1286]); (1289, [1288]); (1291, [1290]); (1293, [1292]);
   (1295, [1294]); (1297, [1296]); (1299, [1298]); (1301, [1300]);
   (1303, [1302]); (1305, [1304]); (1307, [1306]); (1309, [1308]);
   (1311, [1310]); (1313, [1312]); (1315, [1314]); (1317, [1316]);
   (1319, [1318]); (1321, [1320]); (1323, [1322]); (1325, [1324]);
   (1327, [1326]); (1377, [1329]); (1378, [1330]); (1379, [1331]);
   (1380, [1332]); (1381, [1333]); (1382, [1334]); (1383, [1335]);
   (1384, [1336]); (1385, [1337]); (1386, [1338]); (1387, [1339]);
   (1388, [1340]); (1389, [1341]); (1390, [1342]); (1391, [1343]);
   (1392, [1344]); (1393, [1345]); (1394, [1346]); (1395, [1347]);
   (1396, [1348]); (1397, [1349]); (1398, [1350]); (1399, [1351]);
   (1400, [1352]); (1401, [1353]); (1402, [1354]); (1403, [1355]);
   (1404, [1356]); (1405, [1357]); (1406, [1358]); (1407, [1359]);
   (1408, [1360]); (1409, [1361]); (1410, [1362]); (1411, [1363]);
   (1412, [1364]); (1413, [1365]); (1414, [1366]); (1415, [1333; 1362]);
   (4304, [7312]); (4305, [7313]); (4306, [7314]); (4307, [7315]);
   (4308, [7316]); (4309, [7317]); (4310, [7318]); (4311, [7319]);
   (4312, [7320]); (4313, [7321]); (4314, [7322]); (4315, [7323]);
   (4316, [7324]); (4317, [7325]); (4318, [7326]); (4319, [7327]);
   (4320, [7328]); (4321, [7329]); (4322, [7330]); (4323, [7331]);
   (4324, [7332]); (4325, [7333]); (4326, [7334]); (4327, [7335]);
   (4328, [7336]); (4329, [7337]); (4330, [7338]); (4331, [7339]);
   (4332, [7340]); (4333, [7341]); (4334, [7342]); (4335, [7343]);
   (4336, [7344]); (4337, [7345]); (4338, [7346]); (4339, [7347]);
   (4340, [7348]); (4341, [7349]); (4342, [7350]); (4343, [7351]);
   (4344, [7352]); (4345, [7353]); (4346, [7354]); (4349, [7357]);
   (4350, [7358]); (4351, [7359]); (5112, [5104]); (5113, [5105]);
   (5114, [5106]); (5115, [5107]); (5116, [5108]); (5117, [5109]);
   (7296, [1042]); (7297, [1044]); (7298, [1054]); (7299, [1057]);
   (7300, [1058]); (7301, [1058]); (7302, [1066]); (7303, [1122]);
   (7304, [42570]); (7545, [42877]); (7549, [11363]); (7566, [42950]);
   (7681, [7680]); (7683, [7682]); (7685, [7684]); (7687, [7686]);
   (7689, [7688]); (7691, [7690]); (7693, [7692]); (7695, [7694]);
   (7697, [7696]); (7699, [7698]); (7701, [7700]); (7703, [7702]);
   (7705, [7704]); (7707, [7706]); (7709, [7708]); (7711, [7710]);
   (7713, [7712]); (7715, [7714]); (7717, [7716]); (7719, [7718]);
   (7721, [7720]); (7723, [7722]); (7725, [7724]); (7727, [7726]);
   (7729, [7728]); (7731, [7730]); (7733, [7732]); (7735, [7734]);
   (7737, [7736]); (7739, [7738]); (7741, [7740]); (7743, [7742]);
   (7745, [7744]); (7747, [7746]); (7749, [7748]); (7751, [7750]);
   (7753, [7752]); (7755, [7754]); (7757, [7756]); (7759, [7758]);
   (7761, [7760]); (7763, [7762]); (7765, [7764]); (7767, [7766]);
   (7769, [7768]); (7771, [7770]); (7773, [7772]); (7775, [7774]);
   (7777, [7776]); (7779, [7778]); (7781, [7780]); (7783, [7782]);
   (7785, [7784]); (7787, [7786]); (7789, [7788]); (7791, [7790]);
   (7793, [7792]); (7795, [7794]); (7797, [7796]); (7799, [7798]);
   (7801, [7800]); (7803, [7802]); (7805, [7804]); (7807, [7806]);
   (7809, [7808]); (7811, [7810]); (7813, [7812]); (7815, [7814]);
   (7817, [7816]); (7819, [7818]); (7821, [7820]); (7823, [7822]);
   (7825, [7824]); (7827, [7826]); (7829, [7828]); (7830, [72; 817]);
   (7831, [84; 776]); (7832, [87; 778]); (7833, [89; 778]);
   (7834, [65; 702]); (7835, [7776]); (7841, [7840]); (7843, [7842]);
   (7845, [7844]); (7847, [7846]); (7849, [7848]); (7851, [7850]);
   (7853, [7852]); (7855, [7854]); (7857, [7856]); (7859, [7858]);
   (7861, [7860]); (7863, [7862]); (7865, [7864]); (7867, [7866]);
   (7869, [7868]); (7871, [7870]); (7873, [7872]); (7875, [7874]);
   (7877, [7876]); (7879, [7878]); (7881, [7880]); (7883, [7882]);
   (7885, [7884]); (7887, [7886]); (7889, [7888]); (7891, [7890]);
   (7893, [7892]); (7895, [7894]); (7897, [7896]); (7899, [7898]);
   (7901, [7900]); (7903, [7902]); (7905, [7904]); (7907, [7906]);
   (7909, [7908]); (7911, [7910]); (7913, [7912]); (7915, [7914]);
   (7917, [7916]); (7919, [7918]); (7921, [7920]); (7923, [7922]);
   (7925, [7924]); (7927, [7926]); (7929, [7928]); (7931, [7930]);
   (7933, [7932]); (7935, [7934]); (7936, [7944]); (7937, [7945]);
   (7938, [7946]); (7939, [7947]); (7940, [7948]); (7941, [7949]);
   (7942, [7950]); (7943, [7951]); (7952, [7960]); (7953, [7961]);
   (7954, [7962]); (7955, [7963]); (7956, [7964]); (7957, [7965]);
   (7968, [7976]); (7969, [7977]); (7970, [7978]); (7971, [7979]);
   (7972, [7980]); (7973, [7981]); (7974, [7982]); (7975, [7983]);
   (7984, [7992]); (7985, [7993]); (7986, [7994]); (7987, [7995]);
   (7988, [7996]); (7989, [7997]); (7990, [7998]); (7991, [7999]);
   (8000, [8008]); (8001, [8009]); (8002, [8010]); (8003, [8011]);
   (8004, [8012]); (8005, [8013]); (8016, [933; 787]); (8017, [8025]);
   (8018, [933; 787; 768]); (8019, [8027]); (8020, [933; 787; 769]);
   (8021, [8029]); (8022, [933; 787; 834]); (8023, [8031]); (8032, [8040]);
   (8033, [8041]); (8034, [8042]); (8035, [8043]); (8036, [8044]);
   (8037, [8045]); (8038, [8046]); (8039, [8047]); (8048, [8122]);
   (8049, [8123]); (8050, [8136]); (8051, [8137]); (8052, [8138]);
   (8053, [8139]); (8054, [8154]); (8055, [8155]); (8056, [8184]);
   (8057, [8185]); (8058, [8170]); (8059, [8171]); (8060, [8186]);
   (8061, [8187]); (8064, [7944; 921]); (8065, [7945; 921]);
   (8066, [7946; 921]); (8067, [7947; 921]); (8068, [7948; 921]);
   (8069, [7949; 921]); (8070, [7950; 921]); (8071, [7951; 921]);
   (8072, [7944; 921]); (8073, [7945; 921]); (8074, [7946; 921]);
   (8075, [7947; 921]); (8076, [7948; 921]); (8077, [7949; 921]);
   (8078, [7950; 921]); (8079, [7951; 921]); (8080, [7976; 921]);
   (8081, [7977; 921]); (8082, [7978; 921]); (8083, [7979; 921]);
   (8084, [7980; 921]); (8085, [7981; 921]); (8086, [7982; 921]);
   (8087, [7983; 921]); (8088, [7976; 921]); (8089, [7977; 921]);
   (8090, [7978; 921]); (8091, [7979; 921]); (8092, [7980; 921]);
   (8093, [7981; 921]); (8094, [7982; 921]); (8095, [7983; 921]);
   (8096, [8040; 921]); (8097, [8041; 921]); (8098, [8042; 921]);
   (8099, [8043; 921]); (8100, [8044; 921]); (8101, [8045; 921]);
   (8102, [8046; 921]); (8103, [8047; 921]); (8104, [8040; 921]);
   (8105, [8041; 921]); (8106, [8042; 921]); (8107, [8043; 921]);
   (8108, [8044; 921]); (8109, [8045; 921]); (8110, [8046; 921]);
   (8111, [8047; 921]); (8112, [8120]); (8113, [8121]); (8114, [8122; 921]);
   (8115, [913; 921]); (8116, [902; 921]); (8118, [913; 834]);
   (8119, [913; 834; 921]); (8124, [913; 921]); (8126, [921]);
   (8130, [8138; 921]); (8131, [919; 921]); (8132, [905; 921]);
   (8134, [919; 834]); (8135, [919; 834; 921]); (8140, [919; 921]);
   (8144, [8152]); (8145, [8153]); (8146, [921; 776; 768]);
   (8147, [921; 776; 769]); (8150, [921; 834]); (8151, [921; 776; 834]);
   (8160, [8168]); (8161, [8169]); (8162, [933; 776; 768]);
   (8163, [933; 776; 769]); (8164, [929; 787]); (8165, [8172]);
   (8166, [933; 834]); (8167, [933; 776; 834]); (8178, [8186; 921]);
   (8179, [937; 921]); (8180, [911; 921]); (8182, [937; 834]);
   (8183, [937; 834; 921]); (8188, [937; 921]); (8526, [8498]);
   (8560, [8544]); (8561, [8545]); (8562, [8546]); (8563, [8547]);
   (8564, [8548]); (8565, [8549]); (8566, [8550]); (8567, [8551]);
   (8568, [8552]); (8569, [8553]); (8570, [8554]); (8571, [8555]);
   (8572, [8556]); (8573, [8557]); (8574, [8558]); (8575, [8559]);
   (8580, [8579]); (9424, [9398]); (9425, [9399]); (9426, [9400]);
   (9427, [9401]); (9428, [9402]); (9429, [9403]); (9430, [9404]);
   (9431, [9405]); (9432, [9406]); (9433, [9407]); (9434, [9408]);
   (9435, [9409]); (9436, [9410]); (9437, [9411]); (9438, [9412]);
   (9439, [9413]); (9440, [9414]); (9441, [9415]); (9442, [9416]);
   (9443, [9417]); (9444, [9418]); (9445, [9419]); (9446, [9420]);
   (9447, [9421]); (9448, [9422]); (9449, [9423]); (11312, [11264]);
   (11313, [11265]); (11314, [11266]); (11315, [11267]); (11316, [11268]);
   (11317, [11269]); (11318, [11270]); (11319, [11271]); (11320, [11272]);
   (11321, [11273]); (11322, [11274]); (11323, [11275]); (11324, [11276]);
   (11325, [11277]); (11326, [11278]); (11327, [11279]); (11328, [11280]);
   (11329, [11281]); (11330, [11282]); (11331, [11283]); (11332, [11284]);
   (11333, [11285]); (11334, [11286]); (11335, [11287]); (11336, [11288]);
   (11337, [11289]); (11338, [11290]); (11339, [11291]); (11340, [11292]);
   (11341, [11293]); (11342, [11294]); (11343, [11295]); (11344, [11296]);
   (11345, [11297]); (11346, [11298]); (11347, [11299]); (11348, [11300]);
   (11349, [11301]); (11350, [11302]); (11351, [11303]); (11352, [11304]);
   (11353, [11305]); (11354, [11306]); (11355, [11307]); (11356, [11308]);
   (11357, [11309]); (11358, [11310]); (11359, [11311]); (11361, [11360]);
   (11365, [570]); (11366, [574]); (11368, [11367]); (11370, [11369]);
   (11372, [11371]); (11379, [11378]); (11382, [11381]); (11393, [11392]);
   (11395, [11394]); (11397, [11396]); (11399, [11398]); (11401, [11400]);
   (11403, [11402]); (11405, [11404]); (11407, [11406]); (11409, [11408]);
   (11411, [11410]); (11413, [11412]); (11415, [11414]); (11417, [11416]);
   (11419, [11418]); (11421, [11420]); (11423, [11422]); (11425, [11424]);
   (11427, [11426]); (11429, [11428]); (11431, [11430]); (11433, [11432]);
   (11435, [11434]); (11437, [11436]); (11439, [11438]); (11441, [11440]);
   (11443, [11442]); (11445, [11444]); (11447, [11446]); (11449, [11448]);
   (11451, [11450]); (11453, [11452]); (11455, [11454]); (11457, [11456]);
   (11459, [11458]); (11461, [11460]); (11463, [11462]); (11465, [11464]);
   (11467, [11466]); (11469, [11468]); (11471, [11470]); (11473, [11472]);
   (11475, [11474]); (11477, [11476]); (11479, [11478]); (11481, [11480]);
   (11483, [11482]); (11485, [11484]); (11487, [11486]); (11489, [11488]);
   (11491, [11490]); (11500, [11499]); (11502, [11501]); (11507, [11506]);
   (11520, [4256]); (11521, [4257]); (11522, [4258]); (11523, [4259]);
   (11524, [4260]); (11525, [4261]); (11526, [4262]); (11527, [4263]);
   (11528, [4264]); (11529, [4265]); (11530, [4266]); (11531, [4267]);
   (11532, [4268]); (11533, [4269]); (11534, [4270]); (11535, [4271]);
   (11536, [4272]); (11537, [4273]); (11538, [4274]); (11539, [4275]);
   (11540, [4276]); (11541, [4277]); (11542, [4278]); (11543, [4279]);
   (11544, [4280]); (11545, [4281]); (11546, [4282]); (11547, [4283]);
   (11548, [4284]); (11549, [4285]); (11550, [4286]); (11551, [4287]);
   (11552, [4288]); (11553, [4289]); (11554, [4290]); (11555, [4291]);
   (11556, [4292]); (11557, [4293]); (11559, [4295]); (11565, [4301]);
   (42561, [42560]); (42563, [42562]); (42565, [42564]); (42567, [42566]);
   (42569, [42568]); (42571, [42570]); (42573, [42572]); (42575, [42574]);
   (42577, [42576]); (42579, [42578]); (42581, [42580]); (42583, [42582]);
   (42585, [42584]); (42587, [42586]); (42589, [42588]); (42591, [42590]);
   (42593, [42592]); (42595, [42594]); (42597, [42596]); (42599, [42598]);
   (42601, [42600]); (42603, [42602]); (42605, [42604]); (42625, [42624]);
   (42627, [42626]); (42629, [42628]); (42631, [42630]); (42633, [42632]);
   (42635, [42634]); (42637, [42636]); (42639, [42638]); (42641, [42640]);
   (42643, [42642]); (42645, [42644]); (42647, [42646]); (42649, [42648]);
   (42651, [42650]); (42787, [42786]); (42789, [42788]); (42791, [42790]);
   (42793, [42792]); (42795, [42794]); (42797, [42796]); (42799, [42798]);
   (42803, [42802]); (42805, [42804]); (42807, [42806]); (42809, [42808]);
   (42811, [42810]); (42813, [42812]); (42815, [42814]); (42817, [42816]);
   (42819, [42818]); (42821, [42820]); (42823, [42822]); (42825, [42824]);
   (42827, [42826]); (42829, [42828]); (42831, [42830]); (42833, [42832]);
   (42835, [42834]); (42837, [42836]); (42839, [42838]); (42841, [42840]);
   (42843, [42842]); (42845, [42844]); (42847, [42846]); (42849, [42848]);
   (42851, [42850]); (42853, [42852]); (42855, [42854]); (42857, [42856]);
   (42859, [42858]); (42861, [42860]); (42863, [42862]); (42874, [42873]);
   (42876, [42875]); (42879, [42878]); (42881, [42880]); (42883, [42882]);
   (42885, [42884]); (42887, [42886]); (42892, [42891]); (42897, [42896]);
   (42899, [42898]); (42900, [42948]); (42903, [42902]); (42905, [42904]);
   (42907, [42906]); (42909, [42908]); (42911, [42910]); (42913, [42912]);
   (42915, [42914]); (42917, [42916]); (42919, [42918]); (42921, [42920]);
   (42933, [42932]); (42935, [42934]); (42937, [42936]); (42939, [42938]);
   (42941, [42940]); (42943, [42942]); (42945, [42944]); (42947, [42946]);
   (42952, [42951]); (42954, [42953]); (42961, [42960]); (42967, [42966]);
   (42969, [42968]); (42998, [42997]); (43859, [42931]); (43888, [5024]);
   (43889, [5025]); (43890, [5026]); (43891, [5027]); (43892, [5028]);
   (43893, [5029]); (43894, [5030]); (43895, [5031]); (43896, [5032]);
   (43897, [5033]); (43898, [5034]); (43899, [5035]); (43900, [5036]);
   (43901, [5037]); (43902, [5038]); (43903, [5039]); (43904, [5040]);
   (43905, [5041]); (43906, [5042]); (43907, [5043]); (43908, [5044]);
   (43909, [5045]); (43910, [5046]); (43911, [5047]); (43912, [5048]);
   (43913, [5049]); (43914, [5050]); (43915, [5051]); (43916, [5052]);
   (43917, [5053]); (43918, [5054]); (43919, [5055]); (43920, [5056]);
   (43921, [5057]); (43922, [5058]); (43923, [5059]); (43924, [5060]);
   (43925, [5061]); (43926, [5062]); (43927, [5063]); (43928, [5064]);
   (43929, [5065]); (43930, [5066]); (43931, [5067]); (43932, [5068]);
   (43933, [5069]); (43934, [5070]); (43935, [5071]); (43936, [5072]);
   (43937, [5073]); (43938, [5074]); (43939, [5075]); (43940, [5076]);
   (43941, [5077]); (43942, [5078]); (43943, [5079]); (43944, [5080]);
   (43945, [5081]); (43946, [5082]); (43947, [5083]); (43948, [5084]);
   (43949, [5085]); (43950, [5086]); (43951, [5087]); (43952, [5088]);
   (43953, [5089]); (43954, [5090]); (43955, [5091]); (43956, [5092]);
   (43957, [5093]); (43958, [5094]); (43959, [5095]); (43960, [5096]);
   (43961, [5097]); (43962, [5098]); (43963, [5099]); (43964, [5100]);
   (43965, [5101]); (43966, [5102]); (43967, [5103]); (64256, [70; 70]);
   (64257, [70; 73]); (64258, [70; 76]); (64259, [70; 70; 73]);
   (64260, [70; 70; 76]); (64261, [83; 84]); (64262, [83; 84]);
   (64275, [1348; 1350]); (64276, [1348; 1333]); (64277, [1348; 1339]);
   (64278, [1358; 1350]); (64279, [1348; 1341]); (65345, [65313]);
   (65346, [65314]); (65347, [65315]); (65348, [65316]); (65349, [65317]);
   (65350, [65318]); (65351, [65319]); (65352, [65320]); (65353, [65321]);
   (65354, [65322]); (65355, [65323]); (65356, [65324]); (65357, [65325]);
   (65358, [65326]); (65359, [65327]); (65360, [65328]); (65361, [65329]);
   (65362, [65330]); (65363, [65331]); (65364, [65332]); (65365, [65333]);
   (65366, [65334]); (65367, [65335]); (65368, [65336]); (65369, [65337]);
   (65370, [65338]); (66600, [66560]); (66601, [66561]); (66602, [66562]);
   (66603, [66563]); (66604, [66564]); (66605, [66565]); (66606, [66566]);
   (66607, [66567]); (66608, [66568]); (66609, [66569]); (66610, [66570]);
   (66611, [66571]); (66612, [66572]); (66613, [66573]); (66614, [66574]);
   (66615, [66575]); (66616, [66576]); (66617, [66577]); (66618, [66578]);
   (66619, [66579]); (66620, [66580]); (66621, [66581]); (66622, [66582]);
   (66623, [66583]); (66624, [66584]); (66625, [66585]); (66626, [66586]);
   (66627, [66587]); (66628, [66588]); (66629, [66589]); (66630, [66590]);
   (66631, [66591]); (66632, [66592]); (66633, [66593]); (66634, [66594]);
   (66635, [66595]); (66636, [66596]); (66637, [66597]); (66638, [66598]);
   (66639, [66599]); (66776, [66736]); (66777, [66737]); (66778, [66738]);
   (66779, [66739]); (66780, [66740]); (66781, [66741]); (66782, [66742]);
   (66783, [66743]); (66784, [66744]); (66785, [66745]); (66786, [66746]);
   (66787, [66747]); (66788, [66748]); (66789, [66749]); (66790, [66750]);
   (66791, [66751]); (66792, [66752]); (66793, [66753]); (66794, [66754]);
   (66795, [66755]); (66796, [66756]); (66797, [66757]); (66798, [66758]);
   (66799, [66759]); (66800, [66760]); (66801, [66761]); (66802, [66762]);
   (66803, [66763]); (66804, [66764]); (66805, [66765]); (66806, [66766]);
   (66807, [66767]); (66808, [66768]); (66809, [66769]); (66810, [66770]);
   (66811, [66771]); (66967, [66928]); (66968, [66929]); (66969, [66930]);
   (66970, [66931]); (66971, [66932]); (66972, [66933]); (66973, [66934]);
   (66974, [66935]); (66975, [66936]); (66976, [66937]); (66977, [66938]);
   (66979, [66940]); (66980, [66941]); (66981, [66942]); (66982, [66943]);
   (66983, [66944]); (66984, [66945]); (66985, [66946]); (66986, [66947]);
   (66987, [66948]); (66988, [66949]); (66989, [66950]); (66990, [66951]);
   (66991, [66952]); (66992, [66953]); (66993, [66954]); (66995, [66956]);
   (66996, [66957]); (66997, [66958]); (66998, [66959]); (66999, [66960]);
   (67000, [66961]); (67001, [66962]); (67003, [66964]); (67004, [66965]);
   (68800, [68736]); (68801, [68737]); (68802, [68738]); (68803, [68739]);
   (68804, [68740]); (68805, [68741]); (68806, [68742]); (68807, [68743]);
   (68808, [68744]); (68809, [68745]); (68810, [68746]); (68811, [68747]);
   (68812, [68748]); (68813, [68749]); (68814, [68750]); (68815, [68751]);
   (68816, [68752]); (68817, [68753]); (68818, [68754]); (68819, [68755]);
   (68820, [68756]); (68821, [68757]); (68822, [68758]); (68823, [68759]);
   (68824, [68760]); (68825, [68761]); (68826, [68762]); (68827, [68763]);
   (68828, [68764]); (68829, [68765]); (68830, [68766]); (68831, [68767]);
   (68832, [68768]); (68833, [68769]); (68834, [68770]); (68835, [68771]);
   (68836, [68772]); (68837, [68773]); (68838, [68774]); (68839, [68775]);
   (68840, [68776]); (68841, [68777]); (68842, [68778]); (68843, [68779]);
   (68844, [68780]); (68845, [68781]); (68846, [68782]); (68847, [68783]);
   (68848, [68784]); (68849, [68785]); (68850, [68786]); (71872, [71840]);
   (71873, [71841]); (71874, [71842]); (71875, [71843]); (71876, [71844]);
   (71877, [71845]); (71878, [71846]); (71879, [71847]); (71880, [71848]);
   (71881, [71849]); (71882, [71850]); (71883, [71851]); (71884, [71852]);
   (71885, [71853]); (71886, [71854]); (71887, [71855]); (71888, [71856]);
   (71889, [71857]); (71890, [71858]); (71891, [71859]); (71892, [71860]);
   (71893, [71861]); (71894, [71862]); (71895, [71863]); (71896, [71864]);
   (71897, [71865]); (71898, [71866]); (71899, [71867]); (71900, [71868]);
   (71901, [71869]); (71902, [71870]); (71903, [71871]); (93792, [93760]);
   (93793, [93761]); (93794, [93762]); (93795, [93763]); (93796, [93764]);
   (93797, [93765]); (93798, [93766]); (93799, [93767]); (93800, [93768]);
   (93801, [93769]); (93802, [93770]); (93803, [93771]); (93804, [93772]);
   (93805, [93773]); (93806, [93774]); (93807, [93775]); (93808, [93776]);
   (93809, [93777]); (93810, [93778]); (93811, [93779]); (93812, [93780]);
   (93813, [93781]); (93814, [93782]); (93815, [93783]); (93816, [93784]);
   (93817, [93785]); (93818, [93786]); (93819, [93787]); (93820, [93788]);
   (93821, [93789]); (93822, [93790]); (93823, [93791]); (125218, [125184]);
   (125219, [125185]); (125220, [125186]); (125221, [125187]);
   (125222, [125188]); (125223, [125189]); (125224, [125190]);
   (125225, [125191]); (125226, [125192]); (125227, [125193]);
   (125228, [125194]); (125229, [125195]); (125230, [125196]);
   (125231, [125197]); (125232, [125198]); (125233, [125199]);
   (125234, [125200]); (125235, [125201]); (125236, [125202]);
   (125237, [125203]); (125238, [125204]); (125239, [125205]);
   (125240, [125206]); (125241, [125207]); (125242, [125208]);
   (125243, [125209]); (125244, [125210]); (125245, [125211]);
   (125246, [125212]); (125247, [125213]); (125248, [125214]);
   (125249, [125215]); (125250, [125216]); (125251, [125217])]%N.

Definition is_space (c : N) : bool := existsb (N.eqb c) WHITESPACE.

(** Py_UNICODE_TODECIMAL: the digit value of a decimal digit of any
    script. *)
Definition to_decimal (c : N) : option N :=
  match find (fun z => (z <=? c) && (c <? z + 10)) DECIMAL_ZEROS with
  | Some z => Some (c - z)
  | None => None
  end.

(** The full uppercase mapping of one code point: a..z go to A..Z, the
    table gives the rest, anything else is unchanged. *)
Definition to_upper (c : N) : list N :=
  if c <? 128 then [if (97 <=? c) && (c <=? 122) then c - 32 else c]
  else
    match find (fun e => fst e =? c) UPPER with
    | Some e => snd e
    | None => [c]
    end.

(** Removal of leading whitespace. *)
Fixpoint lstrip (s : pystr) : pystr :=
  match s with
  | [] => []
  | c :: r => if is_space c then lstrip r else s
  end.

(** Removal of trailing whitespace. *)
Definition rstrip (s : pystr) : pystr := rev (lstrip (rev s)).

(** [s.strip()] *)
Definition strip (s : pystr) : pystr := rstrip (lstrip s).

(** [s.upper()] *)
Definition upper (s : pystr) : pystr := flat_map to_upper s.

(** PyUnicode_IS_ASCII *)
Definition is_ascii (s : pystr) : bool := forallb (fun c => c <? 128) s.

(** The ASCII buffer made of a text that is not ASCII: a code point below
    127 is copied, whitespace becomes a space, a decimal digit of any script
    the ASCII digit; at the first other code point a question mark is
    written and the buffer ends. *)
Fixpoint transform_from (s : pystr) : list ascii :=
  match s with
  | [] => []
  | c :: r =>
      if c <? 127 then ascii_of_N c :: transform_from r
      else if is_space c then " "%char :: transform_from r
      else
        match to_decimal c with
        | Some d => ascii_of_N (48 + d) :: transform_from r
        | None => ["?"%char]
        end
  end.

(** _PyUnicode_TransformDecimalAndSpaceToASCII: an ASCII text is handed
    over as it is. *)
Definition transform (s : pystr) : list ascii :=
  if is_ascii s then map ascii_of_N s else transform_from s.

(** [float(s)] for a [str]. *)
Definition to_float (s : pystr) : option Float.float :=
  PyFloat.of_string (transform s).

End PyUnicode.

(** [float(s)] on the carrier [string]. *)
Definition py_float (s : string) : option float :=
  PyUnicode.to_float (codepoints s).

(* ===================================================================== *)
(** * app/logic.py                                                        *)
(* ===================================================================== *)

(** The list of known invalid patterns. *)
Definition INVALID_PATTERNS : list string :=
  ["D$Q"; "-"; ""; "NAN"; "NONE"; "NULL"]%string.

(** [x in l] for a list of strings. *)
Definition str_in (x : pystr) (l : list string) : bool :=
  existsb (fun p => pystr_eqb x (codepoints p)) l.

(** The token compared and parsed: [str(coord).strip().upper()]. *)
Definition coord_token (coord : string) : pystr :=
  PyUnicode.upper (PyUnicode.strip (codepoints coord)).

(** normalize_coordinate.  The [try] block is the match on the result of
    [float]: [ValueError] is the only exception [float] raises on a [str],
    and it is caught. *)
Definition normalize_coordinate (coord : option string) : float :=
  match coord with
  | None => Float.zero
  | Some c =>
      let coord_str := coord_token c in
      if str_in coord_str INVALID_PATTERNS then Float.zero
      else
        match PyUnicode.to_float coord_str with
        | Some value =>
            if Float.ltb (Float.of_Z 180) (Float.abs value) then Float.zero
            else value
        | None => Float.zero
        end
  end.

(** LocationEvent.normalize_coordinates (app/models.py), the validator run
    on the raw [latitude] and [longitude] before an event is built. *)
Definition normalize_coordinates (v : option string) : string :=
  match v with
  | None => "0.0"
  | Some raw =>
      let v_str := coord_token raw in
      if str_in v_str INVALID_PATTERNS then "0.0"
      else
        match PyUnicode.to_float v_str with
        | Some _ => of_codepoints v_str
        | None => "0.0"
        end
  end.

(** The transition test of process_location_event, the chain
    [if old is None and new is not None ... elif ... elif ... else]. *)
Definition classify_transition (old_zone_id new_zone_id : option string)
    : option ZoneTransition :=
  if negb (bool_decide (is_Some old_zone_id)) && bool_decide (is_Some new_zone_id)
  then Some ENTER
  else if bool_decide (is_Some old_zone_id) && negb (bool_decide (is_Some new_zone_id))
  then Some EXIT
  else if bool_decide (old_zone_id <> new_zone_id)
          && bool_decide (is_Some old_zone_id)
          && bool_decide (is_Some new_zone_id)
  then Some CHANGE
  else None.

(** [event.timestamp or datetime.utcnow()]: a [datetime] is never falsy, so
    the clock is read exactly when the event carries no timestamp. *)
Definition event_time (now : datetime) (event : LocationEvent) : datetime :=
  match ev_timestamp event with
  | Some t => t
  | None => now
  end.

(** process_location_event.  [zones] is the catalog that [get_zones()]
    returns (loaded once and cached; a catalog that fails to load is the
    subject of load_zones below), [now] the clock.  The vehicle's state is
    updated in place in the source: here it is written back under its id. *)
Definition process_location_event (zones : list Zone) (now : datetime)
    (event : LocationEvent) (sm : StateManager)
    : StateManager * (option string * option ZoneTransition) :=
  let lat := normalize_coordinate (Some (ev_latitude event)) in
  let lng := normalize_coordinate (Some (ev_longitude event)) in
  let '(sm1, vehicle_state) := get_vehicle sm (ev_vehicle_id event) in
  let old_zone_id := current_zone vehicle_state in
  let new_zone := find_zone lat lng zones in
  let new_zone_id := option_map zone_id new_zone in
  let transition := classify_transition old_zone_id new_zone_id in
  let timestamp := event_time now event in
  let vehicle_state := update_location vehicle_state lat lng timestamp in
  match transition with
  | Some t =>
      let vehicle_state := update_zone vehicle_state new_zone_id t timestamp in
      let sm2 :=
        {| _vehicles := <[ev_vehicle_id event := vehicle_state]> (_vehicles sm1);
           _zone_counts := _zone_counts sm1 |} in
      (update_zone_count sm2 old_zone_id new_zone_id, (new_zone_id, transition))
  | None =>
      ({| _vehicles := <[ev_vehicle_id event := vehicle_state]> (_vehicles sm1);
          _zone_counts := _zone_counts sm1 |}, (new_zone_id, transition))
  end.

(** Processing a sequence of events in order, collecting the results. *)
Fixpoint process_all (zones : list Zone) (events : list (datetime * LocationEvent))
    (sm : StateManager) : StateManager * list (option string * option ZoneTransition) :=
  match events with
  | [] => (sm, [])
  | (now, ev) :: rest =>
      let '(sm1, r) := process_location_event zones now ev sm in
      let '(sm2, rs) := process_all zones rest sm1 in
      (sm2, r :: rs)
  end.

(* ===================================================================== *)
(** * app/main.py: get_vehicle_status                                     *)
(* ===================================================================== *)

(** get_vehicle_status: [state_manager.get_vehicle(vehicle_id).to_status()]. *)
Definition get_vehicle_status (sm : StateManager) (vid : string)
    : StateManager * VehicleStatus :=
  let '(sm1, vehicle_state) := get_vehicle sm vid in
  (sm1, to_status vehicle_state).

(* ===================================================================== *)
(** * app/zones.py: load_zones                                            *)
(* ===================================================================== *)

(** A decoded JSON value, as [json.load] returns it.  A [JDict] lists the
    items of the dict in insertion order, with distinct keys. *)
#[local] Set Warnings "-register-all".
Inductive json : Type :=
  | JNull
  | JBool (b : bool)
  | JInt (n : Z)
  | JFloat (x : float)
  | JString (s : string)
  | JList (l : list json)
  | JDict (d : list (string * json)).

(** What is found at the zones path when it exists: bytes that are not text
    in the encoding of [open], so that reading raises; text that [json.load]
    rejects; or the value the text decodes to. *)
Inductive FileContents : Type :=
  | NotText
  | Undecodable
  | Decoded (data : json).

(** The exceptions that leave load_zones. *)
Inductive LoadError : Type :=
  | UnicodeDecodeError (* raised while reading, passed on as it is *)
  | InvalidJSON        (* ValueError("Invalid JSON in zones file: ...") *)
  | InvalidFormat      (* ValueError("Invalid zones.json format: ...") *)
  | NotIterable        (* TypeError: object is not iterable *)
  | NotAMapping        (* TypeError: the unpacked argument must be a mapping *)
  | ValidationError.   (* pydantic: a field is missing or ill-typed *)

Inductive result (A : Type) : Type :=
  | Ok (a : A)
  | Raise (e : LoadError).

Arguments Ok {A} a.
Arguments Raise {A} e.

(** [k in d] and [d[k]] on a decoded dict. *)
Definition dict_lookup (k : string) (d : list (string * json)) : option json :=
  option_map snd (find (fun kv => String.eqb (fst kv) k) d).

(** Iteration [for x in v]: the elements of a list, the keys of a dict, the
    characters of a string; anything else is not iterable. *)
Definition py_iter (v : json) : option (list json) :=
  match v with
  | JList l => Some l
  | JDict d => Some (map (fun kv => JString (fst kv)) d)
  | JString s =>
      Some (map (fun c => JString (of_codepoints [c])) (codepoints s))
  | _ => None
  end.

(** _get_default_zones *)
Definition _get_default_zones : list Zone :=
  [ {| zone_id := "zone_1";
       name := "Downtown";
       min_lat := Float.of_decimal false 377749 (-4);
       max_lat := Float.of_decimal false 377849 (-4);
       min_lng := Float.of_decimal true 1224194 (-4);
       max_lng := Float.of_decimal true 1224094 (-4) |};
    {| zone_id := "zone_2";
       name := "Airport";
       min_lat := Float.of_decimal false 376213 (-4);
       max_lat := Float.of_decimal false 376313 (-4);
       min_lng := Float.of_decimal true 1223789 (-4);
       max_lng := Float.of_decimal true 1223689 (-4) |} ].

Section ZoneLoading.

(** The field validators of the pydantic model: what a [str] field and a
    [float] field accept, and the value they store. *)
Variable validate_str : json -> option string.
Variable validate_float : json -> option float.

Definition field {A : Type} (validate : json -> option A) (k : string)
    (d : list (string * json)) : option A :=
  match dict_lookup k d with
  | Some v => validate v
  | None => None
  end.

(** The constructor call on [zone_data] unpacked as keyword arguments: the
    argument must be a dict, and all six declared fields are required. *)
Definition Zone_of_json (zone_data : json) : result Zone :=
  match zone_data with
  | JDict d =>
      match field validate_str "zone_id" d, field validate_str "name" d,
            field validate_float "min_lat" d, field validate_float "max_lat" d,
            field validate_float "min_lng" d, field validate_float "max_lng" d with
      | Some i, Some n, Some a, Some b, Some c, Some e =>
          Ok {| zone_id := i; name := n; min_lat := a; max_lat := b;
                min_lng := c; max_lng := e |}
      | _, _, _, _, _, _ => Raise ValidationError
      end
  | _ => Raise NotAMapping
  end.

(** The list comprehension that builds one [Zone] per element of [items]:
    the first failing element raises. *)
Fixpoint build_zones (items : list json) : result (list Zone) :=
  match items with
  | [] => Ok []
  | zone_data :: rest =>
      match Zone_of_json zone_data with
      | Raise e => Raise e
      | Ok z =>
          match build_zones rest with
          | Raise e => Raise e
          | Ok zs => Ok (z :: zs)
          end
      end
  end.

(** load_zones.  [zones_file] is [None] when [zones_path.exists()] is
    false.  JSONDecodeError is turned into a ValueError; every other
    exception is passed on. *)
Definition load_zones (zones_file : option FileContents) : result (list Zone) :=
  match zones_file with
  | None => Ok _get_default_zones
  | Some NotText => Raise UnicodeDecodeError
  | Some Undecodable => Raise InvalidJSON
  | Some (Decoded data) =>
      match data with
      | JList l => build_zones l
      | JDict d =>
          match dict_lookup "zones" d with
          | Some v =>
              match py_iter v with
              | Some items => build_zones items
              | None => Raise NotIterable
              end
          | None => Raise InvalidFormat
          end
      | _ => Raise InvalidFormat
      end
  end.

Definition raises {A : Type} (r : result A) : Prop :=
  exists e, r = Raise e.

End ZoneLoading.

(** The field validators of pydantic for the declared types of [Zone], on a
    value that comes from JSON.  A [str] field takes a string and nothing
    else. *)
Definition json_str (j : json) : option string :=
  match j with JString s => Some s | _ => None end.

Section Pydantic.

(** What pydantic makes of a text given for a [float] field: it has its own
    reader of numbers in text, which is left open here. *)
Variable str_as_float : string -> option float.

(** A [float] field takes a float as it is, an integer that converts to a
    float without overflow, a boolean (as 1.0 or 0.0), and a text that
    reads as a number. *)
Definition pydantic_float (j : json) : option float :=
  match j with
  | JFloat x => Some x
  | JInt n =>
      let x := Float.of_Z n in
      if Float.is_finite x then Some x else None
  | JBool b => Some (Float.of_Z (if b then 1 else 0))
  | JString s => str_as_float s
  | _ => None
  end.

End Pydantic.

(** In closed examples a text bound is read as Python's [float] reads it;
    none of the examples below has a text bound. *)
Definition float_field : json -> option float := pydantic_float py_float.

(* ===================================================================== *)
(** * Predicates used in the statements                                   *)
(* ===================================================================== *)

(** The point lies in the closed rectangle of [z]: all four comparisons
    are inclusive. *)
Definition within (z : Zone) (lat lng : float) : Prop :=
  Float.leb (min_lat z) lat = true /\ Float.leb lat (max_lat z) = true /\
  Float.leb (min_lng z) lng = true /\ Float.leb lng (max_lng z) = true.

(** The record that processing one event appends to the history of the
    event's vehicle, if the event produces a transition: the transition
    kind, the zone before, the zone after and the event time. *)
Definition event_record (zones : list Zone) (now : datetime)
    (ev : LocationEvent) (sm : StateManager) : list TransitionRecord :=
  match snd (process_location_event zones now ev sm) with
  | (new_zone_id, Some t) =>
      [ {| tr_transition := ZoneTransition_value t;
           tr_from_zone := current_zone (snd (get_vehicle sm (ev_vehicle_id ev)));
           tr_to_zone := new_zone_id;
           tr_timestamp := event_time now ev |} ]
  | (_, None) => []
  end.

(** All records produced for vehicle [vid] while a sequence of events is
    processed, oldest first, with nothing dropped. *)
Fixpoint transition_log (zones : list Zone)
    (events : list (datetime * LocationEvent)) (sm : StateManager)
    (vid : string) : list TransitionRecord :=
  match events with
  | [] => []
  | (now, ev) :: rest =>
      (if String.eqb (ev_vehicle_id ev) vid
       then event_record zones now ev sm else [])
      ++ transition_log zones rest
           (fst (process_location_event zones now ev sm)) vid
  end.

(** The state of vehicle [vid] as [get_vehicle] would return it: the stored
    state, or a fresh one for an id not seen yet. *)
Definition vehicle_view (sm : StateManager) (vid : string) : VehicleState :=
  snd (get_vehicle sm vid).

(** Every stored occupancy count is non-negative. *)
Definition counts_nonneg (sm : StateManager) : Prop :=
  forall z n, _zone_counts sm !! z = Some n -> 0 <= n.

(** A sequence of calls of update_zone_count. *)
Definition apply_updates (updates : list (option string * option string))
    (sm : StateManager) : StateManager :=
  fold_left (fun s u => update_zone_count s (fst u) (snd u)) updates sm.

(** Sample events against the default catalog: a point inside the
    Downtown zone, one inside the Airport zone, and one outside both. *)
Definition ev_downtown : LocationEvent :=
  {| ev_vehicle_id := "vehicle_1"; ev_latitude := "37.78";
     ev_longitude := "-122.41"; ev_timestamp := None |}.

Definition ev_airport : LocationEvent :=
  {| ev_vehicle_id := "vehicle_1"; ev_latitude := "37.625";
     ev_longitude := "-122.375"; ev_timestamp := None |}.

Definition ev_outside : LocationEvent :=
  {| ev_vehicle_id := "vehicle_1"; ev_latitude := "37.70";
     ev_longitude := "-122.50"; ev_timestamp := None |}.

(** [n] events at times [t], [t+1], ... that alternate between the Downtown
    zone and the outside, so that each one produces a transition for a
    vehicle that starts outside. *)
Fixpoint shuttle (n : nat) (t : datetime) (inside : bool)
    : list (datetime * LocationEvent) :=
  match n with
  | O => []
  | S k =>
      (t, if inside then ev_outside else ev_downtown)
        :: shuttle k (t + 1) (negb inside)
  end.

(** ** Zone records and file shapes *)

Definition json_is_string (j : json) : Prop := exists s, j = JString s.

Definition json_is_number (j : json) : Prop :=
  (exists n, j = JInt n) \/ (exists x, j = JFloat x).

(** The dict has the key, with a value of the given kind. *)
Definition has_field (P : json -> Prop) (k : string)
    (d : list (string * json)) : Prop :=
  exists v, dict_lookup k d = Some v /\ P v.

Definition BOUND_KEYS : list string :=
  ["min_lat"; "max_lat"; "min_lng"; "max_lng"]%string.

(** A zone record in the words of the specification: an object with
    [zone_id] and [name], both strings, and the four bounds, all numbers. *)
Definition spec_zone_record (j : json) : Prop :=
  exists d, j = JDict d /\
    has_field json_is_string "zone_id" d /\
    has_field json_is_string "name" d /\
    Forall (fun k => has_field json_is_number k d) BOUND_KEYS.

(** The two shapes of the specification, for a given notion of record: a
    top-level list of records, or an object whose [zones] key maps to such
    a list. *)
Definition valid_shape (record : json -> Prop) (c : FileContents) : Prop :=
  match c with
  | Decoded (JList l) => Forall record l
  | Decoded (JDict d) =>
      exists l, dict_lookup "zones" d = Some (JList l) /\ Forall record l
  | _ => False
  end.

Definition spec_valid_shape : FileContents -> Prop :=
  valid_shape spec_zone_record.

Section AcceptedShapes.

Variable str_as_float : string -> option float.

(** The values load_zones takes for a bound: a float, an integer whose
    nearest float is finite, a boolean, or a text that reads as a number. *)
Definition accepted_number (j : json) : Prop :=
  (exists x, j = JFloat x) \/
  (exists n, j = JInt n /\ Float.is_finite (Float.of_Z n) = true) \/
  (exists b, j = JBool b) \/
  (exists s, j = JString s /\ is_Some (str_as_float s)).

(** The records load_zones takes: an object with [zone_id] and [name], both
    strings, and the four bounds, each an accepted number.  Other keys are
    allowed. *)
Definition accepted_record (j : json) : Prop :=
  exists d, j = JDict d /\
    has_field json_is_string "zone_id" d /\
    has_field json_is_string "name" d /\
    Forall (fun k => has_field accepted_number k d) BOUND_KEYS.

(** The shapes load_zones takes: the two shapes with accepted records, and
    also an object whose [zones] value is an empty object or an empty
    string, which iterate like an empty list. *)
Definition accepted_shape (c : FileContents) : Prop :=
  valid_shape accepted_record c \/
  exists d, c = Decoded (JDict d) /\
    (dict_lookup "zones" d = Some (JDict []) \/
     dict_lookup "zones" d = Some (JString "")).

End AcceptedShapes.

(** ** The normalizer in the words of the specification *)

(** Whitespace: the code points for which [str.isspace] holds, written
    out. *)
Definition spec_whitespace (c : N) : Prop :=
  In c [9; 10; 11; 12; 13; 28; 29; 30; 31; 32; 133; 160; 5760; 8192; 8193;
        8194; 8195; 8196; 8197; 8198; 8199; 8200; 8201; 8202; 8232; 8233;
        8239; 8287; 12288]%N.

(** One letter a..z as its capital, every other code point as it is. *)
Definition fold_case (c : N) : N :=
  if ((97 <=? c) && (c <=? 122))%N then (c - 32)%N else c.

(** The same text up to the case of the letters a..z. *)
Definition equal_ignoring_case (x y : pystr) : Prop :=
  map fold_case x = map fold_case y.

(** The input with surrounding whitespace trimmed. *)
Definition trimmed (s : string) : pystr := PyUnicode.strip (codepoints s).

(** What one code point becomes in the buffer handed to the parser. *)
Definition transform_char (c : N) : ascii :=
  if (c <? 127)%N then ascii_of_N c
  else if PyUnicode.is_space c then " "%char
  else
    match PyUnicode.to_decimal c with
    | Some d => ascii_of_N (48 + d)
    | None => "?"%char
    end.

(** A code point that the buffer keeps: below 127, whitespace, or a decimal
    digit. *)
Definition plain (c : N) : bool :=
  (c <? 127)%N || PyUnicode.is_space c
  || match PyUnicode.to_decimal c with Some _ => true | None => false end.

(** ** Characters of a float *)

(** The characters of a decimal literal, with the whitespace around it. *)
Definition numeric_char (c : ascii) : bool :=
  PyFloat.isspace c || PyFloat.is_digit c
  || existsb (Ascii.eqb c) (list_ascii_of_string "+-._eE").

(** Those, and the letters of [nan] in either case. *)
Definition small_char (c : ascii) : bool :=
  numeric_char c
  || existsb (Ascii.eqb (PyFloat.lower_char c)) (list_ascii_of_string "na").

(** Those, and the letters of [infinity] in either case: every character
    that a text read as a float can have. *)
Definition float_char (c : ascii) : bool :=
  small_char c
  || existsb (Ascii.eqb (PyFloat.lower_char c)) (list_ascii_of_string "ifty").

Definition is_infinity (x : float) : bool :=
  match x with S754_infinity _ => true | _ => false end.

(** A code point that the buffer keeps as a character of a decimal literal
    or of [nan]. *)
Definition small_plain (c : N) : bool :=
  plain c && small_char (transform_char c).

(** A code point below 127 that is not whitespace. *)
Definition token_char (c : N) : bool :=
  (c <? 127)%N && negb (PyUnicode.is_space c).

(** A number that four bytes can carry: every code point is one. *)
Definition encodable (c : N) : Prop := (c < 2097152)%N.

(** The parser's result with the unread rest uppercased. *)
Definition upper_rest (p : float * list ascii) : float * list ascii :=
  (fst p, PyStr.upper (snd p)).

(** The text does not begin with whitespace that [float] skips. *)
Definition starts_clean (s : list ascii) : Prop :=
  match s with
  | [] => True
  | c :: _ => PyFloat.isspace c = false
  end.

(** The text "<FS>5": a separator followed by a digit. *)
Definition separator_five : string := String (ascii_of_N 28) "5".

(** The fields of a zone record whose first bound is [b], and the record. *)
Definition fields_with_bound (b : json) : list (string * json) :=
  [("zone_id", JString "zone_9"); ("name", JString "Depot");
   ("min_lat", b); ("max_lat", JInt 2);
   ("min_lng", JInt 3); ("max_lng", JInt 4)]%string.

Definition record_with_bound (b : json) : json :=
  JDict (fields_with_bound b).

(** The full-width digits of 12 between two no-break spaces (UTF-8). *)
Definition fullwidth_twelve : string :=
  string_of_list_ascii
    (map ascii_of_N [194; 160; 239; 188; 145; 239; 188; 146; 194; 160]%N).

(** The text nan between two ideographic spaces (UTF-8). *)
Definition ideographic_nan : string :=
  string_of_list_ascii
    (map ascii_of_N [227; 128; 128; 110; 97; 110; 227; 128; 128]%N).

(** The text nAn between a tab and a line feed. *)
Definition padded_nan : string :=
  string_of_list_ascii (map ascii_of_N [9; 110; 65; 110; 10]%N).

(** A zones file that is an object whose [zones] value is an empty object. *)
Definition zones_empty_object : FileContents :=
  Decoded (JDict [("zones"%string, JDict [])]).


(* ===================================================================== *)
(** * The service around the step, and further predicates               *)
(* ===================================================================== *)

(** One call that changes the store: an event processed against some
    catalog, or a status read. *)
Inductive Op : Type :=
  | OpEvent (zones : list Zone) (now : datetime) (ev : LocationEvent)
  | OpStatus (vid : string).

Definition run_op (sm : StateManager) (op : Op) : StateManager :=
  match op with
  | OpEvent zones now ev => fst (process_location_event zones now ev sm)
  | OpStatus vid => fst (get_vehicle_status sm vid)
  end.

(** The store after a sequence of calls. *)
Definition run (ops : list Op) (sm : StateManager) : StateManager :=
  fold_left run_op ops sm.

(** The number of vehicles whose current zone is [z]. *)
Definition vehicles_in (sm : StateManager) (z : string) : nat :=
  size (filter (fun kv : string * VehicleState => current_zone (snd kv) = Some z)
               (_vehicles sm)).

(** The occupancy counter agrees with the vehicles' positions on every
    zone with a non-empty id, and holds nothing for the empty id. *)
Definition occupancy_consistent (sm : StateManager) : Prop :=
  _zone_counts sm !! ""%string = None /\
  forall z, z <> ""%string ->
    get_zone_count sm z = Z.of_nat (vehicles_in sm z).

(** The contribution of one vehicle to the count of zone [z]. *)
Definition here (z : string) (v : VehicleState) : nat :=
  if decide (current_zone v = Some z) then 1%nat else 0%nat.

(** The calls of [ops] that process an event use a catalog that satisfies
    [C]. *)
Definition op_catalog (C : list Zone -> Prop) (op : Op) : Prop :=
  match op with
  | OpEvent zones _ _ => C zones
  | OpStatus _ => True
  end.

(** Consecutive records join: each starts in the zone the previous one
    ended in. *)
Fixpoint chained (h : list TransitionRecord) : Prop :=
  match h with
  | r1 :: (r2 :: _) as t => tr_to_zone r1 = tr_from_zone r2 /\ chained t
  | _ => True
  end.

(** The kind of a record is the classification of its two zones. *)
Definition record_ok (r : TransitionRecord) : Prop :=
  exists t, classify_transition (tr_from_zone r) (tr_to_zone r) = Some t /\
            tr_transition r = ZoneTransition_value t.

(** The history of a vehicle is a path that ends at its current zone. *)
Definition history_ok (v : VehicleState) : Prop :=
  chained (transition_history v) /\
  Forall record_ok (transition_history v) /\
  match last (transition_history v) with
  | Some r => tr_to_zone r = current_zone v
  | None => current_zone v = None
  end.

(** [o] is absent or the id of a zone of the catalog. *)
Definition known_zone (zones : list Zone) (o : option string) : Prop :=
  match o with
  | None => True
  | Some z => In z (map zone_id zones)
  end.

(** The current zone and every recorded zone of the vehicle are known. *)
Definition vehicle_in_catalog (zones : list Zone) (v : VehicleState) : Prop :=
  known_zone zones (current_zone v) /\
  Forall (fun r => known_zone zones (tr_from_zone r) /\
                   known_zone zones (tr_to_zone r))
         (transition_history v).

(** The text does not begin with whitespace that [strip] removes. *)
Definition trimmed_left (s : pystr) : Prop :=
  match s with
  | [] => True
  | c :: _ => PyUnicode.is_space c = false
  end.

(** The process: the store [state_manager] and the module variable
    [_zones_cache] of app/logic.py. *)
Record App : Type := {
  state_manager : StateManager;
  _zones_cache : option (list Zone)
}.

(** The process at start. *)
Definition App_init : App :=
  {| state_manager := StateManager_init; _zones_cache := None |}.

(** class ZoneInfo (app/models.py); [bounds] is the dict with the four
    keys, in the order they are written. *)
Record ZoneInfo : Type := {
  zi_zone_id : string;
  zi_name : string;
  zi_bounds : list (string * float);
  zi_vehicle_count : Z
}.

(** The body of the JSON answer of post_location_event. *)
Record LocationResponse : Type := {
  resp_vehicle_id : string;
  resp_current_zone : option string;
  resp_transition : option string;
  resp_timestamp : datetime
}.

(** What an endpoint answers: the body with status 200, or the
    HTTPException with status 500 built from the caught exception. *)
Inductive HttpResult (A : Type) : Type :=
  | Http200 (body : A)
  | Http500 (detail : LoadError).

Arguments Http200 {A} body.
Arguments Http500 {A} detail.

Section Service.

Variable validate_str : json -> option string.
Variable validate_float : json -> option float.

(** get_zones (app/logic.py): the cached catalog, loaded on first use.
    [zones_file] is what is at the zones path at the time of the call. *)
Definition get_zones (zones_file : option FileContents)
    (cache : option (list Zone)) : result (list Zone) * option (list Zone) :=
  match cache with
  | Some zones => (Ok zones, cache)
  | None =>
      match load_zones validate_str validate_float zones_file with
      | Ok zones => (Ok zones, Some zones)
      | Raise e => (Raise e, None)
      end
  end.

(** process_location_event with its call of get_zones, statement by
    statement: the vehicle is fetched (and created) before the catalog is
    asked for, so an exception from loading leaves the store with the
    vehicle and nothing else. *)
Definition process_location_event_app (zones_file : option FileContents)
    (now : datetime) (event : LocationEvent) (app : App)
    : App * result (option string * option ZoneTransition) :=
  let lat := normalize_coordinate (Some (ev_latitude event)) in
  let lng := normalize_coordinate (Some (ev_longitude event)) in
  let '(sm1, vehicle_state) := get_vehicle (state_manager app) (ev_vehicle_id event) in
  let old_zone_id := current_zone vehicle_state in
  let '(loaded, cache1) := get_zones zones_file (_zones_cache app) in
  match loaded with
  | Raise e => ({| state_manager := sm1; _zones_cache := cache1 |}, Raise e)
  | Ok zones =>
      let new_zone := find_zone lat lng zones in
      let new_zone_id := option_map zone_id new_zone in
      let transition := classify_transition old_zone_id new_zone_id in
      let timestamp := event_time now event in
      let vehicle_state := update_location vehicle_state lat lng timestamp in
      match transition with
      | Some t =>
          let vehicle_state := update_zone vehicle_state new_zone_id t timestamp in
          let sm2 :=
            {| _vehicles := <[ev_vehicle_id event := vehicle_state]> (_vehicles sm1);
               _zone_counts := _zone_counts sm1 |} in
          ({| state_manager := update_zone_count sm2 old_zone_id new_zone_id;
              _zones_cache := cache1 |},
           Ok (new_zone_id, transition))
      | None =>
          ({| state_manager :=
                {| _vehicles := <[ev_vehicle_id event := vehicle_state]> (_vehicles sm1);
                   _zone_counts := _zone_counts sm1 |};
              _zones_cache := cache1 |},
           Ok (new_zone_id, transition))
      end
  end.

(** post_location_event (app/main.py).  [now] is the clock read while the
    event is processed, [now_response] the clock read when the answer is
    built. *)
Definition post_location_event (zones_file : option FileContents)
    (now now_response : datetime) (event : LocationEvent) (app : App)
    : App * HttpResult LocationResponse :=
  match process_location_event_app zones_file now event app with
  | (app1, Ok (new_zone_id, transition)) =>
      (app1,
       Http200 {| resp_vehicle_id := ev_vehicle_id event;
                  resp_current_zone := new_zone_id;
                  resp_transition := option_map ZoneTransition_value transition;
                  resp_timestamp := event_time now_response event |})
  | (app1, Raise e) => (app1, Http500 e)
  end.

(** One entry of the zone listing. *)
Definition zone_info (sm : StateManager) (zone : Zone) : ZoneInfo :=
  {| zi_zone_id := zone_id zone;
     zi_name := name zone;
     zi_bounds := [("min_lat"%string, min_lat zone); ("max_lat"%string, max_lat zone);
                   ("min_lng"%string, min_lng zone); ("max_lng"%string, max_lng zone)];
     zi_vehicle_count := get_zone_count sm (zone_id zone) |}.

(** get_zones_info (app/main.py) *)
Definition get_zones_info (zones_file : option FileContents) (app : App)
    : App * HttpResult (list ZoneInfo) :=
  let '(loaded, cache1) := get_zones zones_file (_zones_cache app) in
  let app1 := {| state_manager := state_manager app; _zones_cache := cache1 |} in
  match loaded with
  | Ok zones => (app1, Http200 (map (zone_info (state_manager app)) zones))
  | Raise e => (app1, Http500 e)
  end.

(** A run of event requests, each with the file found and the two clock
    readings at its time. *)
Fixpoint post_all
    (requests : list (option FileContents * datetime * datetime * LocationEvent))
    (app : App) : App * list (HttpResult LocationResponse) :=
  match requests with
  | [] => (app, [])
  | (zones_file, now, now_response, ev) :: rest =>
      let '(app1, r) := post_location_event zones_file now now_response ev app in
      let '(app2, rs) := post_all rest app1 in
      (app2, r :: rs)
  end.

End Service.

(** The rectangle of [outer] holds the rectangle of [inner]. *)
Definition encloses (outer inner : Zone) : Prop :=
  Float.leb (min_lat outer) (min_lat inner) = true /\
  Float.leb (max_lat inner) (max_lat outer) = true /\
  Float.leb (min_lng outer) (min_lng inner) = true /\
  Float.leb (max_lng inner) (max_lng outer) = true.

(** Neither coordinate and no bound is NaN, and on both axes the minimum
    is at most the maximum. *)
Definition well_placed (z : Zone) (lat lng : float) : Prop :=
  Float.is_nan lat = false /\ Float.is_nan lng = false /\
  Float.is_nan (min_lat z) = false /\ Float.is_nan (max_lat z) = false /\
  Float.is_nan (min_lng z) = false /\ Float.is_nan (max_lng z) = false /\
  Float.leb (min_lat z) (max_lat z) = true /\
  Float.leb (min_lng z) (max_lng z) = true.

(** A second vehicle, inside the Airport zone. *)
Definition ev_airport_2 : LocationEvent :=
  {| ev_vehicle_id := "vehicle_2"; ev_latitude := "37.625";
     ev_longitude := "-122.375"; ev_timestamp := None |}.

(** The first zone of the default catalog. *)
Definition downtown : Zone :=
  hd (Build_Zone "" "" Float.zero Float.zero Float.zero Float.zero)
     _get_default_zones.

(* ===================================================================== *)
(** * Properties                                                          *)
(* ===================================================================== *)

(** ** Float comparison *)

Lemma SFcompare_refl (x : float) :
  Float.is_nan x = false -> SFcompare x x = Some Eq.
Proof.
  destruct x as [s|s| |s m e]; simpl; try discriminate; intros _.
  - reflexivity.
  - destruct s; reflexivity.
  - rewrite Z.compare_refl, Pos.compare_cont_refl. destruct s; reflexivity.
Qed.

Lemma leb_refl (x : float) : Float.is_nan x = false -> Float.leb x x = true.
Proof.
  intros H. unfold Float.leb, SFleb. rewrite SFcompare_refl; auto.
Qed.

Lemma leb_not_nan_l (x y : float) : Float.leb x y = true -> Float.is_nan x = false.
Proof.
  destruct x; simpl; auto; discriminate.
Qed.

Lemma leb_not_nan_r (x y : float) : Float.leb x y = true -> Float.is_nan y = false.
Proof.
  destruct y; simpl; auto; destruct x; discriminate.
Qed.

(** ** Transition classification *)

Lemma classify_transition_cases (old new : option string) :
  classify_transition old new =
    match old, new with
    | None, None => None
    | None, Some _ => Some ENTER
    | Some _, None => Some EXIT
    | Some z, Some z2 => if decide (z = z2) then None else Some CHANGE
    end.
Proof.
  unfold classify_transition.
  destruct old as [z|], new as [z2|];
    repeat case_bool_decide; simpl; try case_decide;
    try reflexivity; try congruence;
    exfalso;
    repeat match goal with
      | H : ~ is_Some (Some _) |- _ => apply H; eauto
      | H : is_Some None |- _ => destruct H; discriminate
      end.
Qed.

(** What process_location_event returns. *)
Lemma process_location_event_result (zones : list Zone) (now : datetime)
    (ev : LocationEvent) (sm : StateManager) :
  snd (process_location_event zones now ev sm) =
    (option_map zone_id
       (find_zone (normalize_coordinate (Some (ev_latitude ev)))
                  (normalize_coordinate (Some (ev_longitude ev))) zones),
     classify_transition
       (current_zone (snd (get_vehicle sm (ev_vehicle_id ev))))
       (option_map zone_id
          (find_zone (normalize_coordinate (Some (ev_latitude ev)))
                     (normalize_coordinate (Some (ev_longitude ev))) zones))).
Proof.
  unfold process_location_event.
  destruct (get_vehicle sm (ev_vehicle_id ev)) as [sm1 v]. cbn [snd].
  destruct (classify_transition _ _); reflexivity.
Qed.

(** C1: the transition returned by process_location_event is given by the
    table on (old zone, new zone) alone: absent/present is ENTER,
    present/absent is EXIT, two different zones is CHANGE, and both absent
    or both the same zone is no transition.  The old zone is the vehicle's
    current zone when the event arrives, the new zone the id of the zone
    found for the normalized point; nothing else enters the result. *)
Theorem transition_table (zones : list Zone) (now : datetime)
    (ev : LocationEvent) (sm : StateManager) :
  let old_zone := current_zone (snd (get_vehicle sm (ev_vehicle_id ev))) in
  let new_zone :=
    option_map zone_id
      (find_zone (normalize_coordinate (Some (ev_latitude ev)))
                 (normalize_coordinate (Some (ev_longitude ev))) zones) in
  snd (process_location_event zones now ev sm) =
    (new_zone,
     match old_zone, new_zone with
     | None, None => None
     | None, Some _ => Some ENTER
     | Some _, None => Some EXIT
     | Some z, Some z2 => if decide (z = z2) then None else Some CHANGE
     end).
Proof.
  intros old_zone new_zone.
  rewrite process_location_event_result.
  fold new_zone. fold old_zone.
  rewrite classify_transition_cases. reflexivity.
Qed.

(** ** Zone lookup *)

Lemma contains_within (z : Zone) (lat lng : float) :
  contains z lat lng = true <-> within z lat lng.
Proof.
  unfold contains, within. rewrite !andb_true_iff. tauto.
Qed.

Lemma find_zone_none (lat lng : float) (zones : list Zone) :
  find_zone lat lng zones = None ->
  Forall (fun z' => ~ within z' lat lng) zones.
Proof.
  induction zones as [|z rest IH]; simpl; intros H.
  - constructor.
  - destruct (contains z lat lng) eqn:Hc; [discriminate|].
    constructor; [|auto].
    rewrite <- contains_within, Hc. discriminate.
Qed.

Lemma find_zone_some (lat lng : float) (zones : list Zone) (z : Zone) :
  find_zone lat lng zones = Some z ->
  exists before after,
    zones = before ++ z :: after /\
    Forall (fun z' => ~ within z' lat lng) before /\
    within z lat lng.
Proof.
  induction zones as [|z0 rest IH]; simpl; intros H; [discriminate|].
  destruct (contains z0 lat lng) eqn:Hc.
  - injection H as ->. exists [], rest. split; [reflexivity|].
    split; [constructor | apply contains_within, Hc].
  - destruct (IH H) as (before & after & -> & Hb & Hw).
    exists (z0 :: before), after. split; [reflexivity|].
    split; [|exact Hw].
    constructor; [|exact Hb].
    rewrite <- contains_within, Hc. discriminate.
Qed.

(** C2: find_zone returns the first zone, in catalog order, whose closed
    rectangle holds the point (min_lat <= lat <= max_lat and
    min_lng <= lng <= max_lng), every earlier zone not holding it, and
    returns nothing exactly when no zone holds it.  A point on the min_lat
    or max_lat edge, or on the min_lng or max_lng edge, of a rectangle is
    inside the zone. *)
Theorem find_zone_first_inclusive (lat lng : float) (zones : list Zone) :
  (forall z, contains z lat lng = true <-> within z lat lng) /\
  match find_zone lat lng zones with
  | Some z =>
      exists before after,
        zones = before ++ z :: after /\
        Forall (fun z' => ~ within z' lat lng) before /\
        within z lat lng
  | None => Forall (fun z' => ~ within z' lat lng) zones
  end /\
  (forall z,
     Float.leb (min_lat z) (max_lat z) = true ->
     Float.leb (min_lng z) lng = true -> Float.leb lng (max_lng z) = true ->
     contains z (min_lat z) lng = true /\ contains z (max_lat z) lng = true) /\
  (forall z,
     Float.leb (min_lng z) (max_lng z) = true ->
     Float.leb (min_lat z) lat = true -> Float.leb lat (max_lat z) = true ->
     contains z lat (min_lng z) = true /\ contains z lat (max_lng z) = true).
Proof.
  split; [intros z; apply contains_within|].
  split.
  - destruct (find_zone lat lng zones) as [z|] eqn:Hf.
    + apply find_zone_some, Hf.
    + apply find_zone_none, Hf.
  - split; intros z Hbox Hlo Hhi; unfold contains;
      pose proof (leb_refl _ (leb_not_nan_l _ _ Hbox)) as Hl;
      pose proof (leb_refl _ (leb_not_nan_r _ _ Hbox)) as Hr;
      rewrite ?Hbox, ?Hlo, ?Hhi, ?Hl, ?Hr; split; reflexivity.
Qed.

(** A point on the southern edge of the Downtown zone is inside it. *)
Lemma find_zone_first_inclusive_witness :
  contains (hd (Build_Zone "" "" Float.zero Float.zero Float.zero Float.zero)
               _get_default_zones)
           (Float.of_decimal false 377749 (-4))
           (Float.of_decimal true 122415 (-3)) = true.
Proof.
  apply (proj1 (proj2 (proj2 (find_zone_first_inclusive
           (Float.of_decimal false 377749 (-4))
           (Float.of_decimal true 122415 (-3))
           _get_default_zones)))
         (hd (Build_Zone "" "" Float.zero Float.zero Float.zero Float.zero)
             _get_default_zones));
    vm_compute; reflexivity.
Defined.

(** ** The store *)

Lemma get_vehicle_counts (sm : StateManager) (vid : string) :
  _zone_counts (fst (get_vehicle sm vid)) = _zone_counts sm.
Proof.
  unfold get_vehicle. destruct (_vehicles sm !! vid); reflexivity.
Qed.

Lemma get_vehicle_lookup (sm : StateManager) (vid : string) :
  _vehicles (fst (get_vehicle sm vid)) !! vid = Some (snd (get_vehicle sm vid)).
Proof.
  unfold get_vehicle. destruct (_vehicles sm !! vid) eqn:H; simpl.
  - exact H.
  - apply lookup_insert_eq.
Qed.

Lemma get_vehicle_other (sm : StateManager) (vid other : string) :
  other <> vid ->
  _vehicles (fst (get_vehicle sm vid)) !! other = _vehicles sm !! other.
Proof.
  intros Hne. unfold get_vehicle. destruct (_vehicles sm !! vid); simpl.
  - reflexivity.
  - apply lookup_insert_ne. congruence.
Qed.

Lemma get_vehicle_insert (sm : StateManager) (vid : string) (v : VehicleState) :
  <[vid := v]> (_vehicles (fst (get_vehicle sm vid))) = <[vid := v]> (_vehicles sm).
Proof.
  unfold get_vehicle. destruct (_vehicles sm !! vid); simpl.
  - reflexivity.
  - apply insert_insert_eq.
Qed.

Lemma get_vehicle_known (sm : StateManager) (vid : string) (v : VehicleState) :
  _vehicles sm !! vid = Some v -> get_vehicle sm vid = (sm, v).
Proof.
  intros H. unfold get_vehicle. rewrite H. reflexivity.
Qed.

Lemma update_zone_count_vehicles (sm : StateManager) (o n : option string) :
  _vehicles (update_zone_count sm o n) = _vehicles sm.
Proof. reflexivity. Qed.

(** The store after process_location_event, in closed form. *)
Lemma process_location_event_store (zones : list Zone) (now : datetime)
    (ev : LocationEvent) (sm : StateManager) :
  let vid := ev_vehicle_id ev in
  let v0 := vehicle_view sm vid in
  let lat := normalize_coordinate (Some (ev_latitude ev)) in
  let lng := normalize_coordinate (Some (ev_longitude ev)) in
  let ts := event_time now ev in
  let new := option_map zone_id (find_zone lat lng zones) in
  let v1 := update_location v0 lat lng ts in
  fst (process_location_event zones now ev sm) =
    match classify_transition (current_zone v0) new with
    | Some t =>
        update_zone_count
          {| _vehicles := <[vid := update_zone v1 new t ts]> (_vehicles sm);
             _zone_counts := _zone_counts sm |}
          (current_zone v0) new
    | None =>
        {| _vehicles := <[vid := v1]> (_vehicles sm);
           _zone_counts := _zone_counts sm |}
    end.
Proof.
  intros vid v0 lat lng ts new v1.
  unfold process_location_event.
  pose proof (get_vehicle_counts sm vid) as Hc.
  pose proof (fun v => get_vehicle_insert sm vid v) as Hi.
  unfold v1, v0, vehicle_view. fold vid lat lng ts new.
  destruct (get_vehicle sm vid) as [sm1 v]. simpl in *.
  fold new.
  destruct (classify_transition (current_zone v) new); simpl.
  - unfold update_zone_count. simpl. rewrite Hc, Hi. reflexivity.
  - rewrite Hc, Hi. reflexivity.
Qed.

(** The vehicle of the event after the step. *)
Lemma process_location_event_vehicle (zones : list Zone) (now : datetime)
    (ev : LocationEvent) (sm : StateManager) :
  let vid := ev_vehicle_id ev in
  let v0 := vehicle_view sm vid in
  let lat := normalize_coordinate (Some (ev_latitude ev)) in
  let lng := normalize_coordinate (Some (ev_longitude ev)) in
  let ts := event_time now ev in
  let new := option_map zone_id (find_zone lat lng zones) in
  let v1 := update_location v0 lat lng ts in
  _vehicles (fst (process_location_event zones now ev sm)) !! vid =
    Some match classify_transition (current_zone v0) new with
         | Some t => update_zone v1 new t ts
         | None => v1
         end.
Proof.
  intros. rewrite process_location_event_store.
  fold vid v0 lat lng ts new v1.
  destruct (classify_transition (current_zone v0) new); simpl;
    apply lookup_insert_eq.
Qed.

(** Every other vehicle after the step. *)
Lemma process_location_event_other (zones : list Zone) (now : datetime)
    (ev : LocationEvent) (sm : StateManager) (other : string) :
  other <> ev_vehicle_id ev ->
  _vehicles (fst (process_location_event zones now ev sm)) !! other =
  _vehicles sm !! other.
Proof.
  intros Hne. rewrite process_location_event_store.
  destruct (classify_transition _ _); simpl;
    apply lookup_insert_ne; congruence.
Qed.

(** The occupancy map after the step. *)
Lemma process_location_event_counts (zones : list Zone) (now : datetime)
    (ev : LocationEvent) (sm : StateManager) :
  _zone_counts (fst (process_location_event zones now ev sm)) =
    match snd (snd (process_location_event zones now ev sm)) with
    | Some _ =>
        _zone_counts
          (update_zone_count sm
             (current_zone (vehicle_view sm (ev_vehicle_id ev)))
             (fst (snd (process_location_event zones now ev sm))))
    | None => _zone_counts sm
    end.
Proof.
  rewrite process_location_event_store, process_location_event_result.
  unfold vehicle_view. cbn [fst snd].
  destruct (classify_transition _ _); reflexivity.
Qed.

(** The step on a catalog that is at hand: afterwards the event's vehicle
    carries the normalized latitude and longitude and the event's timestamp
    (the current time when the event has none), with or without a
    transition; the state of every other vehicle is as before; and when no
    transition occurred the occupancy map is as before. *)
Lemma process_location_event_step_frame (zones : list Zone) (now : datetime)
    (ev : LocationEvent) (sm : StateManager) :
  let sm' := fst (process_location_event zones now ev sm) in
  let transition := snd (snd (process_location_event zones now ev sm)) in
  (exists v',
     _vehicles sm' !! ev_vehicle_id ev = Some v' /\
     last_latitude v' = Some (normalize_coordinate (Some (ev_latitude ev))) /\
     last_longitude v' = Some (normalize_coordinate (Some (ev_longitude ev))) /\
     last_update v' = Some (match ev_timestamp ev with
                            | Some t => t
                            | None => now
                            end)) /\
  (forall other, other <> ev_vehicle_id ev ->
     _vehicles sm' !! other = _vehicles sm !! other) /\
  (_zone_counts sm' <> _zone_counts sm -> transition <> None) /\
  (transition = None -> _zone_counts sm' = _zone_counts sm).
Proof.
  intros sm' transition. split; [|split; [|split]].
  - eexists. split; [apply process_location_event_vehicle|].
    destruct (classify_transition _ _); simpl; auto.
  - intros other Hne. apply process_location_event_other, Hne.
  - unfold sm', transition. rewrite process_location_event_counts.
    destruct (snd (snd _)); congruence.
  - unfold sm', transition. rewrite process_location_event_counts.
    intros ->. reflexivity.
Qed.

Lemma vehicle_view_insert (vs : gmap string VehicleState) (cs : gmap string Z)
    (vid : string) (v : VehicleState) :
  vehicle_view {| _vehicles := <[vid := v]> vs; _zone_counts := cs |} vid = v.
Proof.
  unfold vehicle_view, get_vehicle. simpl. rewrite lookup_insert_eq. reflexivity.
Qed.

Lemma update_location_twice (v : VehicleState) (lat lng lat' lng' : float)
    (ts ts' : datetime) :
  update_location (update_location v lat lng ts) lat' lng' ts' =
  update_location v lat' lng' ts'.
Proof. reflexivity. Qed.

(** C7: when an event produces no transition, processing it a second time
    produces no transition either; the vehicle's history and current zone
    and the whole occupancy map are after both runs what they were before
    the first; the store differs from the original only in that the
    vehicle's latitude, longitude and timestamp have been rewritten. *)
Theorem no_transition_idempotent (zones : list Zone) (now1 now2 : datetime)
    (ev : LocationEvent) (sm : StateManager) :
  snd (snd (process_location_event zones now1 ev sm)) = None ->
  let vid := ev_vehicle_id ev in
  let sm1 := fst (process_location_event zones now1 ev sm) in
  let sm2 := fst (process_location_event zones now2 ev sm1) in
  snd (snd (process_location_event zones now2 ev sm1)) = None /\
  transition_history (vehicle_view sm1 vid) = transition_history (vehicle_view sm vid) /\
  transition_history (vehicle_view sm2 vid) = transition_history (vehicle_view sm vid) /\
  current_zone (vehicle_view sm2 vid) = current_zone (vehicle_view sm vid) /\
  _zone_counts sm1 = _zone_counts sm /\
  _zone_counts sm2 = _zone_counts sm /\
  (forall z, get_zone_count sm2 z = get_zone_count sm z) /\
  _vehicles sm2 =
    <[vid := update_location (vehicle_view sm vid)
               (normalize_coordinate (Some (ev_latitude ev)))
               (normalize_coordinate (Some (ev_longitude ev)))
               (event_time now2 ev)]> (_vehicles sm).
Proof.
  intros Hnone vid sm1 sm2.
  rewrite process_location_event_result in Hnone. cbn [snd] in Hnone.
  fold vid in Hnone. fold (vehicle_view sm vid) in Hnone.
  assert (Hsm1 : sm1 =
    {| _vehicles := <[vid := update_location (vehicle_view sm vid)
                               (normalize_coordinate (Some (ev_latitude ev)))
                               (normalize_coordinate (Some (ev_longitude ev)))
                               (event_time now1 ev)]> (_vehicles sm);
       _zone_counts := _zone_counts sm |}).
  { unfold sm1. rewrite process_location_event_store.
    fold vid. rewrite Hnone. reflexivity. }
  assert (Hview1 : current_zone (vehicle_view sm1 vid) = current_zone (vehicle_view sm vid)).
  { rewrite Hsm1, vehicle_view_insert. reflexivity. }
  assert (Hnone2 : snd (snd (process_location_event zones now2 ev sm1)) = None).
  { rewrite process_location_event_result. cbn [snd].
    fold vid. fold (vehicle_view sm1 vid). rewrite Hview1. exact Hnone. }
  assert (Hsm2 : sm2 =
    {| _vehicles := <[vid := update_location (vehicle_view sm vid)
                               (normalize_coordinate (Some (ev_latitude ev)))
                               (normalize_coordinate (Some (ev_longitude ev)))
                               (event_time now2 ev)]> (_vehicles sm);
       _zone_counts := _zone_counts sm |}).
  { unfold sm2. rewrite process_location_event_store.
    fold vid. rewrite Hview1, Hnone.
    rewrite Hsm1, vehicle_view_insert. cbn [_vehicles _zone_counts].
    rewrite update_location_twice, insert_insert_eq. reflexivity. }
  split; [exact Hnone2|].
  rewrite Hsm2, Hsm1, !vehicle_view_insert.
  repeat split; reflexivity.
Qed.

(** ** Occupancy counts *)

Lemma dict_get0_nonneg (d : gmap string Z) (k : string) :
  (forall z n, d !! z = Some n -> 0 <= n) -> 0 <= dict_get0 d k.
Proof.
  intros H. unfold dict_get0. destruct (d !! k) as [n|] eqn:Hk; simpl.
  - eapply H, Hk.
  - lia.
Qed.

Lemma insert_nonneg (d : gmap string Z) (k : string) (v : Z) :
  0 <= v ->
  (forall z n, d !! z = Some n -> 0 <= n) ->
  forall z n, <[k := v]> d !! z = Some n -> 0 <= n.
Proof.
  intros Hv H z n. destruct (decide (k = z)) as [->|Hne].
  - rewrite lookup_insert_eq. intros [= <-]. exact Hv.
  - rewrite lookup_insert_ne by exact Hne. apply H.
Qed.

Lemma update_zone_count_nonneg (sm : StateManager) (old new : option string) :
  counts_nonneg sm -> counts_nonneg (update_zone_count sm old new).
Proof.
  unfold counts_nonneg, update_zone_count. cbn [_zone_counts]. intros H.
  set (c1 := match old with
             | Some z => if str_truthy z
                         then <[z := Z.max 0 (dict_get0 (_zone_counts sm) z - 1)]>
                                (_zone_counts sm)
                         else _zone_counts sm
             | None => _zone_counts sm
             end).
  assert (H1 : forall z n, c1 !! z = Some n -> 0 <= n).
  { unfold c1. destruct old as [z|]; [|exact H].
    destruct (str_truthy z); [|exact H].
    apply insert_nonneg; [lia | exact H]. }
  destruct new as [z|]; [|exact H1].
  destruct (str_truthy z); [|exact H1].
  apply insert_nonneg; [|exact H1].
  pose proof (dict_get0_nonneg c1 z H1). lia.
Qed.

Lemma counts_nonneg_init : counts_nonneg StateManager_init.
Proof.
  intros z n. cbn [StateManager_init _zone_counts].
  rewrite lookup_empty. discriminate.
Qed.

Lemma apply_updates_nonneg (updates : list (option string * option string))
    (sm : StateManager) :
  counts_nonneg sm -> counts_nonneg (apply_updates updates sm).
Proof.
  revert sm. induction updates as [|u rest IH]; intros sm H; simpl.
  - exact H.
  - apply IH, update_zone_count_nonneg, H.
Qed.

Lemma process_location_event_nonneg (zones : list Zone) (now : datetime)
    (ev : LocationEvent) (sm : StateManager) :
  counts_nonneg sm ->
  counts_nonneg (fst (process_location_event zones now ev sm)).
Proof.
  intros H. unfold counts_nonneg.
  rewrite process_location_event_counts.
  destruct (snd (snd _)); [|exact H].
  apply update_zone_count_nonneg, H.
Qed.

Lemma process_all_cons (zones : list Zone) (now : datetime) (ev : LocationEvent)
    (rest : list (datetime * LocationEvent)) (sm : StateManager) :
  fst (process_all zones ((now, ev) :: rest) sm) =
  fst (process_all zones rest (fst (process_location_event zones now ev sm))).
Proof.
  cbn [process_all]. destruct (process_location_event zones now ev sm) as [sm1 r].
  cbn [fst]. destruct (process_all zones rest sm1) as [sm2 rs]. reflexivity.
Qed.

Lemma process_all_nonneg (zones : list Zone)
    (events : list (datetime * LocationEvent)) (sm : StateManager) :
  counts_nonneg sm -> counts_nonneg (fst (process_all zones events sm)).
Proof.
  revert sm. induction events as [|[now ev] rest IH]; intros sm H.
  - exact H.
  - rewrite process_all_cons. apply IH, process_location_event_nonneg, H.
Qed.

Lemma get_zone_count_nonneg (sm : StateManager) (z : string) :
  counts_nonneg sm -> 0 <= get_zone_count sm z.
Proof.
  intros H. apply dict_get0_nonneg, H.
Qed.

(** C6: occupancy counts are never negative.  The empty store has no
    negative count, update_zone_count keeps every stored count at or above
    zero whatever zones it is given, so after any sequence of updates, and
    after any sequence of processed events, every zone's count is at least
    zero; decrementing a zone whose count is zero or that is missing from
    the map leaves its count at zero. *)
Theorem zone_counts_never_negative :
  counts_nonneg StateManager_init /\
  (forall sm old new,
     counts_nonneg sm -> counts_nonneg (update_zone_count sm old new)) /\
  (forall updates z,
     0 <= get_zone_count (apply_updates updates StateManager_init) z) /\
  (forall zones events z,
     0 <= get_zone_count (fst (process_all zones events StateManager_init)) z) /\
  (forall sm z new,
     str_truthy z = true -> new <> Some z ->
     _zone_counts sm !! z = None \/ _zone_counts sm !! z = Some 0 ->
     _zone_counts (update_zone_count sm (Some z) new) !! z = Some 0).
Proof.
  split; [exact counts_nonneg_init|].
  split; [exact update_zone_count_nonneg|].
  split; [|split].
  - intros updates z.
    apply get_zone_count_nonneg, apply_updates_nonneg, counts_nonneg_init.
  - intros zones events z.
    apply get_zone_count_nonneg, process_all_nonneg, counts_nonneg_init.
  - intros sm z new Ht Hnew Hz.
    unfold update_zone_count. cbn [_zone_counts]. rewrite Ht.
    assert (Hg : Z.max 0 (dict_get0 (_zone_counts sm) z - 1) = 0).
    { unfold dict_get0. destruct Hz as [-> | ->]; reflexivity. }
    rewrite Hg.
    destruct new as [z2|]; [|apply lookup_insert_eq].
    destruct (str_truthy z2); [|apply lookup_insert_eq].
    rewrite lookup_insert_ne by congruence. apply lookup_insert_eq.
Qed.

(** Leaving a zone that was never counted stores the count zero. *)
Lemma zone_counts_never_negative_witness :
  _zone_counts (update_zone_count StateManager_init (Some "zone_1"%string) None)
    !! "zone_1"%string = Some 0.
Proof.
  apply (proj2 (proj2 (proj2 (proj2 zone_counts_never_negative)))).
  - reflexivity.
  - discriminate.
  - left. reflexivity.
Defined.

(** ** Transition history *)

Lemma slice_last_short {A : Type} (n : nat) (l : list A) :
  (length l <= n)%nat -> slice_last n l = l.
Proof.
  intros H. unfold slice_last.
  replace (length l - n)%nat with 0%nat by lia. reflexivity.
Qed.

Lemma slice_last_length {A : Type} (n : nat) (l : list A) :
  length (slice_last n l) = Nat.min n (length l).
Proof.
  unfold slice_last. rewrite List.length_skipn. lia.
Qed.

Lemma slice_last_app {A : Type} (n : nat) (a b : list A) :
  slice_last n (slice_last n a ++ b) = slice_last n (a ++ b).
Proof.
  destruct (Nat.le_gt_cases (length a) n) as [Hle|Hgt].
  - rewrite (slice_last_short n a Hle). reflexivity.
  - unfold slice_last at 1 3.
    rewrite !List.length_app, slice_last_length.
    replace (Nat.min n (length a)) with n by lia.
    replace (n + length b - n)%nat with (length b) by lia.
    replace (length a + length b - n)%nat
      with (length b + (length a - n))%nat by lia.
    rewrite <- List.skipn_skipn.
    rewrite (List.skipn_app (length a - n) a b).
    replace (length a - n - length a)%nat with 0%nat by lia.
    reflexivity.
Qed.

Lemma update_zone_history (v : VehicleState) (zid : option string)
    (t : ZoneTransition) (ts : datetime) :
  transition_history (update_zone v zid t ts) =
  slice_last HISTORY_LIMIT
    (transition_history v ++
       [ {| tr_transition := ZoneTransition_value t;
            tr_from_zone := current_zone v;
            tr_to_zone := zid;
            tr_timestamp := ts |} ]).
Proof.
  unfold update_zone. cbn [transition_history].
  destruct (Nat.ltb_spec HISTORY_LIMIT
              (length (transition_history v ++
                 [ {| tr_transition := ZoneTransition_value t;
                      tr_from_zone := current_zone v;
                      tr_to_zone := zid;
                      tr_timestamp := ts |} ]))) as [Hlt|Hge].
  - reflexivity.
  - symmetry. apply slice_last_short. exact Hge.
Qed.

Lemma vehicle_view_lookup (sm : StateManager) (vid : string) :
  vehicle_view sm vid = default (VehicleState_init vid) (_vehicles sm !! vid).
Proof.
  unfold vehicle_view, get_vehicle.
  destruct (_vehicles sm !! vid); reflexivity.
Qed.

(** One processed event extends the history of [vid] by the record of the
    event, when the event is for [vid] and produces one, and cuts it to its
    last 100 entries. *)
Lemma process_location_event_history (zones : list Zone) (now : datetime)
    (ev : LocationEvent) (sm : StateManager) (vid : string) :
  (length (transition_history (vehicle_view sm vid)) <= HISTORY_LIMIT)%nat ->
  transition_history
    (vehicle_view (fst (process_location_event zones now ev sm)) vid) =
  slice_last HISTORY_LIMIT
    (transition_history (vehicle_view sm vid) ++
       (if String.eqb (ev_vehicle_id ev) vid
        then event_record zones now ev sm else [])).
Proof.
  intros Hlen.
  destruct (String.eqb_spec (ev_vehicle_id ev) vid) as [<-|Hne].
  - rewrite (vehicle_view_lookup (fst _)), process_location_event_vehicle.
    unfold event_record. rewrite process_location_event_result.
    fold (vehicle_view sm (ev_vehicle_id ev)).
    cbn [default from_option]. unfold id.
    destruct (classify_transition _ _) as [t|].
    + rewrite update_zone_history. reflexivity.
    + rewrite List.app_nil_r. cbn [update_location transition_history].
      symmetry. apply slice_last_short, Hlen.
  - rewrite !vehicle_view_lookup.
    rewrite process_location_event_other by congruence.
    rewrite <- vehicle_view_lookup, List.app_nil_r.
    symmetry. apply slice_last_short, Hlen.
Qed.

Lemma process_all_history (zones : list Zone)
    (events : list (datetime * LocationEvent)) (sm : StateManager)
    (vid : string) :
  (length (transition_history (vehicle_view sm vid)) <= HISTORY_LIMIT)%nat ->
  transition_history (vehicle_view (fst (process_all zones events sm)) vid) =
  slice_last HISTORY_LIMIT
    (transition_history (vehicle_view sm vid) ++
       transition_log zones events sm vid).
Proof.
  revert sm. induction events as [|[now ev] rest IH]; intros sm Hlen.
  - cbn [process_all transition_log fst]. rewrite List.app_nil_r.
    symmetry. apply slice_last_short, Hlen.
  - rewrite process_all_cons. cbn [transition_log].
    rewrite IH.
    + rewrite process_location_event_history by exact Hlen.
      rewrite slice_last_app, List.app_assoc. reflexivity.
    + rewrite process_location_event_history by exact Hlen.
      rewrite slice_last_length. apply Nat.le_min_l.
Qed.

(** From the empty store no hypothesis is needed. *)
Lemma process_all_history_init (zones : list Zone)
    (events : list (datetime * LocationEvent)) (vid : string) :
  let h := transition_history
             (vehicle_view (fst (process_all zones events StateManager_init)) vid) in
  h = slice_last HISTORY_LIMIT
        (transition_log zones events StateManager_init vid) /\
  (length h <= HISTORY_LIMIT)%nat.
Proof.
  intros h.
  assert (Hh : h = slice_last HISTORY_LIMIT
                     (transition_log zones events StateManager_init vid)).
  { unfold h. rewrite process_all_history.
    - reflexivity.
    - apply Nat.leb_le. reflexivity. }
  split; [exact Hh|].
  rewrite Hh, slice_last_length. apply Nat.le_min_l.
Qed.

(** C5: update_zone appends the new record at the end of the history and
    keeps the last 100 entries.  After any sequence of processed events the
    history of a vehicle is the last 100 entries of all the records produced
    for it, in the order they were produced, so it never has more than 100
    entries; when 100 + n records exist (n = 50 after 150 transitions from an
    empty history) the oldest n are gone and exactly 100 remain. *)
Theorem history_capped (zones : list Zone)
    (events : list (datetime * LocationEvent)) (sm : StateManager)
    (vid : string) :
  (length (transition_history (vehicle_view sm vid)) <= 100)%nat ->
  let produced :=
    transition_history (vehicle_view sm vid) ++ transition_log zones events sm vid in
  let h :=
    transition_history (vehicle_view (fst (process_all zones events sm)) vid) in
  (forall v zid t ts,
     transition_history (update_zone v zid t ts) =
     slice_last 100
       (transition_history v ++
          [ {| tr_transition := ZoneTransition_value t;
               tr_from_zone := current_zone v;
               tr_to_zone := zid;
               tr_timestamp := ts |} ])) /\
  (length h <= 100)%nat /\
  h = skipn (length produced - 100) produced /\
  (forall n, length produced = (100 + n)%nat ->
     length h = 100%nat /\ h = skipn n produced).
Proof.
  intros Hlen produced h.
  assert (Hh : h = slice_last HISTORY_LIMIT produced).
  { unfold h, produced. apply process_all_history, Hlen. }
  split; [exact update_zone_history|].
  split; [|split].
  - rewrite Hh, slice_last_length. apply Nat.le_min_l.
  - exact Hh.
  - intros n Hn. rewrite Hh. split.
    + rewrite slice_last_length, Hn. unfold HISTORY_LIMIT. lia.
    + unfold slice_last, HISTORY_LIMIT. rewrite Hn. f_equal. lia.
Qed.

(** ** Status of an unknown vehicle *)

Lemma process_location_event_after_get (zones : list Zone) (now : datetime)
    (ev : LocationEvent) (sm : StateManager) :
  process_location_event zones now ev (fst (get_vehicle sm (ev_vehicle_id ev))) =
  process_location_event zones now ev sm.
Proof.
  set (sm1 := fst (get_vehicle sm (ev_vehicle_id ev))).
  assert (Hview : vehicle_view sm1 (ev_vehicle_id ev) = vehicle_view sm (ev_vehicle_id ev)).
  { rewrite (vehicle_view_lookup sm1). unfold sm1.
    rewrite get_vehicle_lookup. reflexivity. }
  rewrite (surjective_pairing (process_location_event zones now ev sm1)).
  rewrite (surjective_pairing (process_location_event zones now ev sm)).
  f_equal.
  - rewrite !process_location_event_store, Hview.
    destruct (classify_transition _ _);
      unfold sm1, update_zone_count; cbn [_vehicles _zone_counts];
      rewrite ?get_vehicle_insert, ?get_vehicle_counts; reflexivity.
  - rewrite !process_location_event_result.
    fold (vehicle_view sm1 (ev_vehicle_id ev)).
    fold (vehicle_view sm (ev_vehicle_id ev)).
    rewrite Hview. reflexivity.
Qed.

(** C10: asking for the status of a vehicle id that is not in the store
    succeeds and changes the store: a fresh state for that id (no current
    zone, no location, no timestamp, empty history) is inserted and its
    snapshot returned, the set of known vehicles grows by that id, the
    occupancy map is untouched, and a later event for the id finds the
    inserted state and is processed exactly as it would have been without
    the status read. *)
Theorem get_vehicle_status_creates (sm : StateManager) (vid : string) :
  _vehicles sm !! vid = None ->
  let sm1 := fst (get_vehicle_status sm vid) in
  let status := snd (get_vehicle_status sm vid) in
  status = {| st_vehicle_id := vid;
              st_current_zone := None;
              st_last_update := None;
              st_last_latitude := None;
              st_last_longitude := None;
              st_transition_history := [] |} /\
  _vehicles sm1 = <[vid := VehicleState_init vid]> (_vehicles sm) /\
  _vehicles sm1 !! vid = Some (VehicleState_init vid) /\
  _vehicles sm1 <> _vehicles sm /\
  (dom (_vehicles sm1) = {[vid]} ∪ dom (_vehicles sm)) /\
  (vid ∉ dom (_vehicles sm)) /\
  size (_vehicles sm1) = S (size (_vehicles sm)) /\
  _zone_counts sm1 = _zone_counts sm /\
  get_vehicle sm1 vid = (sm1, VehicleState_init vid) /\
  (forall zones now ev,
     ev_vehicle_id ev = vid ->
     process_location_event zones now ev sm1 =
     process_location_event zones now ev sm).
Proof.
  intros Hnone sm1 status.
  assert (Hsm1 : sm1 = {| _vehicles := <[vid := VehicleState_init vid]> (_vehicles sm);
                          _zone_counts := _zone_counts sm |}).
  { unfold sm1, get_vehicle_status, get_vehicle. rewrite Hnone. reflexivity. }
  assert (Hst : status = to_status (VehicleState_init vid)).
  { unfold status, get_vehicle_status, get_vehicle. rewrite Hnone. reflexivity. }
  assert (Hget : sm1 = fst (get_vehicle sm vid)).
  { unfold sm1, get_vehicle_status.
    destruct (get_vehicle sm vid); reflexivity. }
  split; [rewrite Hst; reflexivity|].
  split; [rewrite Hsm1; reflexivity|].
  split; [rewrite Hsm1; apply lookup_insert_eq|].
  split.
  { rewrite Hsm1. cbn [_vehicles]. intros Heq.
    pose proof (lookup_insert_eq (_vehicles sm) vid (VehicleState_init vid)) as Hl.
    rewrite Heq, Hnone in Hl. discriminate. }
  split; [rewrite Hsm1; apply dom_insert_L|].
  split; [apply not_elem_of_dom, Hnone|].
  split; [rewrite Hsm1; apply map_size_insert_None, Hnone|].
  split; [rewrite Hsm1; reflexivity|].
  split.
  { apply get_vehicle_known. rewrite Hsm1. apply lookup_insert_eq. }
  intros zones now ev <-. rewrite Hget.
  apply process_location_event_after_get.
Qed.

(** ** Scenarios on the default catalog *)

(** A new vehicle inside Downtown enters zone_1; moving to the Airport is a
    change to zone_2; afterwards zone_1 counts 0 vehicles and zone_2 one. *)
Example scenario_enter_change :
  let r1 := process_location_event _get_default_zones 1 ev_downtown StateManager_init in
  let r2 := process_location_event _get_default_zones 2 ev_airport (fst r1) in
  snd r1 = (Some "zone_1"%string, Some ENTER) /\
  snd r2 = (Some "zone_2"%string, Some CHANGE) /\
  get_zone_count (fst r1) "zone_1" = 1 /\
  get_zone_count (fst r2) "zone_1" = 0 /\
  get_zone_count (fst r2) "zone_2" = 1.
Proof. vm_compute. repeat split; reflexivity. Qed.

(** Leaving Downtown for a point outside all zones is an exit. *)
Example scenario_exit :
  let r1 := process_location_event _get_default_zones 1 ev_downtown StateManager_init in
  let r2 := process_location_event _get_default_zones 2 ev_outside (fst r1) in
  snd r2 = (None, Some EXIT) /\ get_zone_count (fst r2) "zone_1" = 0.
Proof. vm_compute. repeat split; reflexivity. Qed.

(** 150 transitions in a row leave the newest 100 records: the oldest one
    kept is the 51st, stamped with time 50, the newest is stamped 149. *)
Example scenario_150_transitions :
  let sm := fst (process_all _get_default_zones (shuttle 150 0 false) StateManager_init) in
  let h := transition_history (vehicle_view sm "vehicle_1") in
  length (transition_log _get_default_zones (shuttle 150 0 false)
            StateManager_init "vehicle_1") = 150%nat /\
  length h = 100%nat /\
  option_map tr_timestamp (head h) = Some 50 /\
  option_map tr_timestamp (last h) = Some 149.
Proof. vm_compute. repeat split; reflexivity. Qed.

(** ** Instances *)

(** The bound on the history, on an enter followed by an exit. *)
Lemma history_capped_witness :
  (length (transition_history
             (vehicle_view
                (fst (process_all _get_default_zones
                        [(1%Z, ev_downtown); (2%Z, ev_outside)] StateManager_init))
                "vehicle_1")) <= 100)%nat.
Proof.
  assert (H0 : (length (transition_history
                          (vehicle_view StateManager_init "vehicle_1")) <= 100)%nat).
  { apply Nat.leb_le. vm_compute. reflexivity. }
  exact (proj1 (proj2 (history_capped _get_default_zones
                         [(1%Z, ev_downtown); (2%Z, ev_outside)]
                         StateManager_init "vehicle_1" H0))).
Defined.

(** A vehicle reported twice outside all zones: no record, no count. *)
Lemma no_transition_idempotent_witness :
  snd (snd (process_location_event _get_default_zones 2 ev_outside
              (fst (process_location_event _get_default_zones 1 ev_outside
                      StateManager_init)))) = None.
Proof.
  assert (H0 : snd (snd (process_location_event _get_default_zones 1 ev_outside
                           StateManager_init)) = None).
  { vm_compute. reflexivity. }
  exact (proj1 (no_transition_idempotent _get_default_zones 1 2 ev_outside
                  StateManager_init H0)).
Defined.

(** The status of a vehicle in the empty store. *)
Lemma get_vehicle_status_creates_witness :
  _vehicles (fst (get_vehicle_status StateManager_init "vehicle_1"))
    !! "vehicle_1"%string
  = Some (VehicleState_init "vehicle_1").
Proof.
  assert (H0 : _vehicles StateManager_init !! "vehicle_1"%string = None).
  { apply lookup_empty. }
  exact (proj1 (proj2 (proj2 (get_vehicle_status_creates
                                StateManager_init "vehicle_1" H0)))).
Defined.

(** ** Loading the catalog *)

Lemma decode_nil (bs : list N) : Utf8.decode bs = [] -> bs = [].
Proof.
  destruct bs as [|b0 r0]; [reflexivity|]. cbn [Utf8.decode].
  repeat case_match; discriminate.
Qed.

Lemma codepoints_nil (s : string) : codepoints s = [] -> s = ""%string.
Proof.
  unfold codepoints. intros H. apply decode_nil in H.
  destruct s; [reflexivity | discriminate].
Qed.

Section ZoneLoadingFacts.

Variable validate_str : json -> option string.
Variable validate_float : json -> option float.

Local Abbreviation Zone_of := (Zone_of_json validate_str validate_float).
Local Abbreviation build := (build_zones validate_str validate_float).
Local Abbreviation load := (load_zones validate_str validate_float).
Local Abbreviation builds := (fun j : json => exists z, Zone_of j = Ok z).

Lemma raises_not_ok {A : Type} (r : result A) :
  raises r <-> ~ exists a, r = Ok a.
Proof.
  unfold raises. destruct r as [a|e]; split.
  - intros [e He]. discriminate.
  - intros H. exfalso. apply H. eauto.
  - intros _ [a Ha]. discriminate.
  - eauto.
Qed.

Lemma build_zones_ok (items : list json) :
  (exists zs, build items = Ok zs) <-> Forall builds items.
Proof.
  induction items as [|j rest IH]; simpl.
  - split; [constructor | eauto].
  - split.
    + intros [zs H]. destruct (Zone_of j) as [z|e] eqn:Hj; [|discriminate].
      destruct (build rest) as [zs'|e] eqn:Hr; [|discriminate].
      constructor; [exists z; exact Hj | apply IH; eauto].
    + intros H. inversion H as [|? ? [z Hz] Hrest]; subst.
      apply IH in Hrest as [zs Hzs]. rewrite Hz, Hzs. eauto.
Qed.

Lemma string_not_built (s : string) : ~ builds (JString s).
Proof. intros [z Hz]. discriminate. Qed.

(** Which iterable values yield only values a zone is built from. *)
Lemma iter_builds (v : json) :
  (exists items, py_iter v = Some items /\ Forall builds items) <->
  (exists l, v = JList l /\ Forall builds l) \/ v = JDict [] \/ v = JString "".
Proof.
  split.
  - intros (items & Hit & Hall). destruct v; simpl in Hit; try discriminate;
      injection Hit as <-.
    + right. right. destruct (codepoints s) as [|c cs] eqn:Hs.
      * apply codepoints_nil in Hs. subst. reflexivity.
      * simpl in Hall. inversion Hall as [|? ? Hc _]; subst.
        exfalso. eapply string_not_built, Hc.
    + left. eauto.
    + right. left. destruct d as [|kv d]; [reflexivity|].
      simpl in Hall. inversion Hall as [|? ? Hc _]; subst.
      exfalso. eapply string_not_built, Hc.
  - intros [(l & -> & Hl) | [-> | ->]]; simpl; eauto.
Qed.

Lemma load_zones_ok (c : FileContents) :
  (exists zs, load (Some c) = Ok zs) <->
  valid_shape builds c \/
  exists d, c = Decoded (JDict d) /\
    (dict_lookup "zones" d = Some (JDict []) \/
     dict_lookup "zones" d = Some (JString "")).
Proof.
  destruct c as [| |data]; simpl.
  - split; [intros [zs H]; discriminate|].
    intros [[] | (d & H & _)]; discriminate.
  - split; [intros [zs H]; discriminate|].
    intros [[] | (d & H & _)]; discriminate.
  - destruct data; simpl;
      try (split; [intros [zs H]; discriminate
                  | intros [[] | (d' & H & _)]; discriminate]).
    + rewrite build_zones_ok. split; [auto|].
      intros [H | (d & H & _)]; [exact H | discriminate].
    + destruct (dict_lookup "zones" d) as [v|] eqn:Hv.
      * transitivity (exists items, py_iter v = Some items /\ Forall builds items).
        { destruct (py_iter v) as [items|].
          - rewrite build_zones_ok. split; [eauto|].
            intros (items' & [= <-] & H). exact H.
          - split; [intros [zs H]; discriminate|].
            intros (items' & H & _). discriminate. }
        rewrite iter_builds. split.
        { intros [(l & -> & Hl) | [-> | ->]]; [left; eauto | right | right];
            exists d; split; auto. }
        { intros [(l & [= ->] & Hl) | (d' & [= <-] & [H | H])].
          - left. eauto.
          - rewrite Hv in H. injection H as ->. auto.
          - rewrite Hv in H. injection H as ->. auto. }
      * split; [intros [zs H]; discriminate|].
        intros [(l & H & _) | (d' & [= <-] & [H | H])];
          try rewrite Hv in H; discriminate.
Qed.

Lemma field_is_Some {A : Type} (validate : json -> option A) (k : string)
    (d : list (string * json)) :
  is_Some (field validate k d) <-> has_field (fun v => is_Some (validate v)) k d.
Proof.
  unfold field, has_field. destruct (dict_lookup k d) as [v|]; split.
  - intros H. eauto.
  - intros (v' & [= <-] & H). exact H.
  - intros [x Hx]. discriminate.
  - intros (v & H & _). discriminate.
Qed.

(** A zone is built exactly from a dict whose six fields pass their
    validators. *)
Lemma Zone_of_json_ok (j : json) :
  builds j <->
  exists d, j = JDict d /\
    is_Some (field validate_str "zone_id" d) /\
    is_Some (field validate_str "name" d) /\
    Forall (fun k => is_Some (field validate_float k d)) BOUND_KEYS.
Proof.
  destruct j;
    try (split; [intros [z H]; discriminate | intros (d' & H & _); discriminate]).
  cbn [Zone_of_json]. split.
  - intros [z H]. exists d. split; [reflexivity|].
    destruct (field validate_str "zone_id" d); [|discriminate].
    destruct (field validate_str "name" d); [|discriminate].
    destruct (field validate_float "min_lat" d) eqn:H1; [|discriminate].
    destruct (field validate_float "max_lat" d) eqn:H2; [|discriminate].
    destruct (field validate_float "min_lng" d) eqn:H3; [|discriminate].
    destruct (field validate_float "max_lng" d) eqn:H4; [|discriminate].
    split; [eauto|]. split; [eauto|].
    unfold BOUND_KEYS. repeat constructor; rewrite ?H1, ?H2, ?H3, ?H4; eauto.
  - intros (d' & [= <-] & [i ->] & [n ->] & HF).
    unfold BOUND_KEYS in HF.
    inversion HF as [|? ? [a Ha] HF1]; subst.
    inversion HF1 as [|? ? [b Hb] HF2]; subst.
    inversion HF2 as [|? ? [c Hc] HF3]; subst.
    inversion HF3 as [|? ? [e He] _]; subst.
    rewrite Ha, Hb, Hc, He. eauto.
Qed.

End ZoneLoadingFacts.

Lemma has_field_ext (P Q : json -> Prop) (k : string) (d : list (string * json)) :
  (forall v, P v <-> Q v) -> has_field P k d <-> has_field Q k d.
Proof.
  intros H. unfold has_field. split; intros (v & Hv & Hp); exists v;
    (split; [exact Hv | apply H, Hp]).
Qed.

Lemma Forall_ext_iff {A : Type} (P Q : A -> Prop) (l : list A) :
  (forall x, P x <-> Q x) -> Forall P l <-> Forall Q l.
Proof.
  intros H. rewrite !List.Forall_forall. split; intros HF x Hx; apply H, HF, Hx.
Qed.

Lemma valid_shape_ext (P Q : json -> Prop) (c : FileContents) :
  (forall j, P j <-> Q j) -> valid_shape P c <-> valid_shape Q c.
Proof.
  intros H. destruct c as [| |data]; [reflexivity | reflexivity |].
  destruct data; cbn [valid_shape]; try reflexivity.
  - apply Forall_ext_iff, H.
  - split; intros (l' & Hl & HF); exists l'; (split; [exact Hl|]);
      eapply Forall_ext_iff; try exact HF; intros j; [symmetry|]; apply H.
Qed.

Lemma json_str_accepts (j : json) : is_Some (json_str j) <-> json_is_string j.
Proof.
  unfold json_is_string, is_Some. destruct j; cbn; split; intros H;
    try (destruct H as [y Hy]; discriminate); eexists; reflexivity.
Qed.

Section PydanticFacts.

Variable str_as_float : string -> option float.

Local Abbreviation Zone_of := (Zone_of_json json_str (pydantic_float str_as_float)).
Local Abbreviation load := (load_zones json_str (pydantic_float str_as_float)).

Lemma pydantic_float_accepts (j : json) :
  is_Some (pydantic_float str_as_float j) <-> accepted_number str_as_float j.
Proof.
  unfold accepted_number. destruct j; cbn [pydantic_float]; split.
  all: try (intros [x Hx]; discriminate).
  all: try (intros [(x & H) | [(n' & H & _) | [(b' & H) | (s' & H & _)]]];
            discriminate).
  - intros _. right. right. left. eauto.
  - intros _. eauto.
  - intros H. right. left. exists n. split; [reflexivity|].
    destruct (Float.is_finite (Float.of_Z n)); [reflexivity|].
    destruct H as [x Hx]. discriminate.
  - intros [(x & H) | [(n' & [= <-] & Hn) | [(b' & H) | (s' & H & _)]]];
      try discriminate.
    rewrite Hn. eauto.
  - intros _. left. eauto.
  - intros _. eauto.
  - intros H. right. right. right. eauto.
  - intros [(x & H) | [(n' & H & _) | [(b' & H) | (s' & [= <-] & Hs)]]];
      try discriminate.
    exact Hs.
Qed.

(** A zone is built exactly from an accepted record. *)
Lemma Zone_of_json_accepts (j : json) :
  (exists z, Zone_of j = Ok z) <-> accepted_record str_as_float j.
Proof.
  rewrite Zone_of_json_ok. unfold accepted_record.
  split; intros (d & Hd & Hi & Hn & HF); exists d; (split; [exact Hd|]).
  - split; [|split].
    + apply field_is_Some in Hi. eapply has_field_ext; [|exact Hi].
      intros v. symmetry. apply json_str_accepts.
    + apply field_is_Some in Hn. eapply has_field_ext; [|exact Hn].
      intros v. symmetry. apply json_str_accepts.
    + eapply Forall_impl; [exact HF|]. cbn beta. intros k Hk.
      apply field_is_Some in Hk. eapply has_field_ext; [|exact Hk].
      intros v. symmetry. apply pydantic_float_accepts.
  - split; [|split].
    + apply field_is_Some. eapply has_field_ext; [|exact Hi].
      intros v. apply json_str_accepts.
    + apply field_is_Some. eapply has_field_ext; [|exact Hn].
      intros v. apply json_str_accepts.
    + eapply Forall_impl; [exact HF|]. cbn beta. intros k Hk.
      apply field_is_Some. eapply has_field_ext; [|exact Hk].
      intros v. apply pydantic_float_accepts.
Qed.


End PydanticFacts.


(** The records differ from those of the specification in both directions.
    A bound given as a boolean is taken, although it is not a number; and a
    bound given as an integer too large for a float is refused, although it
    is a number. *)
Example load_zones_boolean_bound :
  ~ spec_valid_shape (Decoded (JList [record_with_bound (JBool true)])) /\
  exists zs,
    load_zones json_str float_field
      (Some (Decoded (JList [record_with_bound (JBool true)]))) = Ok zs.
Proof.
  split.
  - cbn. intros H. apply List.Forall_inv in H.
    destruct H as (d & Hd & _ & _ & HF).
    unfold record_with_bound in Hd. injection Hd as <-.
    apply List.Forall_inv in HF. destruct HF as (v & Hv & Hn).
    vm_compute in Hv. injection Hv as <-.
    destruct Hn as [[n Hn] | [x Hx]]; discriminate.
  - eexists. vm_compute. reflexivity.
Qed.

Example load_zones_huge_bound :
  spec_valid_shape (Decoded (JList [record_with_bound (JInt (10 ^ 400))])) /\
  load_zones json_str float_field
    (Some (Decoded (JList [record_with_bound (JInt (10 ^ 400))])))
  = Raise ValidationError.
Proof.
  split.
  - cbn. constructor; [|constructor].
    exists (fields_with_bound (JInt (10 ^ 400))). split; [reflexivity|].
    unfold has_field, json_is_string, json_is_number, BOUND_KEYS.
    repeat split; try (eexists; split; [reflexivity|]; eauto).
    repeat constructor; eexists; (split; [reflexivity|]); eauto.
  - vm_compute. reflexivity.
Qed.

(** ** float(str) ignores case and surrounding whitespace *)

Module PyFloatFacts.

Import PyStr PyFloat.

Ltac by_cases_on_char c :=
  destruct c as [[] [] [] [] [] [] [] []]; vm_compute; reflexivity.

Lemma upper_char_digit c : is_digit (upper_char c) = is_digit c.
Proof. by_cases_on_char c. Qed.
Lemma upper_char_digit_id c : is_digit c = true -> upper_char c = c.
Proof. destruct c as [[] [] [] [] [] [] [] []]; vm_compute; intros H; try reflexivity; discriminate H. Qed.
Lemma upper_char_isspace c : isspace (upper_char c) = isspace c.
Proof. by_cases_on_char c. Qed.
Lemma upper_char_lower c : lower_char (upper_char c) = lower_char c.
Proof. by_cases_on_char c. Qed.
Lemma upper_char_underscore c : Ascii.eqb (upper_char c) "_" = Ascii.eqb c "_".
Proof. by_cases_on_char c. Qed.
Lemma upper_char_underscore' c : Ascii.eqb "_" (upper_char c) = Ascii.eqb "_" c.
Proof. by_cases_on_char c. Qed.
Lemma upper_char_minus c : Ascii.eqb (upper_char c) "-" = Ascii.eqb c "-".
Proof. by_cases_on_char c. Qed.
Lemma upper_char_plus c : Ascii.eqb (upper_char c) "+" = Ascii.eqb c "+".
Proof. by_cases_on_char c. Qed.
Lemma upper_char_point c : Ascii.eqb (upper_char c) "." = Ascii.eqb c ".".
Proof. by_cases_on_char c. Qed.
Lemma upper_char_exp c :
  Ascii.eqb (upper_char c) "e" || Ascii.eqb (upper_char c) "E"
  = Ascii.eqb c "e" || Ascii.eqb c "E".
Proof. by_cases_on_char c. Qed.

Lemma skip_leading_upper s : skip_leading (upper s) = upper (skip_leading s).
Proof.
  induction s as [|c r IH]; [reflexivity|].
  cbn [upper map skip_leading]. fold (upper r).
  rewrite upper_char_isspace. destruct (isspace c); [exact IH | reflexivity].
Qed.

Lemma skip_trailing_upper s : skip_trailing (upper s) = upper (skip_trailing s).
Proof.
  unfold skip_trailing.
  assert (H : rev (upper s) = upper (rev s)).
  { unfold upper. symmetry. apply List.map_rev. }
  rewrite H, skip_leading_upper. unfold upper. symmetry. apply List.map_rev.
Qed.

Lemma has_underscore_upper s :
  existsb (Ascii.eqb "_") (upper s) = existsb (Ascii.eqb "_") s.
Proof.
  induction s as [|c r IH]; [reflexivity|].
  cbn [upper map existsb]. fold (upper r).
  rewrite upper_char_underscore', IH. reflexivity.
Qed.

Lemma drop_underscores_upper s : forall prev,
  drop_underscores (upper_char prev) (upper s)
  = option_map upper (drop_underscores prev s).
Proof.
  induction s as [|c r IH]; intros prev; cbn [upper map drop_underscores].
  - rewrite upper_char_underscore. destruct (Ascii.eqb prev "_"); reflexivity.
  - fold (upper r). rewrite !upper_char_underscore, !upper_char_digit.
    destruct (Ascii.eqb c "_").
    + destruct (is_digit prev); [apply IH | reflexivity].
    + destruct (Ascii.eqb prev "_" && negb (is_digit c)); [reflexivity|].
      rewrite IH. destruct (drop_underscores c r); reflexivity.
Qed.

Lemma parse_sign_upper s :
  parse_sign (upper s) = (fst (parse_sign s), upper (snd (parse_sign s))).
Proof.
  destruct s as [|c r]; [reflexivity|].
  cbn [upper map parse_sign]. fold (upper r).
  rewrite upper_char_minus, upper_char_plus.
  destruct (Ascii.eqb c "-"); [reflexivity|].
  destruct (Ascii.eqb c "+"); reflexivity.
Qed.

Lemma span_digits_upper s :
  span_digits (upper s) = (fst (span_digits s), upper (snd (span_digits s))).
Proof.
  induction s as [|c r IH]; [reflexivity|].
  cbn [upper map span_digits]. fold (upper r).
  rewrite upper_char_digit. destruct (is_digit c) eqn:Hd; [|reflexivity].
  rewrite IH. destruct (span_digits r) as [ds rest]. cbn [fst snd].
  rewrite (upper_char_digit_id c Hd). reflexivity.
Qed.

Lemma parse_exponent_upper s :
  parse_exponent (upper s)
  = (fst (parse_exponent s), upper (snd (parse_exponent s))).
Proof.
  destruct s as [|c r]; [reflexivity|].
  unfold parse_exponent. cbn [upper map].
  rewrite upper_char_exp.
  destruct (Ascii.eqb c "e" || Ascii.eqb c "E"); [|reflexivity].
  fold (upper r). rewrite parse_sign_upper.
  destruct (parse_sign r) as [esign r1]. cbn [fst snd].
  rewrite span_digits_upper.
  destruct (span_digits r1) as [ds rest]. cbn [fst snd].
  destruct ds; reflexivity.
Qed.

Lemma dg_strtod_upper s :
  dg_strtod (upper s) = option_map upper_rest (dg_strtod s).
Proof.
  unfold dg_strtod.
  rewrite parse_sign_upper. destruct (parse_sign s) as [sign s1]. cbn [fst snd].
  rewrite span_digits_upper. destruct (span_digits s1) as [ip s2]. cbn [fst snd].
  assert (Hfrac :
    match upper s2 with
    | c :: r => if Ascii.eqb c "." then span_digits r else ([], upper s2)
    | [] => ([], upper s2)
    end =
    (fst match s2 with
         | c :: r => if Ascii.eqb c "." then span_digits r else ([], s2)
         | [] => ([], s2)
         end,
     upper (snd match s2 with
                | c :: r => if Ascii.eqb c "." then span_digits r else ([], s2)
                | [] => ([], s2)
                end))).
  { destruct s2 as [|c r]; [reflexivity|]. cbn [upper map].
    rewrite upper_char_point. destruct (Ascii.eqb c "."); [|reflexivity].
    apply span_digits_upper. }
  rewrite Hfrac.
  destruct (match s2 with
            | c :: r => if Ascii.eqb c "." then span_digits r else ([], s2)
            | [] => ([], s2)
            end) as [fp s3]. cbn [fst snd].
  destruct (ip ++ fp); [reflexivity|].
  destruct (_ || _); [reflexivity|].
  rewrite parse_exponent_upper.
  destruct (parse_exponent s3) as [e s4]. reflexivity.
Qed.

Lemma case_insensitive_match_upper t : forall s,
  case_insensitive_match (upper s) t
  = option_map upper (case_insensitive_match s t).
Proof.
  induction t as [|d t IH]; intros s; [reflexivity|].
  destruct s as [|c s]; [reflexivity|].
  cbn [upper map case_insensitive_match]. fold (upper s).
  rewrite upper_char_lower.
  destruct (Ascii.eqb (lower_char c) d); [apply IH | reflexivity].
Qed.

Lemma parse_inf_or_nan_upper s :
  parse_inf_or_nan (upper s) = option_map upper_rest (parse_inf_or_nan s).
Proof.
  unfold parse_inf_or_nan.
  rewrite parse_sign_upper. destruct (parse_sign s) as [negate s1]. cbn [fst snd].
  rewrite !case_insensitive_match_upper.
  destruct (case_insensitive_match s1 _) as [s2|]; cbn [option_map].
  - rewrite case_insensitive_match_upper.
    destruct (case_insensitive_match s2 _); reflexivity.
  - destruct (case_insensitive_match s1 _); reflexivity.
Qed.

Lemma from_string_inner_upper s :
  from_string_inner (upper s) = from_string_inner s.
Proof.
  unfold from_string_inner, ascii_strtod.
  rewrite dg_strtod_upper, parse_inf_or_nan_upper.
  destruct (dg_strtod s) as [[x rest]|]; cbn [option_map upper_rest fst snd].
  - destruct rest; reflexivity.
  - destruct (parse_inf_or_nan s) as [[x rest]|]; cbn [option_map upper_rest fst snd];
      [destruct rest|]; reflexivity.
Qed.

Lemma of_string_upper s : of_string (upper s) = of_string s.
Proof.
  unfold of_string.
  rewrite skip_leading_upper, skip_trailing_upper, has_underscore_upper.
  set (t := skip_trailing (skip_leading s)).
  destruct (existsb _ t).
  - change "000"%char with (upper_char "000"%char) at 1.
    rewrite drop_underscores_upper.
    destruct (drop_underscores _ t); cbn [option_map]; [|reflexivity].
    apply from_string_inner_upper.
  - apply from_string_inner_upper.
Qed.

Lemma skip_leading_clean s : starts_clean (skip_leading s).
Proof.
  induction s as [|c r IH]; cbn [skip_leading]; [exact I|].
  destruct (isspace c) eqn:Hc; [exact IH | exact Hc].
Qed.

Lemma skip_leading_fixed s : starts_clean s -> skip_leading s = s.
Proof.
  destruct s as [|c r]; [reflexivity|]. cbn [starts_clean skip_leading].
  intros ->. reflexivity.
Qed.

Lemma skip_leading_snoc l c :
  isspace c = false -> skip_leading (l ++ [c]) = skip_leading l ++ [c].
Proof.
  intros Hc. induction l as [|d l IH]; cbn [app skip_leading].
  - rewrite Hc. reflexivity.
  - destruct (isspace d); [exact IH | reflexivity].
Qed.

Lemma skip_trailing_clean s : starts_clean s -> starts_clean (skip_trailing s).
Proof.
  destruct s as [|c r]; [intros _; exact I|].
  cbn [starts_clean]. intros Hc. unfold skip_trailing. cbn [rev].
  rewrite (skip_leading_snoc _ _ Hc), List.rev_app_distr. exact Hc.
Qed.

Lemma skip_trailing_idem s : skip_trailing (skip_trailing s) = skip_trailing s.
Proof.
  unfold skip_trailing. rewrite List.rev_involutive.
  rewrite (skip_leading_fixed _ (skip_leading_clean (rev s))). reflexivity.
Qed.

Lemma trim_idem s :
  skip_trailing (skip_leading (skip_trailing (skip_leading s)))
  = skip_trailing (skip_leading s).
Proof.
  rewrite (skip_leading_fixed (skip_trailing (skip_leading s))).
  - apply skip_trailing_idem.
  - apply skip_trailing_clean, skip_leading_clean.
Qed.

Lemma of_string_trim s :
  of_string (skip_trailing (skip_leading s)) = of_string s.
Proof.
  unfold of_string. rewrite trim_idem. reflexivity.
Qed.

End PyFloatFacts.

(** ** The characters of a text that reads as a float *)

Module PyFloatChars.

Import PyStr PyFloat.

Local Abbreviation all P := (Forall (fun c : ascii => P c = true)).

Lemma numeric_small c : numeric_char c = true -> small_char c = true.
Proof. unfold small_char. intros ->. reflexivity. Qed.

Lemma small_float c : small_char c = true -> float_char c = true.
Proof. unfold float_char. intros ->. reflexivity. Qed.

Lemma all_numeric_small s : all numeric_char s -> all small_char s.
Proof. apply List.Forall_impl, numeric_small. Qed.

Lemma all_small_float s : all small_char s -> all float_char s.
Proof. apply List.Forall_impl, small_float. Qed.

Lemma isspace_numeric c : isspace c = true -> numeric_char c = true.
Proof. unfold numeric_char. intros ->. reflexivity. Qed.

Lemma digit_numeric c : is_digit c = true -> numeric_char c = true.
Proof. unfold numeric_char. intros ->. rewrite orb_true_r. reflexivity. Qed.

Lemma skip_leading_decomp s :
  exists a, s = a ++ skip_leading s /\ all isspace a.
Proof.
  induction s as [|c r (a & Ha & HF)]; cbn [skip_leading].
  - exists []. split; [reflexivity | constructor].
  - destruct (isspace c) eqn:Hc.
    + exists (c :: a). split; [cbn; f_equal; exact Ha | constructor; assumption].
    + exists []. split; [reflexivity | constructor].
Qed.

Lemma skip_trailing_decomp s :
  exists b, s = skip_trailing s ++ b /\ all isspace b.
Proof.
  unfold skip_trailing.
  destruct (skip_leading_decomp (rev s)) as (a & Ha & HF).
  exists (rev a). split.
  - rewrite <- List.rev_app_distr, <- Ha, List.rev_involutive. reflexivity.
  - apply List.Forall_rev, HF.
Qed.

Lemma trim_chars (P : ascii -> bool) s :
  (forall c, isspace c = true -> P c = true) ->
  all P (skip_trailing (skip_leading s)) -> all P s.
Proof.
  intros HP H.
  destruct (skip_leading_decomp s) as (a & Ha & HFa).
  destruct (skip_trailing_decomp (skip_leading s)) as (b & Hb & HFb).
  rewrite Ha, Hb. rewrite !List.Forall_app. repeat split.
  - eapply List.Forall_impl; [|exact HFa]. exact HP.
  - exact H.
  - eapply List.Forall_impl; [|exact HFb]. exact HP.
Qed.

Lemma drop_underscores_chars (P : ascii -> bool) s : forall prev u,
  drop_underscores prev s = Some u ->
  P "_"%char = true -> all P u -> all P s.
Proof.
  induction s as [|c r IH]; intros prev u H Hu HF; [constructor|].
  cbn [drop_underscores] in H.
  destruct (Ascii.eqb c "_") eqn:Hc.
  - apply Ascii.eqb_eq in Hc. subst c.
    destruct (is_digit prev); [|discriminate].
    constructor; [exact Hu | eapply IH; eauto].
  - destruct (Ascii.eqb prev "_" && negb (is_digit c)); [discriminate|].
    destruct (drop_underscores c r) as [u'|] eqn:Hd; [|discriminate].
    injection H as <-. inversion HF; subst.
    constructor; [assumption | eapply IH; eauto].
Qed.

Lemma parse_sign_decomp s :
  exists p, s = p ++ snd (parse_sign s) /\ all numeric_char p.
Proof.
  destruct s as [|c r]; [exists []; split; [reflexivity | constructor]|].
  cbn [parse_sign].
  destruct (Ascii.eqb c "-") eqn:Hm.
  { apply Ascii.eqb_eq in Hm. subst. exists ["-"%char].
    split; [reflexivity | repeat constructor]. }
  destruct (Ascii.eqb c "+") eqn:Hp.
  { apply Ascii.eqb_eq in Hp. subst. exists ["+"%char].
    split; [reflexivity | repeat constructor]. }
  exists []. split; [reflexivity | constructor].
Qed.

Lemma span_digits_decomp s :
  s = fst (span_digits s) ++ snd (span_digits s) /\
  all is_digit (fst (span_digits s)).
Proof.
  induction s as [|c r [IH1 IH2]]; [split; [reflexivity | constructor]|].
  cbn [span_digits]. destruct (is_digit c) eqn:Hc.
  - destruct (span_digits r) as [ds rest]. cbn [fst snd] in *.
    split; [cbn [app]; f_equal; exact IH1 | constructor; assumption].
  - split; [reflexivity | constructor].
Qed.

Lemma span_digits_numeric s :
  exists p, s = p ++ snd (span_digits s) /\ all numeric_char p /\
            p = fst (span_digits s).
Proof.
  destruct (span_digits_decomp s) as [H1 H2].
  exists (fst (span_digits s)). split; [exact H1|]. split; [|reflexivity].
  eapply List.Forall_impl; [|exact H2]. apply digit_numeric.
Qed.

Lemma parse_exponent_decomp s :
  exists p, s = p ++ snd (parse_exponent s) /\ all numeric_char p.
Proof.
  destruct s as [|c r]; [exists []; split; [reflexivity | constructor]|].
  unfold parse_exponent.
  destruct (Ascii.eqb c "e" || Ascii.eqb c "E") eqn:He;
    [|exists []; split; [reflexivity | constructor]].
  destruct (parse_sign_decomp r) as (p1 & Hp1 & HF1).
  destruct (parse_sign r) as [esign r1]. cbn [snd] in Hp1.
  destruct (span_digits_numeric r1) as (p2 & Hp2 & HF2 & Hfst).
  destruct (span_digits r1) as [ds rest]. cbn [fst snd] in *.
  destruct ds as [|d ds']; [exists []; split; [reflexivity | constructor]|].
  cbn [snd]. exists (c :: p1 ++ p2). split.
  - cbn. f_equal. rewrite <- List.app_assoc, <- Hp2. exact Hp1.
  - constructor.
    + apply orb_true_iff in He as [He|He]; apply Ascii.eqb_eq in He; subst;
        reflexivity.
    + apply List.Forall_app. split; assumption.
Qed.

Lemma dg_strtod_decomp s x rest :
  dg_strtod s = Some (x, rest) ->
  exists p, s = p ++ rest /\ all numeric_char p.
Proof.
  unfold dg_strtod.
  destruct (parse_sign_decomp s) as (p0 & Hp0 & HF0).
  destruct (parse_sign s) as [sign s1]. cbn [snd] in Hp0.
  destruct (span_digits_numeric s1) as (p1 & Hp1 & HF1 & _).
  destruct (span_digits s1) as [ip s2]. cbn [snd] in Hp1.
  assert (Hfrac : exists p2, s2 = p2 ++
            snd (match s2 with
                 | c :: r => if Ascii.eqb c "." then span_digits r else ([], s2)
                 | [] => ([], s2)
                 end) /\ all numeric_char p2).
  { destruct s2 as [|c r]; [exists []; split; [reflexivity | constructor]|].
    destruct (Ascii.eqb c ".") eqn:Hc;
      [|exists []; split; [reflexivity | constructor]].
    apply Ascii.eqb_eq in Hc. subst c.
    destruct (span_digits_numeric r) as (p & Hp & HF & _).
    exists ("."%char :: p). split; [cbn; f_equal; exact Hp|].
    constructor; [reflexivity | exact HF]. }
  destruct Hfrac as (p2 & Hp2 & HF2).
  destruct (match s2 with
            | c :: r => if Ascii.eqb c "." then span_digits r else ([], s2)
            | [] => ([], s2)
            end) as [fp s3]. cbn [snd] in Hp2.
  destruct (ip ++ fp); [discriminate|].
  destruct (_ || _); [discriminate|].
  destruct (parse_exponent_decomp s3) as (p3 & Hp3 & HF3).
  destruct (parse_exponent s3) as [e s4]. cbn [snd] in Hp3.
  intros [= _ <-].
  exists (p0 ++ p1 ++ p2 ++ p3). split.
  - rewrite Hp0, Hp1, Hp2, Hp3 at 1. rewrite <- !List.app_assoc. reflexivity.
  - rewrite !List.Forall_app. auto.
Qed.

Lemma case_insensitive_match_decomp t : forall s rest,
  case_insensitive_match s t = Some rest ->
  exists p, s = p ++ rest /\ map lower_char p = t.
Proof.
  induction t as [|d t IH]; intros s rest H.
  - injection H as <-. exists []. split; reflexivity.
  - destruct s as [|c s]; [discriminate|]. cbn [case_insensitive_match] in H.
    destruct (Ascii.eqb (lower_char c) d) eqn:Hc; [|discriminate].
    apply Ascii.eqb_eq in Hc. apply IH in H as (p & Hp & Hm).
    exists (c :: p). split; [cbn; f_equal; exact Hp | cbn; congruence].
Qed.

Lemma lower_in_chars (P : ascii -> bool) (L : list ascii) :
  (forall c, existsb (Ascii.eqb (lower_char c)) L = true -> P c = true) ->
  forall p t, map lower_char p = t ->
  Forall (fun d => existsb (Ascii.eqb d) L = true) t -> all P p.
Proof.
  intros HP p. induction p as [|c p IH]; intros t Hm HF; [constructor|].
  subst t. inversion HF; subst. constructor; [apply HP; assumption|].
  eapply IH; [reflexivity | assumption].
Qed.

Lemma inf_letter_float c :
  existsb (Ascii.eqb (lower_char c)) (list_ascii_of_string "infinity") = true ->
  float_char c = true.
Proof.
  destruct c as [[] [] [] [] [] [] [] []]; vm_compute; intros H;
    try reflexivity; discriminate H.
Qed.

Lemma nan_letter_small c :
  existsb (Ascii.eqb (lower_char c)) (list_ascii_of_string "nan") = true ->
  small_char c = true.
Proof.
  destruct c as [[] [] [] [] [] [] [] []]; vm_compute; intros H;
    try reflexivity; discriminate H.
Qed.

Lemma parse_inf_or_nan_decomp s x rest :
  parse_inf_or_nan s = Some (x, rest) ->
  exists p, s = p ++ rest /\ all float_char p /\
            (is_infinity x = false -> all small_char p).
Proof.
  unfold parse_inf_or_nan.
  destruct (parse_sign_decomp s) as (p0 & Hp0 & HF0).
  destruct (parse_sign s) as [negate s1]. cbn [snd] in Hp0.
  destruct (case_insensitive_match s1 _) as [s2|] eqn:H1.
  - apply case_insensitive_match_decomp in H1 as (p1 & Hp1 & Hm1).
    assert (HF1 : all float_char p1).
    { eapply (lower_in_chars float_char _ inf_letter_float); [exact Hm1|].
      repeat constructor. }
    destruct (case_insensitive_match s2 _) as [s3|] eqn:H2.
    + apply case_insensitive_match_decomp in H2 as (p2 & Hp2 & Hm2).
      assert (HF2 : all float_char p2).
      { eapply (lower_in_chars float_char _ inf_letter_float); [exact Hm2|].
        repeat constructor. }
      intros [= <- <-]. exists (p0 ++ p1 ++ p2). split; [|split].
      * rewrite Hp0, Hp1, Hp2 at 1. rewrite <- !List.app_assoc. reflexivity.
      * rewrite !List.Forall_app. repeat split; try assumption.
        apply all_small_float, all_numeric_small, HF0.
      * discriminate.
    + intros [= <- <-]. exists (p0 ++ p1). split; [|split].
      * rewrite Hp0, Hp1 at 1. rewrite <- !List.app_assoc. reflexivity.
      * rewrite !List.Forall_app. repeat split; try assumption.
        apply all_small_float, all_numeric_small, HF0.
      * discriminate.
  - destruct (case_insensitive_match s1 (list_ascii_of_string "nan"))
      as [s2|] eqn:H2; [|discriminate].
    apply case_insensitive_match_decomp in H2 as (p1 & Hp1 & Hm1).
    assert (HF1 : all small_char p1).
    { eapply (lower_in_chars small_char _ nan_letter_small); [exact Hm1|].
      repeat constructor. }
    intros [= <- <-]. exists (p0 ++ p1).
    assert (HS : all small_char (p0 ++ p1)).
    { rewrite List.Forall_app. split; [apply all_numeric_small, HF0 | exact HF1]. }
    split; [|split].
    * rewrite Hp0, Hp1 at 1. rewrite <- !List.app_assoc. reflexivity.
    * apply all_small_float, HS.
    * intros _. exact HS.
Qed.

Lemma from_string_inner_chars s v :
  from_string_inner s = Some v ->
  all float_char s /\ (is_infinity v = false -> all small_char s).
Proof.
  unfold from_string_inner, ascii_strtod.
  destruct (dg_strtod s) as [[x rest]|] eqn:Hd.
  - destruct rest; [|discriminate]. intros [= <-].
    apply dg_strtod_decomp in Hd as (p & Hp & HF).
    rewrite List.app_nil_r in Hp. subst p.
    split; [apply all_small_float, all_numeric_small, HF|].
    intros _. apply all_numeric_small, HF.
  - destruct (parse_inf_or_nan s) as [[x rest]|] eqn:Hi; [|discriminate].
    destruct rest; [|discriminate]. intros [= <-].
    apply parse_inf_or_nan_decomp in Hi as (p & Hp & HF & HS).
    rewrite List.app_nil_r in Hp. subst p. auto.
Qed.

(** Every character of a text that reads as a float belongs to the
    alphabet of floats; unless the value is an infinity, to the alphabet of
    decimal literals and [nan]. *)
Lemma of_string_chars s v :
  of_string s = Some v ->
  all float_char s /\ (is_infinity v = false -> all small_char s).
Proof.
  unfold of_string. set (t := skip_trailing (skip_leading s)).
  intros H.
  assert (Ht : all float_char t /\ (is_infinity v = false -> all small_char t)).
  { destruct (existsb (Ascii.eqb "_") t).
    - destruct (drop_underscores "000" t) as [u|] eqn:Hu; [|discriminate].
      apply from_string_inner_chars in H as [HF HS]. split.
      + eapply drop_underscores_chars; eauto.
      + intros Hv. eapply drop_underscores_chars; eauto.
    - apply from_string_inner_chars, H. }
  destruct Ht as [HF HS]. split.
  - apply trim_chars; [|exact HF].
    intros c Hc. apply small_float, numeric_small, isspace_numeric, Hc.
  - intros Hv. apply trim_chars; [|exact (HS Hv)].
    intros c Hc. apply numeric_small, isspace_numeric, Hc.
Qed.

End PyFloatChars.

(** ** Code points: the buffer, upper case, trimming *)

Module PyUnicodeFacts.

Import PyUnicode.

Local Abbreviation all P := (Forall (fun c : ascii => P c = true)).

(** *** The buffer *)

Lemma plain_del : plain 127 = false.
Proof. vm_compute. reflexivity. Qed.

Lemma ascii_char_plain (c : N) :
  (c <? 128)%N = true -> float_char (ascii_of_N c) = true ->
  (c <? 127)%N = true.
Proof.
  intros H1 H2. apply N.ltb_lt in H1. apply N.ltb_lt.
  destruct (N.eq_dec c 127%N) as [->|Hne]; [vm_compute in H2; discriminate | lia].
Qed.

Lemma transform_char_low (c : N) :
  (c <? 127)%N = true -> transform_char c = ascii_of_N c.
Proof. unfold transform_char. intros ->. reflexivity. Qed.

Lemma plain_low (c : N) : (c <? 127)%N = true -> plain c = true.
Proof. unfold plain. intros ->. reflexivity. Qed.

Lemma transform_from_plain (t : pystr) :
  all float_char (transform_from t) ->
  forallb plain t = true /\ transform_from t = map transform_char t.
Proof.
  induction t as [|c r IH]; intros H; [split; reflexivity|].
  cbn [transform_from forallb map] in *. unfold plain at 1, transform_char at 1.
  destruct (c <? 127)%N; [|destruct (is_space c); [|destruct (to_decimal c)]].
  - inversion H; subst. destruct IH as [-> ->]; auto.
  - inversion H; subst. destruct IH as [-> ->]; auto.
  - inversion H; subst. destruct IH as [-> ->]; auto.
  - inversion H as [|? ? Hq _]; subst. vm_compute in Hq. discriminate.
Qed.

Lemma transform_plain (t : pystr) :
  all float_char (transform t) ->
  forallb plain t = true /\ transform t = map transform_char t.
Proof.
  unfold transform. destruct (is_ascii t) eqn:Ha; [|apply transform_from_plain].
  unfold is_ascii in Ha. induction t as [|c r IH]; intros H; [split; reflexivity|].
  cbn [forallb map] in *. apply andb_true_iff in Ha as [Hc Hr].
  inversion H as [|? ? Hf Hrest]; subst.
  pose proof (ascii_char_plain c Hc Hf) as Hlow.
  destruct (IH Hr Hrest) as [-> ->].
  rewrite (plain_low c Hlow), (transform_char_low c Hlow). split; reflexivity.
Qed.

Lemma transform_from_of_plain (t : pystr) :
  forallb plain t = true -> transform_from t = map transform_char t.
Proof.
  induction t as [|c r IH]; intros H; [reflexivity|].
  cbn [transform_from forallb map] in *. apply andb_true_iff in H as [Hc Hr].
  unfold plain in Hc. unfold transform_char.
  destruct (c <? 127)%N; [|destruct (is_space c); [|destruct (to_decimal c)]];
    try (rewrite (IH Hr); reflexivity).
  discriminate Hc.
Qed.

Lemma plain_transform (t : pystr) :
  forallb plain t = true -> transform t = map transform_char t.
Proof.
  unfold transform. destruct (is_ascii t) eqn:Ha; [|apply transform_from_of_plain].
  unfold is_ascii in Ha. induction t as [|c r IH]; intros H; [reflexivity|].
  cbn [forallb map] in *. apply andb_true_iff in Ha as [Hc Hr].
  apply andb_true_iff in H as [Hp Hpr]. rewrite (IH Hr Hpr). f_equal.
  symmetry. apply transform_char_low.
  apply N.ltb_lt in Hc. apply N.ltb_lt.
  destruct (N.eq_dec c 127%N) as [->|Hne]; [rewrite plain_del in Hp; discriminate | lia].
Qed.

(** *** Upper case *)

Lemma upper_table_not_plain :
  forallb (fun e => negb (plain (fst e))) UPPER = true.
Proof. vm_compute. reflexivity. Qed.

Lemma to_upper_plain (c : N) : plain c = true -> to_upper c = [fold_case c].
Proof.
  intros Hp. unfold to_upper, fold_case.
  destruct (c <? 128)%N eqn:Hc; [reflexivity|].
  apply N.ltb_ge in Hc.
  destruct (find _ UPPER) as [e|] eqn:Hf.
  - apply find_some in Hf as [Hin He]. apply N.eqb_eq in He.
    pose proof (proj1 (forallb_forall _ _) upper_table_not_plain e Hin) as Hn.
    cbn beta in Hn. rewrite He, Hp in Hn. discriminate.
  - destruct ((97 <=? c) && (c <=? 122))%N eqn:E; [|reflexivity].
    apply andb_true_iff in E as [_ E]. apply N.leb_le in E. lia.
Qed.

Lemma fold_case_high (c : N) : (127 <= c)%N -> fold_case c = c.
Proof.
  intros H. unfold fold_case.
  destruct ((97 <=? c) && (c <=? 122))%N eqn:E; [|reflexivity].
  apply andb_true_iff in E as [_ E]. apply N.leb_le in E. lia.
Qed.

Lemma fold_case_low (c : N) : (c < 127)%N -> (fold_case c < 127)%N.
Proof.
  intros H. unfold fold_case.
  destruct ((97 <=? c) && (c <=? 122))%N; lia.
Qed.

Lemma plain_fold (c : N) : plain c = true -> plain (fold_case c) = true.
Proof.
  intros H. destruct (c <? 127)%N eqn:Hc.
  - apply plain_low, N.ltb_lt, fold_case_low, N.ltb_lt, Hc.
  - apply N.ltb_ge in Hc. rewrite fold_case_high by exact Hc. exact H.
Qed.

Lemma to_decimal_range (c d : N) : to_decimal c = Some d -> (d < 10)%N.
Proof.
  unfold to_decimal. destruct (find _ DECIMAL_ZEROS) as [z|] eqn:Hf; [|discriminate].
  apply find_some in Hf as [_ Hz]. apply andb_true_iff in Hz as [H1 H2].
  apply N.leb_le in H1. apply N.ltb_lt in H2. intros [= <-]. lia.
Qed.

Lemma upper_char_of_N (c : N) :
  (c < 256)%N ->
  PyStr.upper_char (ascii_of_N c) = ascii_of_N (fold_case c).
Proof.
  intros H. unfold PyStr.upper_char, PyStr.code, fold_case.
  rewrite N_ascii_embedding by exact H.
  destruct ((97 <=? c) && (c <=? 122))%N; reflexivity.
Qed.

Lemma transform_char_fold (c : N) :
  plain c = true ->
  transform_char (fold_case c) = PyStr.upper_char (transform_char c).
Proof.
  intros Hp. destruct (c <? 127)%N eqn:Hc.
  - pose proof Hc as Hlt. apply N.ltb_lt in Hlt.
    rewrite (transform_char_low c Hc).
    rewrite transform_char_low by (apply N.ltb_lt, fold_case_low, Hlt).
    symmetry. apply upper_char_of_N. lia.
  - rewrite fold_case_high by (apply N.ltb_ge, Hc).
    unfold plain in Hp. unfold transform_char. rewrite Hc in *.
    destruct (is_space c); [reflexivity|].
    destruct (to_decimal c) as [d|] eqn:Hd; [|discriminate Hp].
    apply to_decimal_range in Hd.
    rewrite upper_char_of_N by lia. f_equal. unfold fold_case.
    destruct ((97 <=? 48 + d) && (48 + d <=? 122))%N eqn:E; [|reflexivity].
    apply andb_true_iff in E as [E _]. apply N.leb_le in E. lia.
Qed.

Lemma upper_plain (t : pystr) :
  forallb plain t = true -> upper t = map fold_case t.
Proof.
  induction t as [|c r IH]; intros H; [reflexivity|].
  cbn [forallb] in H. apply andb_true_iff in H as [Hc Hr].
  unfold upper. cbn [flat_map map]. rewrite (to_upper_plain c Hc).
  cbn [app]. f_equal. apply IH, Hr.
Qed.

Lemma plain_map_fold (t : pystr) :
  forallb plain t = true -> forallb plain (map fold_case t) = true.
Proof.
  induction t as [|c r IH]; intros H; [reflexivity|].
  cbn [forallb map] in *. apply andb_true_iff in H as [Hc Hr].
  rewrite (plain_fold c Hc), (IH Hr). reflexivity.
Qed.

Lemma transform_map_fold (t : pystr) :
  forallb plain t = true ->
  map transform_char (map fold_case t) = PyStr.upper (map transform_char t).
Proof.
  induction t as [|c r IH]; intros H; [reflexivity|].
  cbn [forallb map] in *. apply andb_true_iff in H as [Hc Hr].
  unfold PyStr.upper in *. cbn [map].
  rewrite (transform_char_fold c Hc), (IH Hr). reflexivity.
Qed.

(** On a text the buffer keeps whole, [float] does not see the case. *)
Lemma to_float_upper_plain (t : pystr) :
  forallb plain t = true -> to_float (upper t) = to_float t.
Proof.
  intros H. unfold to_float.
  rewrite (upper_plain t H).
  rewrite (plain_transform _ (plain_map_fold t H)).
  rewrite (transform_map_fold t H), PyFloatFacts.of_string_upper.
  rewrite (plain_transform t H). reflexivity.
Qed.

Lemma to_float_plain (t : pystr) (v : float) :
  to_float t = Some v ->
  forallb plain t = true /\
  transform t = map transform_char t /\
  all float_char (map transform_char t) /\
  (is_infinity v = false -> all small_char (map transform_char t)).
Proof.
  unfold to_float. intros H.
  apply PyFloatChars.of_string_chars in H as [HF HS].
  destruct (transform_plain t HF) as [Hp Ht].
  rewrite Ht in HF, HS. auto.
Qed.

(** A text that reads as a float reads as the same float in upper case. *)
Lemma to_float_upper (t : pystr) (v : float) :
  to_float t = Some v -> to_float (upper t) = Some v.
Proof.
  intros H. destruct (to_float_plain t v H) as (Hp & _).
  rewrite (to_float_upper_plain t Hp). exact H.
Qed.

Lemma upper_table_not_small :
  forallb (fun e => negb (forallb small_plain (snd e))) UPPER = true.
Proof. vm_compute. reflexivity. Qed.

Lemma to_upper_small (c : N) :
  forallb small_plain (to_upper c) = true -> plain c = true.
Proof.
  unfold to_upper. destruct (c <? 128)%N eqn:Hc.
  - destruct (c <? 127)%N eqn:Hl; [intros _; apply plain_low, Hl|].
    apply N.ltb_lt in Hc. apply N.ltb_ge in Hl.
    assert (c = 127%N) as -> by lia. vm_compute. intros H. discriminate H.
  - destruct (find _ UPPER) as [e|] eqn:Hf.
    + apply find_some in Hf as [Hin He].
      pose proof (proj1 (forallb_forall _ _) upper_table_not_small e Hin) as Hn.
      cbn beta in Hn. intros H. rewrite H in Hn. discriminate.
    + cbn [forallb]. unfold small_plain. intros H.
      apply andb_true_iff in H as [H _]. apply andb_true_iff in H as [H _].
      exact H.
Qed.

Lemma upper_small (t : pystr) :
  forallb small_plain (upper t) = true -> forallb plain t = true.
Proof.
  induction t as [|c r IH]; intros H; [reflexivity|].
  unfold upper in H. cbn [flat_map] in H. rewrite forallb_app in H.
  apply andb_true_iff in H as [Hc Hr]. cbn [forallb].
  rewrite (to_upper_small c Hc). apply IH, Hr.
Qed.

Lemma small_plain_all (t : pystr) :
  forallb plain t = true -> all small_char (map transform_char t) ->
  forallb small_plain t = true.
Proof.
  induction t as [|c r IH]; intros Hp Hs; [reflexivity|].
  cbn [forallb map] in *. apply andb_true_iff in Hp as [Hc Hr].
  inversion Hs; subst. unfold small_plain at 1.
  rewrite Hc, IH by assumption. cbn. rewrite andb_true_r. assumption.
Qed.

(** A text that does not read as a float and whose upper case does reads
    as an infinity. *)
Lemma to_float_upper_infinity (t : pystr) (v : float) :
  to_float t = None -> to_float (upper t) = Some v -> is_infinity v = true.
Proof.
  intros Hn Hu. destruct (is_infinity v) eqn:Hi; [reflexivity|]. exfalso.
  destruct (to_float_plain _ _ Hu) as (Hp & _ & _ & HS).
  pose proof (upper_small t (small_plain_all _ Hp (HS Hi))) as Ht.
  rewrite (to_float_upper_plain t Ht) in Hu. congruence.
Qed.

(** *** Trimming *)

Lemma ascii_space (a : ascii) :
  float_char a = true -> is_space (N_of_ascii a) = PyFloat.isspace a.
Proof.
  destruct a as [[] [] [] [] [] [] [] []]; vm_compute; intros H;
    try reflexivity; discriminate H.
Qed.

Lemma is_space_transform (c : N) :
  plain c = true -> float_char (transform_char c) = true ->
  is_space c = PyFloat.isspace (transform_char c).
Proof.
  intros Hp Hf. destruct (c <? 127)%N eqn:Hc.
  - rewrite (transform_char_low c Hc) in *. apply N.ltb_lt in Hc.
    rewrite <- (ascii_space _ Hf), N_ascii_embedding by lia. reflexivity.
  - unfold plain in Hp. unfold transform_char. rewrite Hc in *.
    destruct (is_space c); [reflexivity|].
    destruct (to_decimal c) as [d|] eqn:Hd; [|discriminate Hp].
    apply to_decimal_range in Hd.
    unfold PyFloat.isspace, PyStr.code. rewrite N_ascii_embedding by lia.
    symmetry. apply orb_false_iff. split.
    + apply andb_false_iff. right. apply N.leb_gt. lia.
    + apply N.eqb_neq. lia.
Qed.

Lemma lstrip_map (f : N -> ascii) (t : pystr) :
  Forall (fun c => is_space c = PyFloat.isspace (f c)) t ->
  map f (lstrip t) = PyFloat.skip_leading (map f t).
Proof.
  induction 1 as [|c r Hc Hr IH]; [reflexivity|].
  cbn [lstrip map PyFloat.skip_leading]. rewrite <- Hc.
  destruct (is_space c); [exact IH | reflexivity].
Qed.

Lemma Forall_lstrip (P : N -> Prop) (t : pystr) :
  Forall P t -> Forall P (lstrip t).
Proof.
  induction 1 as [|c r Hc Hr IH]; [constructor|].
  cbn [lstrip]. destruct (is_space c); [exact IH | constructor; assumption].
Qed.

Lemma Forall_rstrip (P : N -> Prop) (t : pystr) :
  Forall P t -> Forall P (rstrip t).
Proof.
  intros H. unfold rstrip. apply List.Forall_rev, Forall_lstrip, List.Forall_rev, H.
Qed.

Lemma Forall_strip (P : N -> Prop) (t : pystr) :
  Forall P t -> Forall P (strip t).
Proof. intros H. apply Forall_rstrip, Forall_lstrip, H. Qed.

Lemma strip_map (f : N -> ascii) (t : pystr) :
  Forall (fun c => is_space c = PyFloat.isspace (f c)) t ->
  map f (strip t) = PyFloat.skip_trailing (PyFloat.skip_leading (map f t)).
Proof.
  intros H. unfold strip, rstrip, PyFloat.skip_trailing.
  rewrite List.map_rev, lstrip_map.
  - rewrite List.map_rev, lstrip_map by exact H. reflexivity.
  - apply List.Forall_rev, Forall_lstrip, H.
Qed.

Lemma forallb_Forall {A : Type} (p : A -> bool) (l : list A) :
  forallb p l = true <-> Forall (fun x => p x = true) l.
Proof. rewrite forallb_forall, List.Forall_forall. reflexivity. Qed.

(** A text that reads as a float reads as the same float once trimmed. *)
Lemma to_float_strip (t : pystr) (v : float) :
  to_float t = Some v -> to_float (strip t) = Some v.
Proof.
  intros H. destruct (to_float_plain t v H) as (Hp & Ht & HF & _).
  assert (Hsp : Forall (fun c => is_space c = PyFloat.isspace (transform_char c)) t).
  { apply forallb_Forall in Hp. rewrite List.Forall_map in HF.
    rewrite List.Forall_forall in *. intros c Hc.
    apply is_space_transform; [apply Hp, Hc | apply HF, Hc]. }
  assert (Hps : forallb plain (strip t) = true).
  { apply forallb_Forall, Forall_strip, forallb_Forall, Hp. }
  unfold to_float in *.
  rewrite (plain_transform _ Hps), (strip_map _ t Hsp).
  rewrite PyFloatFacts.of_string_trim, <- Ht. exact H.
Qed.

(** *** Padding *)

Lemma spec_whitespace_is_space (c : N) : spec_whitespace c -> is_space c = true.
Proof.
  unfold spec_whitespace. cbn [In]. intros H.
  repeat (destruct H as [<- | H]; [reflexivity|]). destruct H.
Qed.

Lemma lstrip_spaces (a x : pystr) :
  Forall (fun c => is_space c = true) a -> lstrip (a ++ x) = lstrip x.
Proof.
  induction 1 as [|c r Hc Hr IH]; [reflexivity|].
  cbn [app lstrip]. rewrite Hc. exact IH.
Qed.

Lemma lstrip_all_space (a : pystr) :
  Forall (fun c => is_space c = true) a -> lstrip a = [].
Proof.
  intros H. rewrite <- (List.app_nil_r a), (lstrip_spaces a [] H). reflexivity.
Qed.

Lemma lstrip_fixed (x : pystr) : trimmed_left x -> lstrip x = x.
Proof.
  destruct x as [|c r]; [reflexivity|]. cbn [trimmed_left lstrip].
  intros ->. reflexivity.
Qed.

Lemma trimmed_left_all (x : pystr) :
  Forall (fun c => is_space c = false) x -> trimmed_left x.
Proof. destruct 1; [exact I | assumption]. Qed.

(** Whitespace around a text without whitespace is what [strip] removes. *)
Lemma strip_padding (pre core post : pystr) :
  Forall (fun c => is_space c = true) pre ->
  Forall (fun c => is_space c = true) post ->
  Forall (fun c => is_space c = false) core ->
  strip (pre ++ core ++ post) = core.
Proof.
  intros Hpre Hpost Hcore. unfold strip.
  rewrite (lstrip_spaces pre _ Hpre).
  destruct core as [|c core'].
  - cbn [app]. rewrite (lstrip_all_space post Hpost). reflexivity.
  - rewrite (lstrip_fixed ((c :: core') ++ post)).
    2:{ cbn. inversion Hcore; assumption. }
    unfold rstrip. rewrite List.rev_app_distr.
    rewrite (lstrip_spaces (rev post)) by (apply List.Forall_rev, Hpost).
    rewrite lstrip_fixed by (apply trimmed_left_all, List.Forall_rev, Hcore).
    apply List.rev_involutive.
Qed.

End PyUnicodeFacts.

(** ** Coordinate normalization *)

Lemma SFcompare_antisym (x y : float) :
  SFcompare y x = option_map CompOpp (SFcompare x y).
Proof.
  destruct x as [sx|sx| |sx mx ex], y as [sy|sy| |sy my ey]; simpl;
    try reflexivity;
    try (destruct sx; reflexivity);
    try (destruct sy; reflexivity);
    try (destruct sx, sy; reflexivity).
  assert (Hm : Pos.compare_cont Eq my mx = CompOpp (Pos.compare_cont Eq mx my)).
  { rewrite (Pos.compare_cont_antisym mx my Eq). reflexivity. }
  destruct sx, sy; simpl; try reflexivity;
    rewrite (Z.compare_antisym ex ey), Hm;
    destruct (ex ?= ey); simpl; try reflexivity;
    rewrite CompOpp_involutive; reflexivity.
Qed.

Lemma leb_ltb_false (x y : float) :
  Float.leb x y = true -> Float.ltb y x = false.
Proof.
  unfold Float.leb, Float.ltb, SFleb, SFltb.
  rewrite (SFcompare_antisym x y).
  destruct (SFcompare x y) as [[]|]; simpl; congruence.
Qed.

Lemma pystr_eqb_eq (x y : pystr) : pystr_eqb x y = true <-> x = y.
Proof.
  revert y. induction x as [|a x IH]; intros [|b y]; cbn [pystr_eqb];
    try (split; [discriminate | discriminate]); [split; reflexivity|].
  rewrite andb_true_iff, N.eqb_eq, IH. split.
  - intros [-> ->]. reflexivity.
  - intros [= -> ->]. auto.
Qed.

Lemma str_in_In (x : pystr) (l : list string) :
  str_in x l = true <-> In x (map codepoints l).
Proof.
  unfold str_in. rewrite existsb_exists, in_map_iff. split.
  - intros (p & Hp & He). apply pystr_eqb_eq in He. eauto.
  - intros (p & He & Hp). exists p. split; [exact Hp|].
    apply pystr_eqb_eq. auto.
Qed.

(** An invalid pattern does not parse, or parses to NaN. *)
Lemma invalid_pattern_parse (t : pystr) :
  In t (map codepoints INVALID_PATTERNS) ->
  PyUnicode.to_float t = None \/ PyUnicode.to_float t = Some S754_nan.
Proof.
  unfold INVALID_PATTERNS. cbn [map In].
  intros [<-|[<-|[<-|[<-|[<-|[<-|[]]]]]]]; vm_compute; auto.
Qed.

(** The result is the parsed value or zero, and never an infinity. *)
Lemma normalize_coordinate_not_infinite (coord : option string) :
  forall s, normalize_coordinate coord <> S754_infinity s.
Proof.
  intros s. unfold normalize_coordinate.
  destruct coord as [c|]; [|discriminate].
  destruct (str_in _ _); [discriminate|].
  destruct (PyUnicode.to_float _) as [v|]; [|discriminate].
  destruct (Float.ltb _ _) eqn:Hlt; [discriminate|].
  intros ->. destruct s; vm_compute in Hlt; discriminate.
Qed.

(** So the result is finite unless it is NaN. *)
Lemma normalize_coordinate_finite_or_nan (coord : option string) :
  Float.is_finite (normalize_coordinate coord) = true \/
  normalize_coordinate coord = S754_nan.
Proof.
  pose proof (normalize_coordinate_not_infinite coord) as H.
  destruct (normalize_coordinate coord) as [s|s| |s m e]; simpl; auto.
  exfalso. apply (H s). reflexivity.
Qed.

Lemma infinity_out_of_range (v : float) :
  is_infinity v = true -> Float.ltb (Float.of_Z 180) (Float.abs v) = true.
Proof. destruct v as [s|s| |s m e]; try discriminate. destruct s; reflexivity. Qed.

(** The steps of normalize_coordinate on a text, by what its token is. *)
Lemma normalize_coordinate_invalid (s : string) :
  In (coord_token s) (map codepoints INVALID_PATTERNS) ->
  normalize_coordinate (Some s) = Float.zero.
Proof.
  intros H. apply str_in_In in H. unfold normalize_coordinate.
  rewrite H. reflexivity.
Qed.

Lemma normalize_coordinate_unparsed (s : string) :
  PyUnicode.to_float (coord_token s) = None ->
  normalize_coordinate (Some s) = Float.zero.
Proof.
  intros H. unfold normalize_coordinate. rewrite H.
  destruct (str_in _ _); reflexivity.
Qed.

Lemma normalize_coordinate_out_of_range (s : string) (v : float) :
  PyUnicode.to_float (coord_token s) = Some v ->
  Float.ltb (Float.of_Z 180) (Float.abs v) = true ->
  normalize_coordinate (Some s) = Float.zero.
Proof.
  intros Hv Hgt. unfold normalize_coordinate. rewrite Hv, Hgt.
  destruct (str_in _ _); reflexivity.
Qed.

Lemma normalize_coordinate_in_range (s : string) (v : float) :
  PyUnicode.to_float (coord_token s) = Some v ->
  Float.leb (Float.abs v) (Float.of_Z 180) = true ->
  normalize_coordinate (Some s) = v.
Proof.
  intros Hv Hle. unfold normalize_coordinate.
  rewrite Hv, (leb_ltb_false _ _ Hle).
  destruct (str_in _ _) eqn:Hin; [|reflexivity].
  apply str_in_In, invalid_pattern_parse in Hin.
  rewrite Hv in Hin. destruct Hin as [Hn|Hn]; [discriminate|].
  injection Hn as ->. vm_compute in Hle. discriminate.
Qed.

(** *** Tokens in any case, with whitespace around *)

Lemma is_space_letter (c : N) :
  (65 <= c <= 122)%N -> PyUnicode.is_space c = false.
Proof.
  intros Hc. destruct (PyUnicode.is_space c) eqn:E; [|reflexivity].
  unfold PyUnicode.is_space in E. apply existsb_exists in E as (k & Hin & Hk).
  apply N.eqb_eq in Hk. subst k. unfold PyUnicode.WHITESPACE in Hin.
  cbn [In] in Hin. repeat (destruct Hin as [Hin|Hin]; [lia|]). destruct Hin.
Qed.

Lemma token_char_fold (c : N) : token_char (fold_case c) = token_char c.
Proof.
  unfold fold_case. destruct ((97 <=? c) && (c <=? 122))%N eqn:E; [|reflexivity].
  apply andb_true_iff in E as [E1 E2]. apply N.leb_le in E1, E2.
  unfold token_char.
  rewrite (is_space_letter c), (is_space_letter (c - 32)) by lia.
  rewrite (proj2 (N.ltb_lt c 127)), (proj2 (N.ltb_lt (c - 32) 127)) by lia.
  reflexivity.
Qed.

Lemma token_chars_fold (x y : pystr) :
  map fold_case x = map fold_case y ->
  forallb token_char y = true -> forallb token_char x = true.
Proof.
  intros H Hy.
  assert (Hm : forall l, forallb token_char (map fold_case l) = forallb token_char l).
  { induction l as [|c l IH]; [reflexivity|]. cbn [map forallb].
    rewrite token_char_fold, IH. reflexivity. }
  rewrite <- Hm, H, Hm. exact Hy.
Qed.

Lemma token_char_plain (c : N) : token_char c = true -> plain c = true.
Proof.
  unfold token_char. intros H. apply andb_true_iff in H as [H _].
  apply PyUnicodeFacts.plain_low, H.
Qed.

Lemma token_char_not_space (c : N) :
  token_char c = true -> PyUnicode.is_space c = false.
Proof.
  unfold token_char. intros H. apply andb_true_iff in H as [_ H].
  apply negb_true_iff, H.
Qed.

Lemma invalid_token_chars (t : string) :
  In t ["D$Q"; "-"; ""; "NAN"; "NONE"; "NULL"]%string ->
  forallb token_char (codepoints t) = true /\
  map fold_case (codepoints t) = codepoints t /\
  In (codepoints t) (map codepoints INVALID_PATTERNS).
Proof.
  cbn [In]. intros [<-|[<-|[<-|[<-|[<-|[<-|[]]]]]]]; vm_compute; auto 10.
Qed.

(** An invalid token in any case, with whitespace around it, is the token
    that normalize_coordinate compares. *)
Lemma coord_token_padded (s t : string) (pre core post : pystr) :
  In t ["D$Q"; "-"; ""; "NAN"; "NONE"; "NULL"]%string ->
  codepoints s = pre ++ core ++ post ->
  Forall spec_whitespace pre -> Forall spec_whitespace post ->
  equal_ignoring_case core (codepoints t) ->
  coord_token s = codepoints t.
Proof.
  intros Ht Hs Hpre Hpost Heq.
  destruct (invalid_token_chars t Ht) as (Htc & Hfold & _).
  pose proof (token_chars_fold _ _ Heq Htc) as Hcore.
  unfold coord_token. rewrite Hs, PyUnicodeFacts.strip_padding.
  - rewrite PyUnicodeFacts.upper_plain.
    + rewrite Heq. exact Hfold.
    + apply PyUnicodeFacts.forallb_Forall. apply PyUnicodeFacts.forallb_Forall in Hcore.
      eapply List.Forall_impl; [|exact Hcore]. apply token_char_plain.
  - eapply List.Forall_impl; [|exact Hpre]. apply PyUnicodeFacts.spec_whitespace_is_space.
  - eapply List.Forall_impl; [|exact Hpost]. apply PyUnicodeFacts.spec_whitespace_is_space.
  - apply PyUnicodeFacts.forallb_Forall in Hcore.
    eapply List.Forall_impl; [|exact Hcore]. apply token_char_not_space.
Qed.

(** C3: normalize_coordinate follows the algorithm of the specification.
    A missing input gives 0.0.  A text made of one of the six invalid tokens
    in any case, with any whitespace around it, gives 0.0; so does any text
    whose trimmed and uppercased form is one of the six.  A text that does
    not read as a number once trimmed gives 0.0; one that reads as a number
    of absolute value over 180 gives 0.0; one that reads as a number of
    absolute value at most 180 gives that number.  A text that reads as a
    number as it is given reads as the same number once trimmed. *)
Theorem normalize_coordinate_algorithm :
  normalize_coordinate None = Float.zero /\
  (forall (s t : string) (pre core post : pystr),
     In t ["D$Q"; "-"; ""; "NAN"; "NONE"; "NULL"]%string ->
     codepoints s = pre ++ core ++ post ->
     Forall spec_whitespace pre -> Forall spec_whitespace post ->
     equal_ignoring_case core (codepoints t) ->
     normalize_coordinate (Some s) = Float.zero) /\
  (forall s t : string,
     In t ["D$Q"; "-"; ""; "NAN"; "NONE"; "NULL"]%string ->
     PyUnicode.upper (trimmed s) = codepoints t ->
     normalize_coordinate (Some s) = Float.zero) /\
  (forall s : string,
     PyUnicode.to_float (trimmed s) = None ->
     normalize_coordinate (Some s) = Float.zero) /\
  (forall (s : string) (v : float),
     PyUnicode.to_float (trimmed s) = Some v ->
     Float.ltb (Float.of_Z 180) (Float.abs v) = true ->
     normalize_coordinate (Some s) = Float.zero) /\
  (forall (s : string) (v : float),
     PyUnicode.to_float (trimmed s) = Some v ->
     Float.leb (Float.abs v) (Float.of_Z 180) = true ->
     normalize_coordinate (Some s) = v) /\
  (forall (s : string) (v : float),
     py_float s = Some v -> PyUnicode.to_float (trimmed s) = Some v).
Proof.
  split; [reflexivity|]. split; [|split; [|split; [|split; [|split]]]].
  - intros s t pre core post Ht Hs Hpre Hpost Heq.
    apply normalize_coordinate_invalid.
    rewrite (coord_token_padded s t pre core post Ht Hs Hpre Hpost Heq).
    apply invalid_token_chars, Ht.
  - intros s t Ht Hs. apply normalize_coordinate_invalid.
    unfold coord_token. fold (trimmed s). rewrite Hs.
    apply invalid_token_chars, Ht.
  - intros s Hn.
    destruct (PyUnicode.to_float (coord_token s)) as [v|] eqn:Hv.
    + apply (normalize_coordinate_out_of_range s v Hv).
      apply infinity_out_of_range.
      exact (PyUnicodeFacts.to_float_upper_infinity _ v Hn Hv).
    + apply normalize_coordinate_unparsed, Hv.
  - intros s v Hv Hgt.
    apply (normalize_coordinate_out_of_range s v); [|exact Hgt].
    apply PyUnicodeFacts.to_float_upper, Hv.
  - intros s v Hv Hle.
    apply (normalize_coordinate_in_range s v); [|exact Hle].
    apply PyUnicodeFacts.to_float_upper, Hv.
  - intros s v Hv. apply PyUnicodeFacts.to_float_strip, Hv.
Qed.

(** A leading separator is trimmed by [strip] but not skipped by [float]:
    the text "<FS>5" is not a number as given, its token "5" is, and 5.0 is
    returned. *)
Example normalize_coordinate_separator :
  py_float separator_five = None /\
  coord_token separator_five = codepoints "5" /\
  normalize_coordinate (Some separator_five) = Float.of_Z 5.
Proof. vm_compute. repeat split; reflexivity. Qed.

(** Digits of another script and whitespace outside ASCII: the full-width
    text for 12 between two no-break spaces is 12.0, and [nan] between two
    ideographic spaces is an invalid token. *)
Example normalize_coordinate_unicode :
  normalize_coordinate (Some fullwidth_twelve) = Float.of_Z 12 /\
  normalize_coordinate (Some ideographic_nan) = Float.zero /\
  py_float ideographic_nan = Some S754_nan.
Proof. vm_compute. repeat split; reflexivity. Qed.

(** The latitude of the Downtown sample, with blanks around it, parses to a
    value below 180 and is returned as parsed; and [nan] in mixed case
    between a tab and a line feed is an invalid token. *)
Lemma normalize_coordinate_algorithm_witness :
  normalize_coordinate (Some " 37.78 "%string)
  = Float.of_decimal false 3778 (-2) /\
  normalize_coordinate (Some padded_nan) = Float.zero.
Proof.
  split.
  - assert (Hp : PyUnicode.to_float (trimmed " 37.78 ")
                 = Some (Float.of_decimal false 3778 (-2)))
      by (vm_compute; reflexivity).
    assert (Hle : Float.leb (Float.abs (Float.of_decimal false 3778 (-2)))
                    (Float.of_Z 180) = true)
      by (vm_compute; reflexivity).
    exact (proj1 (proj2 (proj2 (proj2 (proj2 (proj2
             normalize_coordinate_algorithm)))))
             " 37.78 "%string (Float.of_decimal false 3778 (-2)) Hp Hle).
  - apply (proj1 (proj2 normalize_coordinate_algorithm)
             padded_nan "NAN"%string [9%N] [110%N; 65%N; 110%N] [10%N]).
    + cbn [In]. auto.
    + vm_compute. reflexivity.
    + constructor; [|constructor]. unfold spec_whitespace. cbn [In]. auto.
    + constructor; [|constructor]. unfold spec_whitespace. cbn [In]. auto.
    + vm_compute. reflexivity.
Defined.

(** C4 at the input "-nan": the token "-NAN" is not in the invalid set, it
    parses to NaN, the range test [abs(value) > 180] is false for NaN, and
    NaN is returned; the validator of LocationEvent lets the same text
    through.  The result is not finite. *)
Theorem normalize_coordinate_signed_nan :
  normalize_coordinates (Some "-nan"%string) = "-NAN"%string /\
  normalize_coordinate (Some "-NAN"%string) = S754_nan /\
  normalize_coordinate (Some "-nan"%string) = S754_nan /\
  Float.is_finite (normalize_coordinate (Some "-nan"%string)) = false.
Proof. vm_compute. repeat split; reflexivity. Qed.

(* ===================================================================== *)
(** * Further properties                                                  *)
(* ===================================================================== *)

Section Counting.

Variable z : string.

Local Abbreviation inz :=
  (fun kv : string * VehicleState => current_zone (snd kv) = Some z).

Lemma size_filter_insert_fresh (m : gmap string VehicleState) (k : string)
    (v : VehicleState) :
  m !! k = None ->
  size (filter inz (<[k := v]> m)) = (here z v + size (filter inz m))%nat.
Proof.
  intros Hk. unfold here. destruct (decide (current_zone v = Some z)) as [Hz|Hz].
  - rewrite map_filter_insert_True by exact Hz.
    rewrite map_size_insert_None; [reflexivity|].
    apply map_lookup_filter_None_2. left. exact Hk.
  - rewrite map_filter_insert_False by exact Hz.
    rewrite delete_id by exact Hk. reflexivity.
Qed.

Lemma size_filter_insert (m : gmap string VehicleState) (k : string)
    (v : VehicleState) :
  (size (filter inz (<[k := v]> m))
     + from_option (here z) 0%nat (m !! k))%nat
  = (here z v + size (filter inz m))%nat.
Proof.
  destruct (m !! k) as [v0|] eqn:Hk; cbn [from_option].
  - rewrite <- (insert_delete_eq m k v).
    rewrite <- (insert_delete_id m k v0 Hk) at 2.
    rewrite !size_filter_insert_fresh by apply lookup_delete_eq. lia.
  - rewrite size_filter_insert_fresh by exact Hk. lia.
Qed.

End Counting.

Lemma str_truthy_true (z : string) : z <> ""%string -> str_truthy z = true.
Proof.
  intros H. unfold str_truthy. destruct (String.eqb_spec z ""); [contradiction|reflexivity].
Qed.

Lemma str_truthy_empty : str_truthy "" = false.
Proof. reflexivity. Qed.

Lemma dict_get0_insert (d : gmap string Z) (k z : string) (v : Z) :
  dict_get0 (<[k := v]> d) z = if decide (k = z) then v else dict_get0 d z.
Proof.
  unfold dict_get0. destruct (decide (k = z)) as [->|Hne].
  - rewrite lookup_insert_eq. reflexivity.
  - rewrite lookup_insert_ne by exact Hne. reflexivity.
Qed.

(** The count of a zone with a non-empty id after update_zone_count. *)
Lemma get_zone_count_update (sm : StateManager) (old new : option string)
    (z : string) :
  z <> ""%string ->
  get_zone_count (update_zone_count sm old new) z =
    (let c1 := if decide (old = Some z)
               then Z.max 0 (get_zone_count sm z - 1)
               else get_zone_count sm z in
     if decide (new = Some z) then c1 + 1 else c1).
Proof.
  intros Hz. unfold get_zone_count, update_zone_count. cbn [_zone_counts].
  set (c := _zone_counts sm).
  set (c1 := match old with
             | Some z0 => if str_truthy z0
                          then <[z0 := Z.max 0 (dict_get0 c z0 - 1)]> c else c
             | None => c
             end).
  assert (H1 : dict_get0 c1 z =
               if decide (old = Some z) then Z.max 0 (dict_get0 c z - 1)
               else dict_get0 c z).
  { unfold c1. destruct old as [z0|].
    - destruct (decide (Some z0 = Some z)) as [[= ->]|Hne].
      + rewrite (str_truthy_true z Hz), dict_get0_insert.
        rewrite decide_True by reflexivity. reflexivity.
      + destruct (str_truthy z0); [|reflexivity].
        rewrite dict_get0_insert, decide_False by congruence. reflexivity.
    - rewrite decide_False by discriminate. reflexivity. }
  cbv zeta. rewrite <- H1.
  destruct new as [z0|].
  - destruct (decide (Some z0 = Some z)) as [[= ->]|Hne].
    + rewrite (str_truthy_true z Hz), dict_get0_insert.
      rewrite decide_True by reflexivity. reflexivity.
    + destruct (str_truthy z0); [|reflexivity].
      rewrite dict_get0_insert, decide_False by congruence. reflexivity.
  - rewrite decide_False by discriminate. reflexivity.
Qed.

Lemma update_zone_count_empty_key (sm : StateManager) (old new : option string) :
  _zone_counts sm !! ""%string = None ->
  _zone_counts (update_zone_count sm old new) !! ""%string = None.
Proof.
  intros H. unfold update_zone_count. cbn [_zone_counts].
  set (c1 := match old with
             | Some z0 => if str_truthy z0
                          then <[z0 := Z.max 0 (dict_get0 (_zone_counts sm) z0 - 1)]>
                                 (_zone_counts sm)
                          else _zone_counts sm
             | None => _zone_counts sm
             end).
  assert (H1 : c1 !! ""%string = None).
  { unfold c1. destruct old as [z0|]; [|exact H].
    destruct (str_truthy z0) eqn:Ht; [|exact H].
    rewrite lookup_insert_ne; [exact H|].
    intros ->. rewrite str_truthy_empty in Ht. discriminate. }
  destruct new as [z0|]; [|exact H1].
  destruct (str_truthy z0) eqn:Ht; [|exact H1].
  rewrite lookup_insert_ne; [exact H1|].
  intros ->. rewrite str_truthy_empty in Ht. discriminate.
Qed.

Lemma classify_transition_none (old new : option string) :
  classify_transition old new = None <-> old = new.
Proof.
  rewrite classify_transition_cases.
  destruct old as [a|], new as [b|]; try (split; [discriminate | discriminate]).
  - destruct (decide (a = b)) as [->|Hne]; split; try reflexivity; try discriminate.
    intros [= ->]. contradiction.
  - split; reflexivity.
Qed.

Lemma here_view (z : string) (sm : StateManager) (vid : string) :
  from_option (here z) 0%nat (_vehicles sm !! vid) = here z (vehicle_view sm vid).
Proof.
  rewrite vehicle_view_lookup. destruct (_vehicles sm !! vid); [reflexivity|].
  cbn. unfold here. rewrite decide_False by discriminate. reflexivity.
Qed.

Lemma vehicles_in_update_zone_count (sm : StateManager) (o n : option string)
    (z : string) :
  vehicles_in (update_zone_count sm o n) z = vehicles_in sm z.
Proof. reflexivity. Qed.

(** Writing a state under [vid] moves that vehicle's contribution. *)
Lemma vehicles_in_insert (sm : StateManager) (vid : string) (v : VehicleState)
    (cs : gmap string Z) (z : string) :
  (vehicles_in {| _vehicles := <[vid := v]> (_vehicles sm); _zone_counts := cs |} z
     + here z (vehicle_view sm vid))%nat
  = (here z v + vehicles_in sm z)%nat.
Proof.
  unfold vehicles_in. cbn [_vehicles].
  rewrite <- here_view. apply size_filter_insert.
Qed.

Lemma process_location_event_consistent (zones : list Zone) (now : datetime)
    (ev : LocationEvent) (sm : StateManager) :
  occupancy_consistent sm ->
  occupancy_consistent (fst (process_location_event zones now ev sm)).
Proof.
  intros [Hempty Hcount].
  rewrite process_location_event_store.
  set (vid := ev_vehicle_id ev).
  set (v0 := vehicle_view sm vid).
  set (lat := normalize_coordinate (Some (ev_latitude ev))).
  set (lng := normalize_coordinate (Some (ev_longitude ev))).
  set (ts := event_time now ev).
  set (new := option_map zone_id (find_zone lat lng zones)).
  destruct (classify_transition (current_zone v0) new) as [t|] eqn:Hcl.
  - assert (Hne : current_zone v0 <> new).
    { intros Heq. apply classify_transition_none in Heq. congruence. }
    split.
    + apply update_zone_count_empty_key. exact Hempty.
    + intros z Hz.
      pose proof (vehicles_in_insert sm vid
                    (update_zone (update_location v0 lat lng ts) new t ts)
                    (_zone_counts sm) z) as Hv.
      fold v0 in Hv. unfold here in Hv. cbn [update_zone current_zone] in Hv.
      rewrite vehicles_in_update_zone_count.
      rewrite get_zone_count_update by exact Hz. cbv zeta.
      change (get_zone_count {| _vehicles := <[vid := update_zone (update_location v0 lat lng ts) new t ts]> (_vehicles sm); _zone_counts := _zone_counts sm |} z)
        with (get_zone_count sm z).
      rewrite (Hcount z Hz).
      destruct (decide (current_zone v0 = Some z)) as [Ho|Ho];
        destruct (decide (new = Some z)) as [Hn|Hn]; try congruence; lia.
  - split; [exact Hempty|].
    intros z Hz.
    pose proof (vehicles_in_insert sm vid (update_location v0 lat lng ts)
                  (_zone_counts sm) z) as Hv.
    fold v0 in Hv. unfold here in Hv. cbn [update_location current_zone] in Hv.
    change (get_zone_count {| _vehicles := <[vid := update_location v0 lat lng ts]> (_vehicles sm); _zone_counts := _zone_counts sm |} z)
      with (get_zone_count sm z).
    rewrite (Hcount z Hz).
    destruct (decide (current_zone v0 = Some z)); lia.
Qed.

Lemma get_vehicle_consistent (sm : StateManager) (vid : string) :
  occupancy_consistent sm -> occupancy_consistent (fst (get_vehicle sm vid)).
Proof.
  intros [Hempty Hcount]. unfold get_vehicle.
  destruct (_vehicles sm !! vid) as [v|] eqn:Hv; [split; assumption|].
  cbn [fst]. split; [exact Hempty|].
  intros z Hz.
  change (get_zone_count {| _vehicles := <[vid := VehicleState_init vid]> (_vehicles sm); _zone_counts := _zone_counts sm |} z)
    with (get_zone_count sm z).
  rewrite (Hcount z Hz). f_equal.
  unfold vehicles_in. cbn [_vehicles].
  rewrite size_filter_insert_fresh by exact Hv.
  unfold here. rewrite decide_False by discriminate. reflexivity.
Qed.

Lemma get_vehicle_status_store (sm : StateManager) (vid : string) :
  fst (get_vehicle_status sm vid) = fst (get_vehicle sm vid).
Proof.
  unfold get_vehicle_status. destruct (get_vehicle sm vid); reflexivity.
Qed.

Lemma run_op_consistent (op : Op) (sm : StateManager) :
  occupancy_consistent sm -> occupancy_consistent (run_op sm op).
Proof.
  destruct op as [zones now ev|vid]; cbn [run_op].
  - apply process_location_event_consistent.
  - rewrite get_vehicle_status_store. apply get_vehicle_consistent.
Qed.

Lemma run_consistent (ops : list Op) (sm : StateManager) :
  occupancy_consistent sm -> occupancy_consistent (run ops sm).
Proof.
  revert sm. induction ops as [|op rest IH]; intros sm H; [exact H|].
  apply IH, run_op_consistent, H.
Qed.

Lemma init_consistent : occupancy_consistent StateManager_init.
Proof.
  split; [reflexivity|]. intros z _. reflexivity.
Qed.

(** X1: in every reachable store the occupancy count of a zone with a
    non-empty id is the number of vehicles whose current zone it is, and no
    count is ever stored for the empty id. *)
Theorem occupancy_matches_vehicles (ops : list Op) (z : string) :
  let sm := run ops StateManager_init in
  (if decide (z = ""%string)
   then get_zone_count sm z = 0
   else get_zone_count sm z = Z.of_nat (vehicles_in sm z)).
Proof.
  intros sm.
  destruct (run_consistent ops StateManager_init init_consistent) as [He Hc].
  fold sm in He, Hc.
  destruct (decide (z = ""%string)) as [->|Hz].
  - unfold get_zone_count, dict_get0. rewrite He. reflexivity.
  - apply Hc, Hz.
Qed.

(** ** What the call returns against what it stores *)

Lemma process_location_event_view (zones : list Zone) (now : datetime)
    (ev : LocationEvent) (sm : StateManager) :
  vehicle_view (fst (process_location_event zones now ev sm)) (ev_vehicle_id ev) =
    match snd (snd (process_location_event zones now ev sm)) with
    | Some t =>
        update_zone
          (update_location (vehicle_view sm (ev_vehicle_id ev))
             (normalize_coordinate (Some (ev_latitude ev)))
             (normalize_coordinate (Some (ev_longitude ev)))
             (event_time now ev))
          (fst (snd (process_location_event zones now ev sm))) t
          (event_time now ev)
    | None =>
        update_location (vehicle_view sm (ev_vehicle_id ev))
          (normalize_coordinate (Some (ev_latitude ev)))
          (normalize_coordinate (Some (ev_longitude ev)))
          (event_time now ev)
    end.
Proof.
  rewrite vehicle_view_lookup, process_location_event_vehicle.
  rewrite process_location_event_result. cbn [fst snd default from_option].
  unfold id. fold (vehicle_view sm (ev_vehicle_id ev)).
  destruct (classify_transition _ _); reflexivity.
Qed.

Lemma transition_none_same_zone (zones : list Zone) (now : datetime)
    (ev : LocationEvent) (sm : StateManager) :
  snd (snd (process_location_event zones now ev sm)) = None <->
  fst (snd (process_location_event zones now ev sm))
    = current_zone (vehicle_view sm (ev_vehicle_id ev)).
Proof.
  rewrite process_location_event_result. cbn [fst snd].
  fold (vehicle_view sm (ev_vehicle_id ev)).
  rewrite classify_transition_none. split; congruence.
Qed.

Lemma process_location_event_zone_stored (zones : list Zone) (now : datetime)
    (ev : LocationEvent) (sm : StateManager) :
  current_zone (vehicle_view (fst (process_location_event zones now ev sm))
                  (ev_vehicle_id ev))
  = fst (snd (process_location_event zones now ev sm)).
Proof.
  rewrite process_location_event_view.
  destruct (snd (snd (process_location_event zones now ev sm))) eqn:Htr.
  - reflexivity.
  - cbn [update_location current_zone]. symmetry.
    apply transition_none_same_zone, Htr.
Qed.

(** X2: the zone id returned by process_location_event is the current zone
    stored for the vehicle after the call, and a transition is reported
    exactly when that stored zone differs from the one before the call. *)
Theorem returned_zone_is_stored (zones : list Zone) (now : datetime)
    (ev : LocationEvent) (sm : StateManager) :
  let r := process_location_event zones now ev sm in
  let before := current_zone (vehicle_view sm (ev_vehicle_id ev)) in
  let after := current_zone (vehicle_view (fst r) (ev_vehicle_id ev)) in
  fst (snd r) = after /\
  (snd (snd r) = None <-> after = before).
Proof.
  intros r before after. unfold after, r, before.
  rewrite process_location_event_zone_stored.
  split; [reflexivity | apply transition_none_same_zone].
Qed.

(** ** Status reads *)

(** X3: get_vehicle_status for an id that is in the store changes nothing
    and returns the stored fields; read right after an event for that id,
    it reports the zone the event call returned and the event's normalized
    position and time. *)
Theorem status_after_event (zones : list Zone) (now : datetime)
    (ev : LocationEvent) (sm : StateManager) :
  let r := process_location_event zones now ev sm in
  let s := get_vehicle_status (fst r) (ev_vehicle_id ev) in
  fst s = fst r /\
  st_current_zone (snd s) = fst (snd r) /\
  st_last_latitude (snd s) = Some (normalize_coordinate (Some (ev_latitude ev))) /\
  st_last_longitude (snd s) = Some (normalize_coordinate (Some (ev_longitude ev))) /\
  st_last_update (snd s) = Some (event_time now ev) /\
  st_transition_history (snd s)
    = transition_history (vehicle_view (fst r) (ev_vehicle_id ev)).
Proof.
  intros r s.
  assert (Hin : exists v, _vehicles (fst r) !! ev_vehicle_id ev = Some v).
  { eexists. apply process_location_event_vehicle. }
  destruct Hin as [v Hv].
  assert (Hs : s = (fst r, to_status v)).
  { unfold s, get_vehicle_status. rewrite (get_vehicle_known _ _ _ Hv). reflexivity. }
  assert (Hview : vehicle_view (fst r) (ev_vehicle_id ev) = v).
  { rewrite vehicle_view_lookup, Hv. reflexivity. }
  rewrite Hs. cbn [fst snd to_status st_current_zone st_last_latitude
                   st_last_longitude st_last_update st_transition_history].
  rewrite <- Hview.
  split; [reflexivity|].
  split; [apply process_location_event_zone_stored|].
  unfold r. rewrite process_location_event_view.
  destruct (snd (snd _)); repeat split; reflexivity.
Qed.

(** ** Invariants of single vehicles *)

Lemma vehicle_view_get_vehicle (sm : StateManager) (vid vid' : string) :
  vehicle_view (fst (get_vehicle sm vid)) vid' = vehicle_view sm vid'.
Proof.
  rewrite !vehicle_view_lookup.
  destruct (decide (vid' = vid)) as [->|Hne].
  - rewrite get_vehicle_lookup. fold (vehicle_view sm vid).
    rewrite vehicle_view_lookup. reflexivity.
  - rewrite get_vehicle_other by exact Hne. reflexivity.
Qed.

Lemma vehicle_view_other (zones : list Zone) (now : datetime)
    (ev : LocationEvent) (sm : StateManager) (vid : string) :
  vid <> ev_vehicle_id ev ->
  vehicle_view (fst (process_location_event zones now ev sm)) vid
  = vehicle_view sm vid.
Proof.
  intros Hne. rewrite !vehicle_view_lookup.
  rewrite process_location_event_other by exact Hne. reflexivity.
Qed.

Section VehicleInvariant.

(** A property of the state kept under an id: true of a fresh state, kept
    by a location update and by the zone update of a transition classified
    against a zone found in an admitted catalog. *)
Variable C : list Zone -> Prop.
Variable P : string -> VehicleState -> Prop.
Hypothesis P_location : forall vid v lat lng ts,
  P vid v -> P vid (update_location v lat lng ts).
Hypothesis P_zone : forall vid v zones lat lng t ts,
  C zones -> P vid v ->
  classify_transition (current_zone v)
    (option_map zone_id (find_zone lat lng zones)) = Some t ->
  P vid (update_zone v (option_map zone_id (find_zone lat lng zones)) t ts).

Lemma run_op_invariant (op : Op) (sm : StateManager) :
  op_catalog C op ->
  (forall vid, P vid (vehicle_view sm vid)) ->
  forall vid, P vid (vehicle_view (run_op sm op) vid).
Proof.
  intros HC H vid. destruct op as [zones now ev|vid0]; cbn [run_op].
  - destruct (decide (vid = ev_vehicle_id ev)) as [->|Hne].
    + rewrite process_location_event_view.
      rewrite process_location_event_result. cbn [fst snd].
      fold (vehicle_view sm (ev_vehicle_id ev)).
      destruct (classify_transition _ _) as [t|] eqn:Hcl.
      * apply P_zone; [exact HC | apply P_location, H | exact Hcl].
      * apply P_location, H.
    + rewrite vehicle_view_other by exact Hne. apply H.
  - rewrite get_vehicle_status_store, vehicle_view_get_vehicle. apply H.
Qed.

Lemma run_invariant (ops : list Op) (sm : StateManager) :
  Forall (op_catalog C) ops ->
  (forall vid, P vid (vehicle_view sm vid)) ->
  forall vid, P vid (vehicle_view (run ops sm) vid).
Proof.
  intros HC. revert sm. induction HC as [|op rest Hop Hrest IH]; intros sm H;
    [exact H|].
  apply IH, run_op_invariant; assumption.
Qed.

End VehicleInvariant.

Lemma any_catalog (ops : list Op) : Forall (op_catalog (fun _ => True)) ops.
Proof.
  induction ops as [|op ops IH]; constructor; [destruct op; exact I | exact IH].
Qed.

Lemma vehicle_view_init (vid : string) :
  vehicle_view StateManager_init vid = VehicleState_init vid.
Proof. reflexivity. Qed.

Lemma chained_tail (r : TransitionRecord) (h : list TransitionRecord) :
  chained (r :: h) -> chained h.
Proof. destruct h; [auto | intros [_ H]; exact H]. Qed.

Lemma chained_skipn (n : nat) (h : list TransitionRecord) :
  chained h -> chained (skipn n h).
Proof.
  revert h. induction n as [|n IH]; intros h H; [exact H|].
  destruct h as [|r h]; [exact I|]. apply IH, (chained_tail r), H.
Qed.

Lemma chained_snoc (h : list TransitionRecord) (r : TransitionRecord) :
  chained h ->
  match last h with Some r0 => tr_to_zone r0 = tr_from_zone r | None => True end ->
  chained (h ++ [r]).
Proof.
  induction h as [|r1 h IH]; intros Hc Hl; [exact I|].
  destruct h as [|r2 h].
  - cbn in *. auto.
  - destruct Hc as [H12 Hc]. split; [exact H12|].
    apply IH; [exact Hc|]. rewrite last_cons_cons in Hl. exact Hl.
Qed.

Lemma last_skipn {A : Type} (n : nat) (l : list A) :
  (n < length l)%nat -> last (skipn n l) = last l.
Proof.
  revert l. induction n as [|n IH]; intros l Hn; [reflexivity|].
  destruct l as [|x l]; [cbn in Hn; lia|].
  cbn [skipn]. rewrite IH by (cbn in Hn; lia).
  destruct l as [|y l]; [cbn in Hn; lia|]. symmetry. apply last_cons_cons.
Qed.

Lemma history_ok_location (v : VehicleState) (lat lng : float) (ts : datetime) :
  history_ok v -> history_ok (update_location v lat lng ts).
Proof. intros H. exact H. Qed.

Lemma history_ok_zone (v : VehicleState) (new : option string)
    (t : ZoneTransition) (ts : datetime) :
  history_ok v -> classify_transition (current_zone v) new = Some t ->
  history_ok (update_zone v new t ts).
Proof.
  intros (Hc & Hf & Hl) Hcl. unfold history_ok.
  rewrite update_zone_history. cbn [update_zone current_zone].
  set (r := {| tr_transition := ZoneTransition_value t;
               tr_from_zone := current_zone v;
               tr_to_zone := new;
               tr_timestamp := ts |}).
  unfold slice_last.
  split; [|split].
  - apply chained_skipn, chained_snoc; [exact Hc|].
    destruct (last (transition_history v)); [exact Hl | exact I].
  - apply Forall_drop, Forall_app. split; [exact Hf|].
    constructor; [|constructor]. exists t. split; [exact Hcl | reflexivity].
  - rewrite last_skipn.
    + rewrite last_snoc. reflexivity.
    + rewrite length_app. cbn. unfold HISTORY_LIMIT. lia.
Qed.

Lemma history_ok_init (vid : string) : history_ok (VehicleState_init vid).
Proof.
  split; [exact I|]. split; [constructor | reflexivity].
Qed.

(** X4: in every reachable store the history of every vehicle is a
    connected path: each record's kind is the classification of its own
    from-zone and to-zone (so the two differ), each record starts in the
    zone where the previous one ended, and the last record ends in the
    vehicle's current zone; a vehicle with an empty history is outside all
    zones. *)
Theorem history_is_path (ops : list Op) (vid : string) :
  history_ok (vehicle_view (run ops StateManager_init) vid).
Proof.
  apply (run_invariant (fun _ => True) (fun _ v => history_ok v)).
  - intros _ v lat lng ts. apply history_ok_location.
  - intros _ v zones lat lng t ts _. apply history_ok_zone.
  - apply any_catalog.
  - intros vid'. rewrite vehicle_view_init. apply history_ok_init.
Qed.

(** X5: in every reachable store each vehicle is kept under its own id, so
    a status read reports the id that was asked for. *)
Theorem status_reports_requested_id (ops : list Op) (vid : string) :
  vehicle_id (vehicle_view (run ops StateManager_init) vid) = vid /\
  st_vehicle_id (snd (get_vehicle_status (run ops StateManager_init) vid)) = vid.
Proof.
  assert (H : vehicle_id (vehicle_view (run ops StateManager_init) vid) = vid).
  { apply (run_invariant (fun _ => True) (fun k v => vehicle_id v = k)).
    - intros k v lat lng ts Hk. exact Hk.
    - intros k v zones lat lng t ts _ Hk _. exact Hk.
    - apply any_catalog.
    - intros k. reflexivity. }
  split; [exact H|].
  unfold get_vehicle_status. unfold vehicle_view in H.
  destruct (get_vehicle (run ops StateManager_init) vid) as [sm1 v].
  exact H.
Qed.

(** ** Zone ids come from the catalog *)

Lemma find_zone_In (lat lng : float) (zones : list Zone) (z : Zone) :
  find_zone lat lng zones = Some z -> In z zones.
Proof.
  intros H. apply find_zone_some in H as (before & after & -> & _).
  apply in_or_app. right. left. reflexivity.
Qed.

Lemma find_zone_known (lat lng : float) (zones : list Zone) :
  known_zone zones (option_map zone_id (find_zone lat lng zones)).
Proof.
  destruct (find_zone lat lng zones) as [z|] eqn:Hf; [|exact I].
  cbn. apply in_map, (find_zone_In lat lng), Hf.
Qed.

Lemma vehicle_in_catalog_zone (zones : list Zone) (v : VehicleState)
    (lat lng : float) (t : ZoneTransition) (ts : datetime) :
  vehicle_in_catalog zones v ->
  vehicle_in_catalog zones
    (update_zone v (option_map zone_id (find_zone lat lng zones)) t ts).
Proof.
  intros [Hc Hh]. split; [apply find_zone_known|].
  rewrite update_zone_history. unfold slice_last.
  apply Forall_drop, Forall_app. split; [exact Hh|].
  constructor; [|constructor]. split; [exact Hc | apply find_zone_known].
Qed.

Lemma update_zone_count_keys (K : string -> Prop) (sm : StateManager)
    (old new : option string) :
  (forall k n, _zone_counts sm !! k = Some n -> K k) ->
  (forall z, old = Some z -> K z) ->
  (forall z, new = Some z -> K z) ->
  forall k n, _zone_counts (update_zone_count sm old new) !! k = Some n -> K k.
Proof.
  intros H Ho Hn. unfold update_zone_count. cbn [_zone_counts].
  set (c1 := match old with
             | Some z0 => if str_truthy z0
                          then <[z0 := Z.max 0 (dict_get0 (_zone_counts sm) z0 - 1)]>
                                 (_zone_counts sm)
                          else _zone_counts sm
             | None => _zone_counts sm
             end).
  assert (H1 : forall k n, c1 !! k = Some n -> K k).
  { unfold c1. destruct old as [z0|]; [|exact H].
    destruct (str_truthy z0); [|exact H].
    intros k n. destruct (decide (z0 = k)) as [<-|Hne].
    - intros _. apply Ho. reflexivity.
    - rewrite lookup_insert_ne by exact Hne. apply H. }
  destruct new as [z0|]; [|exact H1].
  destruct (str_truthy z0); [|exact H1].
  intros k n. destruct (decide (z0 = k)) as [<-|Hne].
  - intros _. apply Hn. reflexivity.
  - rewrite lookup_insert_ne by exact Hne. apply H1.
Qed.

Lemma run_counts_in_catalog (zones : list Zone) (ops : list Op)
    (sm : StateManager) :
  Forall (op_catalog (eq zones)) ops ->
  (forall vid, vehicle_in_catalog zones (vehicle_view sm vid)) ->
  (forall k n, _zone_counts sm !! k = Some n -> In k (map zone_id zones)) ->
  forall k n, _zone_counts (run ops sm) !! k = Some n -> In k (map zone_id zones).
Proof.
  intros HC. revert sm.
  induction HC as [|op rest Hop Hrest IH]; intros sm Hv Hk; [exact Hk|].
  cbn [run fold_left]. apply IH.
  - apply (run_op_invariant (eq zones) (fun _ v => vehicle_in_catalog zones v)).
    + intros _ v lat lng ts H. exact H.
    + intros _ v zs lat lng t ts <- H _. apply vehicle_in_catalog_zone, H.
    + exact Hop.
    + exact Hv.
  - destruct op as [zs now ev|vid]; cbn [run_op].
    + cbn in Hop. subst zs. rewrite process_location_event_counts.
      destruct (snd (snd _)) as [t|]; [|exact Hk].
      apply update_zone_count_keys; [exact Hk| |].
      * intros z Hz. destruct (Hv (ev_vehicle_id ev)) as [Hc _].
        rewrite Hz in Hc. exact Hc.
      * intros z Hz. rewrite process_location_event_result in Hz. cbn [fst snd] in Hz.
        pose proof (find_zone_known
                      (normalize_coordinate (Some (ev_latitude ev)))
                      (normalize_coordinate (Some (ev_longitude ev))) zones) as Hkn.
        rewrite Hz in Hkn. exact Hkn.
    + rewrite get_vehicle_status_store, get_vehicle_counts. exact Hk.
Qed.

(** X6: while one catalog is in use, no zone id from outside it appears
    anywhere: every vehicle's current zone, every zone named in a history
    record and every key of the occupancy map is the id of a catalog zone,
    and so is every zone id an event call returns. *)
Theorem zone_ids_from_catalog (zones : list Zone) (ops : list Op) :
  Forall (op_catalog (eq zones)) ops ->
  let sm := run ops StateManager_init in
  (forall vid, vehicle_in_catalog zones (vehicle_view sm vid)) /\
  (forall k n, _zone_counts sm !! k = Some n -> In k (map zone_id zones)) /\
  (forall now ev,
     known_zone zones (fst (snd (process_location_event zones now ev sm)))).
Proof.
  intros HC sm. split; [|split].
  - apply (run_invariant (eq zones) (fun _ v => vehicle_in_catalog zones v)).
    + intros _ v lat lng ts H. exact H.
    + intros _ v zs lat lng t ts <- H _. apply vehicle_in_catalog_zone, H.
    + exact HC.
    + intros vid. split; [exact I | constructor].
  - apply run_counts_in_catalog; [exact HC | |].
    + intros vid. split; [exact I | constructor].
    + intros k n. cbn. rewrite lookup_empty. discriminate.
  - intros now ev. rewrite process_location_event_result. cbn [fst snd].
    apply find_zone_known.
Qed.

(** ** The range of normalized coordinates *)

Lemma SFcompare_defined (x y : float) :
  Float.is_nan x = false -> Float.is_nan y = false ->
  exists c, SFcompare x y = Some c.
Proof.
  destruct x as [sx|sx| |sx mx ex], y as [sy|sy| |sy my ey]; cbn;
    intros Hx Hy; try discriminate; eauto.
Qed.

Lemma ltb_false_leb (x y : float) :
  Float.is_nan x = false -> Float.is_nan y = false ->
  Float.ltb y x = false -> Float.leb x y = true.
Proof.
  intros Hx Hy. unfold Float.ltb, Float.leb, SFltb, SFleb.
  rewrite (SFcompare_antisym x y).
  destruct (SFcompare_defined x y Hx Hy) as [c ->].
  destruct c; cbn; congruence.
Qed.

(** [abs(x) <= b] is [-b <= x <= b] for a positive finite bound. *)
Lemma abs_leb (x : float) (mb : positive) (eb : Z) :
  Float.leb (Float.abs x) (S754_finite false mb eb) =
  Float.leb (S754_finite true mb eb) x && Float.leb x (S754_finite false mb eb).
Proof.
  unfold Float.leb, Float.abs, SFleb.
  destruct x as [s|s| |s m e]; cbn; try reflexivity.
  - destruct s; reflexivity.
  - destruct s; cbn; [|reflexivity].
    rewrite (Z.compare_antisym e eb).
    assert (Hm : Pos.compare_cont Eq m mb = CompOpp (Pos.compare_cont Eq mb m)).
    { rewrite (Pos.compare_cont_antisym mb m Eq). reflexivity. }
    rewrite Hm. destruct (e ?= eb); cbn;
      destruct (Pos.compare_cont Eq mb m); reflexivity.
Qed.

Lemma abs_not_nan (x : float) : Float.is_nan (Float.abs x) = Float.is_nan x.
Proof. destruct x; reflexivity. Qed.

(** X7: the value normalize_coordinate returns is NaN or lies in the closed
    range from -180 to 180. *)
Theorem normalize_coordinate_range (coord : option string) :
  let r := normalize_coordinate coord in
  Float.is_nan r = true \/
  (Float.leb (Float.of_Z (-180)) r = true /\ Float.leb r (Float.of_Z 180) = true).
Proof.
  intros r.
  assert (Hz : Float.leb (Float.of_Z (-180)) Float.zero = true /\
               Float.leb Float.zero (Float.of_Z 180) = true)
    by (vm_compute; split; reflexivity).
  unfold r, normalize_coordinate.
  destruct coord as [c|]; [|right; exact Hz].
  destruct (str_in _ _); [right; exact Hz|].
  destruct (PyUnicode.to_float _) as [v|]; [|right; exact Hz].
  destruct (Float.ltb _ _) eqn:Hlt; [right; exact Hz|].
  destruct (Float.is_nan v) eqn:Hn; [left; reflexivity|]. right.
  apply ltb_false_leb in Hlt.
  - change (Float.of_Z 180) with (S754_finite false 6333186975989760 (-45)) in *.
    rewrite abs_leb in Hlt. apply andb_true_iff in Hlt. exact Hlt.
  - rewrite abs_not_nan. exact Hn.
  - reflexivity.
Qed.

(** ** Text carried as bytes *)

Module Utf8Facts.

Import Utf8.

Local Open Scope N_scope.

Ltac decide_comparisons :=
  repeat match goal with
  | |- context [(?a <? ?b)] =>
      first [ rewrite (proj2 (N.ltb_lt a b)) by lia
            | rewrite (proj2 (N.ltb_ge a b)) by lia ]
  | |- context [(?a <=? ?b)] =>
      first [ rewrite (proj2 (N.leb_le a b)) by lia
            | rewrite (proj2 (N.leb_gt a b)) by lia ]
  end.

Ltac split_comparisons :=
  repeat match goal with
  | H : _ && _ = true |- _ => apply andb_true_iff in H as [? ?]
  | H : (_ <=? _) = true |- _ => apply N.leb_le in H
  | H : (_ <? _) = true |- _ => apply N.ltb_lt in H
  end.

Lemma decode_1 (b : N) (r : list N) : b < 128 -> decode (b :: r) = b :: decode r.
Proof. intros H. cbn [decode]. decide_comparisons. reflexivity. Qed.

Lemma decode_2 (b0 b1 : N) (r : list N) :
  192 <= b0 < 224 -> 128 <= b1 < 192 ->
  decode (b0 :: b1 :: r) = ((b0 - 192) * 64 + (b1 - 128)) :: decode r.
Proof.
  intros H0 H1. cbn [decode]. unfold is_continuation.
  decide_comparisons. reflexivity.
Qed.

Lemma decode_3 (b0 b1 b2 : N) (r : list N) :
  224 <= b0 < 240 -> 128 <= b1 < 192 -> 128 <= b2 < 192 ->
  decode (b0 :: b1 :: b2 :: r)
  = ((b0 - 224) * 4096 + (b1 - 128) * 64 + (b2 - 128)) :: decode r.
Proof.
  intros H0 H1 H2. cbn [decode]. unfold is_continuation.
  decide_comparisons. reflexivity.
Qed.

Lemma decode_4 (b0 b1 b2 b3 : N) (r : list N) :
  240 <= b0 < 248 -> 128 <= b1 < 192 -> 128 <= b2 < 192 -> 128 <= b3 < 192 ->
  decode (b0 :: b1 :: b2 :: b3 :: r)
  = ((b0 - 240) * 262144 + (b1 - 128) * 4096 + (b2 - 128) * 64 + (b3 - 128))
      :: decode r.
Proof.
  intros H0 H1 H2 H3. cbn [decode]. unfold is_continuation.
  decide_comparisons. reflexivity.
Qed.

Lemma div_64 (c : N) : exists q m, c / 64 = q /\ c mod 64 = m /\ c = 64 * q + m /\ m < 64.
Proof.
  exists (c / 64), (c mod 64). repeat split.
  - apply N.div_mod. discriminate.
  - apply N.mod_lt. discriminate.
Qed.

Lemma decode_encode1 (c : N) (rest : list N) :
  encodable c -> decode (encode1 c ++ rest) = c :: decode rest.
Proof.
  unfold encodable, encode1. intros Hc.
  destruct (c <? 128) eqn:H1; [apply N.ltb_lt in H1; apply decode_1, H1|].
  apply N.ltb_ge in H1.
  replace (c / 262144) with (c / 64 / 64 / 64)
    by (rewrite !N.Div0.div_div; reflexivity).
  replace (c / 4096) with (c / 64 / 64)
    by (rewrite !N.Div0.div_div; reflexivity).
  destruct (div_64 c) as (q1 & m1 & -> & -> & Hd1 & Hm1).
  destruct (div_64 q1) as (q2 & m2 & -> & -> & Hd2 & Hm2).
  destruct (div_64 q2) as (q3 & m3 & -> & -> & Hd3 & Hm3).
  destruct (c <? 2048) eqn:H2.
  { apply N.ltb_lt in H2. cbn [app].
    rewrite decode_2 by lia. f_equal. lia. }
  apply N.ltb_ge in H2.
  destruct (c <? 65536) eqn:H3.
  { apply N.ltb_lt in H3. cbn [app].
    rewrite decode_3 by lia. f_equal. lia. }
  apply N.ltb_ge in H3. cbn [app].
  rewrite (N.mod_small q3 8) by lia.
  rewrite decode_4 by lia. f_equal. lia.
Qed.

Lemma decode_encode (l : pystr) : Forall encodable l -> decode (encode l) = l.
Proof.
  induction 1 as [|c r Hc Hr IH]; [reflexivity|].
  unfold encode in *. cbn [flat_map]. rewrite (decode_encode1 c _ Hc), IH.
  reflexivity.
Qed.

Lemma encode1_bytes (c : N) : Forall (fun b => b < 256) (encode1 c).
Proof.
  unfold encode1.
  replace (c / 262144) with (c / 64 / 64 / 64)
    by (rewrite !N.Div0.div_div; reflexivity).
  replace (c / 4096) with (c / 64 / 64)
    by (rewrite !N.Div0.div_div; reflexivity).
  destruct (div_64 c) as (q1 & m1 & -> & -> & Hd1 & Hm1).
  destruct (div_64 q1) as (q2 & m2 & -> & -> & Hd2 & Hm2).
  destruct (div_64 q2) as (q3 & m3 & -> & -> & Hd3 & Hm3).
  pose proof (N.mod_lt q3 8 ltac:(discriminate)) as Hm4.
  set (m4 := q3 mod 8) in *. clearbody m4.
  destruct (c <? 128) eqn:H1; [apply N.ltb_lt in H1; repeat constructor; lia|].
  destruct (c <? 2048) eqn:H2;
    [apply N.ltb_lt in H2; repeat constructor; lia|].
  destruct (c <? 65536) eqn:H3;
    [apply N.ltb_lt in H3; repeat constructor; lia|].
  repeat constructor; lia.
Qed.

Lemma encode_bytes (l : pystr) : Forall (fun b => b < 256) (encode l).
Proof.
  induction l as [|c r IH]; [constructor|].
  unfold encode in *. cbn [flat_map]. apply List.Forall_app.
  split; [apply encode1_bytes | exact IH].
Qed.

Lemma bytes_of_ascii (bs : list N) :
  Forall (fun b => b < 256) bs -> map N_of_ascii (map ascii_of_N bs) = bs.
Proof.
  induction 1 as [|b r Hb Hr IH]; [reflexivity|].
  cbn [map]. rewrite N_ascii_embedding by exact Hb. rewrite IH. reflexivity.
Qed.

(** Every value read from bytes is encodable. *)
Lemma decode_encodable (n : nat) : forall bs : list N,
  (length bs <= n)%nat -> Forall (fun b => b < 256) bs ->
  Forall encodable (decode bs).
Proof.
  unfold encodable.
  induction n as [|n IH]; intros bs Hn Hb.
  { destruct bs; [constructor | cbn in Hn; lia]. }
  destruct bs as [|b0 r0]; [constructor|].
  inversion Hb as [|? ? Hb0 Hr0]; subst.
  assert (Hl0 : (length r0 <= n)%nat) by (cbn in Hn; lia).
  assert (Hesc : Forall (fun c => c < 2097152) (escape b0 :: decode r0)).
  { constructor; [unfold escape; lia | apply IH; assumption]. }
  cbn [decode]. destruct (b0 <? 128) eqn:H0.
  { apply N.ltb_lt in H0. constructor; [lia | apply IH; assumption]. }
  destruct r0 as [|b1 r1]; [exact Hesc|].
  inversion Hr0 as [|? ? Hb1 Hr1]; subst.
  assert (Hl1 : (length r1 <= n)%nat) by (cbn in Hn; cbn in Hl0; lia).
  destruct ((192 <=? b0) && (b0 <? 224) && is_continuation b1) eqn:C2.
  { unfold is_continuation in C2.
    split_comparisons.
    constructor; [lia | apply IH; assumption]. }
  destruct r1 as [|b2 r2]; [exact Hesc|].
  inversion Hr1 as [|? ? Hb2 Hr2]; subst.
  assert (Hl2 : (length r2 <= n)%nat) by (cbn in Hn; cbn in Hl1; lia).
  destruct ((224 <=? b0) && (b0 <? 240) && is_continuation b1
            && is_continuation b2) eqn:C3.
  { unfold is_continuation in C3.
    split_comparisons.
    constructor; [lia | apply IH; assumption]. }
  destruct r2 as [|b3 r3]; [exact Hesc|].
  inversion Hr2 as [|? ? Hb3 Hr3]; subst.
  assert (Hl3 : (length r3 <= n)%nat) by (cbn in Hn; cbn in Hl2; lia).
  destruct ((240 <=? b0) && (b0 <? 248) && is_continuation b1
            && is_continuation b2 && is_continuation b3) eqn:C4;
    [|exact Hesc].
  unfold is_continuation in C4.
  split_comparisons.
  constructor; [lia | apply IH; assumption].
Qed.

End Utf8Facts.

Lemma codepoints_encodable (s : string) : Forall encodable (codepoints s).
Proof.
  unfold codepoints. eapply Utf8Facts.decode_encodable; [reflexivity|].
  apply List.Forall_map, List.Forall_forall. intros a _. apply N_ascii_bounded.
Qed.

(** Reading the bytes of a text gives the text back: every sequence of code
    points, lone surrogates included, is carried by a string. *)
Lemma codepoints_of_codepoints (l : pystr) :
  Forall encodable l -> codepoints (of_codepoints l) = l.
Proof.
  intros H. unfold codepoints, of_codepoints.
  rewrite list_ascii_of_string_of_list_ascii.
  rewrite Utf8Facts.bytes_of_ascii by apply Utf8Facts.encode_bytes.
  apply Utf8Facts.decode_encode, H.
Qed.

(** ** The validator of LocationEvent *)

Module PyStrFacts.

Import PyUnicode.

Local Abbreviation no_space := (Forall (fun c : N => is_space c = false)).

Lemma fold_case_space (c : N) : is_space (fold_case c) = is_space c.
Proof.
  unfold fold_case. destruct ((97 <=? c) && (c <=? 122))%N eqn:E; [|reflexivity].
  apply andb_true_iff in E as [E1 E2]. apply N.leb_le in E1, E2.
  rewrite (is_space_letter c), (is_space_letter (c - 32)) by lia. reflexivity.
Qed.

Lemma upper_table_no_space :
  forallb (fun e => match snd e with
                    | [] => false
                    | _ => forallb (fun d => negb (is_space d)) (snd e)
                    end) UPPER = true.
Proof. vm_compute. reflexivity. Qed.

(** The upper case of a code point that is not whitespace is not empty and
    has no whitespace. *)
Lemma to_upper_no_space (c : N) :
  is_space c = false ->
  exists d l, to_upper c = d :: l /\ no_space (d :: l).
Proof.
  intros Hc. unfold to_upper. destruct (c <? 128)%N.
  - eexists _, []. split; [reflexivity|]. constructor; [|constructor].
    fold (fold_case c). rewrite fold_case_space. exact Hc.
  - destruct (find _ UPPER) as [e|] eqn:Hf.
    + apply find_some in Hf as [Hin _].
      pose proof (proj1 (forallb_forall _ _) upper_table_no_space e Hin) as Hn.
      cbn beta in Hn. destruct (snd e) as [|d l]; [discriminate|].
      exists d, l. split; [reflexivity|].
      apply PyUnicodeFacts.forallb_Forall in Hn.
      eapply List.Forall_impl; [|exact Hn]. intros x. apply negb_true_iff.
    + exists c, []. split; [reflexivity|]. constructor; [exact Hc | constructor].
Qed.

Lemma upper_trimmed_left (x : pystr) : trimmed_left x -> trimmed_left (upper x).
Proof.
  destruct x as [|c r]; [intros _; exact I|]. cbn [trimmed_left]. intros Hc.
  destruct (to_upper_no_space c Hc) as (d & l & Hu & HF).
  unfold upper. cbn [flat_map]. rewrite Hu. cbn. inversion HF; assumption.
Qed.

Lemma rev_flat_map {A B : Type} (f : A -> list B) (l : list A) :
  rev (flat_map f l) = flat_map (fun a => rev (f a)) (rev l).
Proof.
  induction l as [|a l IH]; [reflexivity|]. cbn [flat_map rev].
  rewrite List.rev_app_distr, IH, List.flat_map_app. cbn [flat_map].
  rewrite List.app_nil_r. reflexivity.
Qed.

Lemma upper_trimmed_right (x : pystr) :
  trimmed_left (rev x) -> trimmed_left (rev (upper x)).
Proof.
  unfold upper. rewrite rev_flat_map.
  destruct (rev x) as [|c r]; [intros _; exact I|]. cbn [trimmed_left]. intros Hc.
  destruct (to_upper_no_space c Hc) as (d & l & Hu & HF).
  cbn [flat_map]. rewrite Hu.
  apply List.Forall_rev in HF.
  destruct (rev (d :: l)) as [|y ys] eqn:Hr.
  - apply (f_equal (@length N)) in Hr. rewrite List.length_rev in Hr. discriminate.
  - cbn. inversion HF; assumption.
Qed.

Lemma lstrip_trimmed (s : pystr) : trimmed_left (lstrip s).
Proof.
  induction s as [|c r IH]; cbn [lstrip]; [exact I|].
  destruct (is_space c) eqn:Hc; [exact IH | exact Hc].
Qed.

Lemma lstrip_snoc (l : pystr) (c : N) :
  is_space c = false -> lstrip (l ++ [c]) = lstrip l ++ [c].
Proof.
  intros Hc. induction l as [|d l IH]; cbn [app lstrip].
  - rewrite Hc. reflexivity.
  - destruct (is_space d); [exact IH | reflexivity].
Qed.

Lemma rstrip_trimmed (s : pystr) : trimmed_left s -> trimmed_left (rstrip s).
Proof.
  destruct s as [|c r]; [intros _; exact I|].
  cbn [trimmed_left]. intros Hc. unfold rstrip. cbn [rev].
  rewrite (lstrip_snoc _ _ Hc), List.rev_app_distr. exact Hc.
Qed.

Lemma strip_trimmed_left (s : pystr) : trimmed_left (strip s).
Proof. apply rstrip_trimmed, lstrip_trimmed. Qed.

Lemma strip_trimmed_right (s : pystr) : trimmed_left (rev (strip s)).
Proof.
  unfold strip, rstrip. rewrite List.rev_involutive. apply lstrip_trimmed.
Qed.

Lemma strip_fixed (x : pystr) :
  trimmed_left x -> trimmed_left (rev x) -> strip x = x.
Proof.
  intros Hl Hr. unfold strip, rstrip.
  rewrite (PyUnicodeFacts.lstrip_fixed x Hl), (PyUnicodeFacts.lstrip_fixed _ Hr).
  apply List.rev_involutive.
Qed.

Lemma upper_table_idem :
  forallb (fun e => pystr_eqb (upper (snd e)) (snd e)) UPPER = true.
Proof. vm_compute. reflexivity. Qed.

Lemma fold_case_idem (c : N) : fold_case (fold_case c) = fold_case c.
Proof.
  unfold fold_case. destruct ((97 <=? c) && (c <=? 122))%N eqn:E; [|rewrite E; reflexivity].
  apply andb_true_iff in E as [E1 E2]. apply N.leb_le in E1, E2.
  destruct ((97 <=? c - 32) && (c - 32 <=? 122))%N eqn:E'; [|reflexivity].
  apply andb_true_iff in E' as [E1' _]. apply N.leb_le in E1'. lia.
Qed.

Lemma to_upper_idem (c : N) : upper (to_upper c) = to_upper c.
Proof.
  remember (to_upper c) as u eqn:Hu. unfold to_upper in Hu.
  destruct (c <? 128)%N eqn:Hc.
  - fold (fold_case c) in Hu. subst u. unfold upper. cbn [flat_map].
    rewrite List.app_nil_r. unfold to_upper.
    assert (Hlt : (fold_case c <? 128)%N = true).
    { apply N.ltb_lt in Hc. apply N.ltb_lt. unfold fold_case.
      destruct ((97 <=? c) && (c <=? 122))%N; lia. }
    rewrite Hlt. fold (fold_case (fold_case c)). rewrite fold_case_idem.
    reflexivity.
  - destruct (find _ UPPER) as [e|] eqn:Hf.
    + apply find_some in Hf as [Hin _].
      pose proof (proj1 (forallb_forall _ _) upper_table_idem e Hin) as Hn.
      cbn beta in Hn. apply pystr_eqb_eq in Hn. subst u. exact Hn.
    + subst u. unfold upper. cbn [flat_map]. rewrite List.app_nil_r.
      unfold to_upper. rewrite Hc, Hf. reflexivity.
Qed.

Lemma upper_idem (x : pystr) : upper (upper x) = upper x.
Proof.
  induction x as [|c r IH]; [reflexivity|].
  unfold upper in *. cbn [flat_map]. rewrite List.flat_map_app, IH.
  f_equal. apply to_upper_idem.
Qed.

(** Trimming and uppercasing a second time changes nothing. *)
Lemma token_fixed (x : pystr) :
  upper (strip (upper (strip x))) = upper (strip x).
Proof.
  rewrite (strip_fixed (upper (strip x))).
  - apply upper_idem.
  - apply upper_trimmed_left, strip_trimmed_left.
  - apply upper_trimmed_right, strip_trimmed_right.
Qed.

Lemma upper_table_encodable :
  forallb (fun e => forallb (fun d => d <? 2097152)%N (snd e)) UPPER = true.
Proof. vm_compute. reflexivity. Qed.

Lemma to_upper_encodable (c : N) : encodable c -> Forall encodable (to_upper c).
Proof.
  unfold encodable. intros Hc. unfold to_upper. destruct (c <? 128)%N eqn:H.
  - apply N.ltb_lt in H. constructor; [|constructor].
    destruct ((97 <=? c) && (c <=? 122))%N; lia.
  - destruct (find _ UPPER) as [e|] eqn:Hf.
    + apply find_some in Hf as [Hin _].
      pose proof (proj1 (forallb_forall _ _) upper_table_encodable e Hin) as Hn.
      cbn beta in Hn. apply PyUnicodeFacts.forallb_Forall in Hn.
      eapply List.Forall_impl; [|exact Hn]. intros d. apply N.ltb_lt.
    + constructor; [exact Hc | constructor].
Qed.

Lemma upper_encodable (x : pystr) :
  Forall encodable x -> Forall encodable (upper x).
Proof.
  induction 1 as [|c r Hc Hr IH]; [constructor|].
  unfold upper in *. cbn [flat_map]. apply List.Forall_app.
  split; [apply to_upper_encodable, Hc | exact IH].
Qed.

End PyStrFacts.

Lemma coord_token_encodable (s : string) : Forall encodable (coord_token s).
Proof.
  unfold coord_token.
  apply PyStrFacts.upper_encodable, PyUnicodeFacts.Forall_strip, codepoints_encodable.
Qed.

Lemma coord_token_idem (s : string) :
  coord_token (of_codepoints (coord_token s)) = coord_token s.
Proof.
  unfold coord_token at 1.
  rewrite (codepoints_of_codepoints _ (coord_token_encodable s)).
  unfold coord_token. apply PyStrFacts.token_fixed.
Qed.

(** X8: the validator of LocationEvent always yields a text that parses as a
    float; running it again changes nothing; and normalize_coordinate gives
    the same value on the validated text as on the raw input. *)
Theorem validated_coordinate (v : option string) :
  (exists x, py_float (normalize_coordinates v) = Some x) /\
  normalize_coordinates (Some (normalize_coordinates v)) = normalize_coordinates v /\
  normalize_coordinate (Some (normalize_coordinates v)) = normalize_coordinate v.
Proof.
  assert (H0 : py_float "0.0" = Some Float.zero /\
               normalize_coordinates (Some "0.0"%string) = "0.0"%string /\
               normalize_coordinate (Some "0.0"%string) = Float.zero)
    by (vm_compute; repeat split; reflexivity).
  destruct H0 as (Hp0 & Hv0 & Hn0).
  unfold normalize_coordinates at 1 3 4 5, normalize_coordinate at 2.
  destruct v as [raw|]; [|rewrite Hp0, Hv0, Hn0; eauto].
  destruct (str_in (coord_token raw) INVALID_PATTERNS) eqn:Hin;
    [rewrite Hp0, Hv0, Hn0; eauto|].
  destruct (PyUnicode.to_float (coord_token raw)) as [x|] eqn:Hp;
    [|rewrite Hp0, Hv0, Hn0; eauto].
  split.
  - exists x. unfold py_float.
    rewrite (codepoints_of_codepoints _ (coord_token_encodable raw)). exact Hp.
  - unfold normalize_coordinates, normalize_coordinate.
    rewrite coord_token_idem, Hin, Hp. split; reflexivity.
Qed.

Section ServiceFacts.

Variable validate_str : json -> option string.
Variable validate_float : json -> option float.

Local Abbreviation load := (load_zones validate_str validate_float).
Local Abbreviation zones_of := (get_zones validate_str validate_float).
Local Abbreviation process_app := (process_location_event_app validate_str validate_float).
Local Abbreviation post := (post_location_event validate_str validate_float).
Local Abbreviation post_run := (post_all validate_str validate_float).
Local Abbreviation zones_info := (get_zones_info validate_str validate_float).

Lemma get_zones_ok (zones_file : option FileContents)
    (cache : option (list Zone)) (zones : list Zone) :
  fst (zones_of zones_file cache) = Ok zones ->
  zones_of zones_file cache = (Ok zones, Some zones).
Proof.
  unfold get_zones. destruct cache as [zs|].
  - cbn. intros [= ->]. reflexivity.
  - destruct (load zones_file); cbn; intros [= ->]. reflexivity.
Qed.

Lemma get_zones_raise (zones_file : option FileContents)
    (cache : option (list Zone)) (e : LoadError) :
  fst (zones_of zones_file cache) = Raise e ->
  cache = None /\ load zones_file = Raise e /\
  zones_of zones_file cache = (Raise e, None).
Proof.
  unfold get_zones. destruct cache as [zs|]; [discriminate|].
  destruct (load zones_file); cbn; intros [= ->]. auto.
Qed.

Lemma process_app_ok (zones_file : option FileContents) (now : datetime)
    (ev : LocationEvent) (app : App) (zones : list Zone) :
  fst (zones_of zones_file (_zones_cache app)) = Ok zones ->
  process_app zones_file now ev app =
    ({| state_manager :=
          fst (process_location_event zones now ev (state_manager app));
        _zones_cache := Some zones |},
     Ok (snd (process_location_event zones now ev (state_manager app)))).
Proof.
  intros H. apply get_zones_ok in H.
  unfold process_location_event_app, process_location_event. rewrite H.
  destruct (get_vehicle (state_manager app) (ev_vehicle_id ev)) as [sm1 v].
  destruct (classify_transition _ _); reflexivity.
Qed.

Lemma process_app_raise (zones_file : option FileContents) (now : datetime)
    (ev : LocationEvent) (app : App) (e : LoadError) :
  fst (zones_of zones_file (_zones_cache app)) = Raise e ->
  process_app zones_file now ev app =
    ({| state_manager := fst (get_vehicle (state_manager app) (ev_vehicle_id ev));
        _zones_cache := None |},
     Raise e).
Proof.
  intros H. apply get_zones_raise in H as (_ & _ & H).
  unfold process_location_event_app. rewrite H.
  destruct (get_vehicle (state_manager app) (ev_vehicle_id ev)) as [sm1 v].
  reflexivity.
Qed.


(** X9: process_location_event with its catalog lookup.  When the catalog is
    cached or loads, the call is the step on that catalog and the catalog is
    cached afterwards.  When loading raises, the exception leaves the call,
    the cache stays empty, and the store has changed in one way only: the
    vehicle of the event has been created if it was unknown; no location,
    zone, history or count is written. *)
Theorem process_location_event_with_catalog (zones_file : option FileContents)
    (now : datetime) (ev : LocationEvent) (app : App) :
  match fst (zones_of zones_file (_zones_cache app)) with
  | Ok zones =>
      process_app zones_file now ev app =
        ({| state_manager :=
              fst (process_location_event zones now ev (state_manager app));
            _zones_cache := Some zones |},
         Ok (snd (process_location_event zones now ev (state_manager app))))
  | Raise e =>
      _zones_cache app = None /\
      load zones_file = Raise e /\
      process_app zones_file now ev app =
        ({| state_manager :=
              fst (get_vehicle (state_manager app) (ev_vehicle_id ev));
            _zones_cache := None |},
         Raise e) /\
      vehicle_view (state_manager (fst (process_app zones_file now ev app)))
                   (ev_vehicle_id ev)
        = vehicle_view (state_manager app) (ev_vehicle_id ev) /\
      _zone_counts (state_manager (fst (process_app zones_file now ev app)))
        = _zone_counts (state_manager app)
  end.
Proof.
  destruct (fst (zones_of zones_file (_zones_cache app))) as [zones|e] eqn:H.
  - apply process_app_ok, H.
  - pose proof (get_zones_raise _ _ _ H) as (Hc & Hl & _).
    rewrite (process_app_raise _ _ _ _ _ H). cbn [fst state_manager].
    repeat split; try assumption.
    + apply vehicle_view_get_vehicle.
    + apply get_vehicle_counts.
Qed.

Lemma post_ok (zones_file : option FileContents) (now now_response : datetime)
    (ev : LocationEvent) (app : App) (zones : list Zone) :
  fst (zones_of zones_file (_zones_cache app)) = Ok zones ->
  post zones_file now now_response ev app =
    ({| state_manager :=
          fst (process_location_event zones now ev (state_manager app));
        _zones_cache := Some zones |},
     Http200
       {| resp_vehicle_id := ev_vehicle_id ev;
          resp_current_zone :=
            fst (snd (process_location_event zones now ev (state_manager app)));
          resp_transition :=
            option_map ZoneTransition_value
              (snd (snd (process_location_event zones now ev (state_manager app))));
          resp_timestamp := event_time now_response ev |}).
Proof.
  intros H. unfold post_location_event. rewrite (process_app_ok _ _ _ _ _ H).
  destruct (snd (process_location_event zones now ev (state_manager app)));
    reflexivity.
Qed.

Lemma post_all_cached (zones : list Zone)
    (requests : list (option FileContents * datetime * datetime * LocationEvent))
    (sm : StateManager) :
  let app := {| state_manager := sm; _zones_cache := Some zones |} in
  fst (post_run requests app) =
    {| state_manager :=
         fst (process_all zones
                (map (fun q => (snd (fst (fst q)), snd q)) requests) sm);
       _zones_cache := Some zones |} /\
  Forall (fun r => exists body, r = Http200 body) (snd (post_run requests app)).
Proof.
  revert sm. induction requests as [|[[[f now] nr] ev] rest IH]; intros sm app.
  - split; [reflexivity | constructor].
  - cbn [post_all map]. unfold app.
    rewrite (post_ok f now nr ev _ zones) by reflexivity.
    cbn [state_manager].
    specialize (IH (fst (process_location_event zones now ev sm))).
    cbv zeta in IH. destruct IH as [IH1 IH2].
    destruct (post_run rest _) as [app2 rs]. cbn [fst snd] in *.
    split.
    + rewrite IH1. cbn [fst snd]. rewrite process_all_cons. reflexivity.
    + constructor; [eauto | exact IH2].
Qed.

(** X10: the catalog is fixed by the first successful lookup.  If the first
    request of a run finds a catalog (cached or loaded from the file present
    then), every request of the run is answered with status 200 and
    processed against that same catalog, whatever is at the zones path
    later, and the catalog is still cached at the end. *)
Theorem catalog_fixed_once_loaded (zones : list Zone)
    (f : option FileContents) (now now_response : datetime) (ev : LocationEvent)
    (rest : list (option FileContents * datetime * datetime * LocationEvent))
    (app : App) :
  fst (zones_of f (_zones_cache app)) = Ok zones ->
  let requests := (f, now, now_response, ev) :: rest in
  fst (post_run requests app) =
    {| state_manager :=
         fst (process_all zones
                (map (fun q => (snd (fst (fst q)), snd q)) requests)
                (state_manager app));
       _zones_cache := Some zones |} /\
  Forall (fun r => exists body, r = Http200 body) (snd (post_run requests app)).
Proof.
  intros H requests. unfold requests. cbn [post_all map].
  rewrite (post_ok f now now_response ev app zones H).
  pose proof (post_all_cached zones rest
                (fst (process_location_event zones now ev (state_manager app)))) as IH.
  cbv zeta in IH. destruct IH as [IH1 IH2].
  destruct (post_run rest _) as [app2 rs]. cbn [fst snd] in *.
  split.
  - rewrite IH1. cbn [fst snd]. rewrite process_all_cons. reflexivity.
  - constructor; [eauto | exact IH2].
Qed.

Lemma post_raise (zones_file : option FileContents) (now now_response : datetime)
    (ev : LocationEvent) (app : App) (e : LoadError) :
  fst (zones_of zones_file (_zones_cache app)) = Raise e ->
  post zones_file now now_response ev app =
    ({| state_manager := fst (get_vehicle (state_manager app) (ev_vehicle_id ev));
        _zones_cache := None |},
     Http500 e).
Proof.
  intros H. unfold post_location_event. rewrite (process_app_raise _ _ _ _ _ H).
  reflexivity.
Qed.

Lemma ZoneTransition_value_cases (tr : option ZoneTransition) :
  In (option_map ZoneTransition_value tr)
     [None; Some "ENTER"; Some "EXIT"; Some "CHANGE"]%string.
Proof.
  destruct tr as [[]|]; cbn; auto.
Qed.

(** X11: the answer of post_location_event.  With status 200 it names the
    event's vehicle, its current_zone is the zone stored for that vehicle
    after the call, its transition is null exactly when that zone is the one
    stored before the call and otherwise one of ENTER, EXIT, CHANGE; its
    timestamp equals the stored last_update exactly when the event carries a
    timestamp or the two clock readings coincide.  Status 500 is given
    exactly when no catalog is cached and loading raises. *)
Theorem post_location_event_answer (zones_file : option FileContents)
    (now now_response : datetime) (ev : LocationEvent) (app : App) :
  match post zones_file now now_response ev app with
  | (app1, Http200 body) =>
      let v := vehicle_view (state_manager app1) (ev_vehicle_id ev) in
      resp_vehicle_id body = ev_vehicle_id ev /\
      resp_current_zone body = current_zone v /\
      (resp_transition body = None <->
         current_zone v
         = current_zone (vehicle_view (state_manager app) (ev_vehicle_id ev))) /\
      In (resp_transition body)
         [None; Some "ENTER"; Some "EXIT"; Some "CHANGE"]%string /\
      last_update v = Some (event_time now ev) /\
      (Some (resp_timestamp body) = last_update v <->
         ev_timestamp ev <> None \/ now = now_response) /\
      exists zones, fst (zones_of zones_file (_zones_cache app)) = Ok zones
  | (app1, Http500 e) =>
      _zones_cache app = None /\ load zones_file = Raise e
  end.
Proof.
  destruct (fst (zones_of zones_file (_zones_cache app))) as [zones|e] eqn:H.
  - rewrite (post_ok _ _ _ _ _ _ H).
    cbn [state_manager resp_vehicle_id resp_current_zone resp_transition
         resp_timestamp].
    set (sm := state_manager app).
    assert (Hlast : last_update
                      (vehicle_view (fst (process_location_event zones now ev sm))
                         (ev_vehicle_id ev)) = Some (event_time now ev)).
    { rewrite process_location_event_view. destruct (snd (snd _)); reflexivity. }
    split; [reflexivity|].
    split; [symmetry; apply process_location_event_zone_stored|].
    split.
    { rewrite process_location_event_zone_stored.
      rewrite <- transition_none_same_zone.
      destruct (snd (snd (process_location_event zones now ev sm)));
        cbn; split; congruence. }
    split; [apply ZoneTransition_value_cases|].
    split; [exact Hlast|].
    split; [|eauto].
    rewrite Hlast. unfold event_time.
    destruct (ev_timestamp ev) as [t|].
    + split; [left; discriminate | reflexivity].
    + split.
      * intros [= ->]. right. reflexivity.
      * intros [Hc | ->]; [contradiction | reflexivity].
  - rewrite (post_raise _ _ _ _ _ _ H).
    apply get_zones_raise in H as (Hc & Hl & _). auto.
Qed.

Lemma get_zones_info_ok (zones_file : option FileContents) (app : App)
    (zones : list Zone) :
  fst (zones_of zones_file (_zones_cache app)) = Ok zones ->
  zones_info zones_file app =
    ({| state_manager := state_manager app; _zones_cache := Some zones |},
     Http200 (map (zone_info (state_manager app)) zones)).
Proof.
  intros H. unfold get_zones_info. rewrite (get_zones_ok _ _ _ H). reflexivity.
Qed.

Lemma get_zones_info_raise (zones_file : option FileContents) (app : App)
    (e : LoadError) :
  fst (zones_of zones_file (_zones_cache app)) = Raise e ->
  zones_info zones_file app =
    ({| state_manager := state_manager app; _zones_cache := None |}, Http500 e).
Proof.
  intros H. apply get_zones_raise in H as (_ & _ & H).
  unfold get_zones_info. rewrite H. reflexivity.
Qed.


End ServiceFacts.


(** ** The catalog as a list *)

Section BuildZones.

Variable validate_str : json -> option string.
Variable validate_float : json -> option float.

Local Abbreviation Zone_of := (Zone_of_json validate_str validate_float).
Local Abbreviation build := (build_zones validate_str validate_float).
Local Abbreviation load := (load_zones validate_str validate_float).

Lemma build_zones_ok_Forall2 (items : list json) (zs : list Zone) :
  build items = Ok zs <-> Forall2 (fun j z => Zone_of j = Ok z) items zs.
Proof.
  revert zs. induction items as [|j rest IH]; intros zs; cbn [build_zones].
  - split.
    + intros [= <-]. constructor.
    + intros H. inversion H. reflexivity.
  - split.
    + intros H. destruct (Zone_of j) as [z|e] eqn:Hj; [|discriminate].
      destruct (build rest) as [zs'|e] eqn:Hr; [|discriminate].
      injection H as <-. constructor; [exact Hj | apply IH; reflexivity].
    + intros H. inversion H as [|? z ? zs' Hj Hrest]; subst.
      rewrite Hj. apply IH in Hrest. rewrite Hrest. reflexivity.
Qed.

Lemma build_zones_raise (items : list json) (e : LoadError) :
  build items = Raise e <->
  exists good bad rest zs,
    items = good ++ bad :: rest /\
    build good = Ok zs /\ Zone_of bad = Raise e.
Proof.
  induction items as [|j items IH]; cbn [build_zones].
  - split; [discriminate|].
    intros (good & bad & rest & zs & H & _). destruct good; discriminate.
  - split.
    + intros H. destruct (Zone_of j) as [z|e'] eqn:Hj.
      * destruct (build items) as [zs'|e''] eqn:Hr; [discriminate|].
        injection H as ->.
        destruct (proj1 IH eq_refl) as (good & bad & rest & zs & -> & Hg & Hb).
        exists (j :: good), bad, rest, (z :: zs).
        split; [reflexivity|]. split; [|exact Hb].
        cbn [build_zones]. rewrite Hj, Hg. reflexivity.
      * injection H as ->. exists [], j, items, []. auto.
    + intros (good & bad & rest & zs & H & Hg & Hb).
      destruct good as [|g good]; cbn in H; injection H as <- ->.
      * rewrite Hb. reflexivity.
      * cbn [build_zones] in Hg.
        destruct (Zone_of j) as [z|e'] eqn:Hj; [|discriminate].
        destruct (build good) as [zs'|e'] eqn:Hr; [|discriminate].
        assert (Hrest : build (good ++ bad :: rest) = Raise e).
        { apply IH. exists good, bad, rest, zs'. auto. }
        rewrite Hrest. reflexivity.
Qed.

(** X13: a zones file that is a list loads record by record: on success the
    catalog has one zone per record, in file order, each built from its own
    record; on failure the exception is that of the first record that does
    not build, whatever follows it. *)
Theorem load_zones_list (items : list json) :
  match load (Some (Decoded (JList items))) with
  | Ok zs =>
      length zs = length items /\
      Forall2 (fun j z => Zone_of j = Ok z) items zs
  | Raise e =>
      exists good bad rest zs,
        items = good ++ bad :: rest /\
        Forall2 (fun j z => Zone_of j = Ok z) good zs /\
        Zone_of bad = Raise e
  end.
Proof.
  cbn [load_zones].
  destruct (build items) as [zs|e] eqn:H.
  - apply build_zones_ok_Forall2 in H. split; [|exact H].
    symmetry. eapply Forall2_length, H.
  - apply build_zones_raise in H as (good & bad & rest & zs & -> & Hg & Hb).
    exists good, bad, rest, zs. split; [reflexivity|].
    split; [apply build_zones_ok_Forall2, Hg | exact Hb].
Qed.

End BuildZones.

(** ** Counting round trips *)

(** X14: counting a vehicle into a zone and out again restores every zone's
    count when no stored count is negative.  The other order does not:
    counting out of a zone and then in leaves the zone's count at
    max(1, count). *)
Theorem enter_exit_round_trip (sm : StateManager) (z : string) :
  counts_nonneg sm ->
  (forall k,
     get_zone_count
       (update_zone_count (update_zone_count sm None (Some z)) (Some z) None) k
     = get_zone_count sm k) /\
  (z <> ""%string ->
   get_zone_count
     (update_zone_count (update_zone_count sm (Some z) None) None (Some z)) z
   = Z.max 1 (get_zone_count sm z)).
Proof.
  intros Hnn. split.
  - intros k. destruct (decide (z = ""%string)) as [->|Hz]; [reflexivity|].
    destruct (decide (k = z)) as [->|Hk].
    + rewrite !get_zone_count_update by exact Hz. cbv zeta.
      pose proof (get_zone_count_nonneg sm z Hnn).
      repeat case_decide; try congruence; lia.
    + unfold update_zone_count, get_zone_count. cbn [_zone_counts].
      rewrite (str_truthy_true z Hz).
      rewrite !dict_get0_insert, !decide_False by congruence. reflexivity.
  - intros Hz. rewrite !get_zone_count_update by exact Hz. cbv zeta.
    pose proof (get_zone_count_nonneg sm z Hnn).
    repeat case_decide; try congruence; lia.
Qed.

(** ** Events of different vehicles *)

Lemma run_snoc (ops : list Op) (op : Op) (sm : StateManager) :
  run (ops ++ [op]) sm = run_op (run ops sm) op.
Proof. unfold run. rewrite fold_left_app. reflexivity. Qed.

Lemma get_zone_count_consistent (sm sm' : StateManager) :
  occupancy_consistent sm -> occupancy_consistent sm' ->
  _vehicles sm = _vehicles sm' ->
  forall z, get_zone_count sm z = get_zone_count sm' z.
Proof.
  intros [He Hc] [He' Hc'] Hv z.
  destruct (decide (z = ""%string)) as [->|Hz].
  - unfold get_zone_count, dict_get0. rewrite He, He'. reflexivity.
  - rewrite (Hc z Hz), (Hc' z Hz). unfold vehicles_in. rewrite Hv. reflexivity.
Qed.

Lemma process_location_event_vehicles (zones : list Zone) (now : datetime)
    (ev : LocationEvent) (sm : StateManager) :
  _vehicles (fst (process_location_event zones now ev sm)) =
  <[ev_vehicle_id ev :=
      vehicle_view (fst (process_location_event zones now ev sm)) (ev_vehicle_id ev)]>
    (_vehicles sm).
Proof.
  rewrite process_location_event_view.
  rewrite process_location_event_store, process_location_event_result.
  cbn [fst snd]. fold (vehicle_view sm (ev_vehicle_id ev)).
  destruct (classify_transition _ _); reflexivity.
Qed.

Lemma process_location_event_independent (zones zones' : list Zone)
    (now now' : datetime) (ev ev' : LocationEvent) (sm : StateManager) :
  ev_vehicle_id ev <> ev_vehicle_id ev' ->
  snd (process_location_event zones now ev
         (fst (process_location_event zones' now' ev' sm)))
  = snd (process_location_event zones now ev sm) /\
  vehicle_view
    (fst (process_location_event zones now ev
            (fst (process_location_event zones' now' ev' sm))))
    (ev_vehicle_id ev)
  = vehicle_view (fst (process_location_event zones now ev sm)) (ev_vehicle_id ev).
Proof.
  intros Hne.
  assert (Hview : vehicle_view (fst (process_location_event zones' now' ev' sm))
                    (ev_vehicle_id ev) = vehicle_view sm (ev_vehicle_id ev)).
  { apply vehicle_view_other, Hne. }
  assert (Hres : snd (process_location_event zones now ev
                        (fst (process_location_event zones' now' ev' sm)))
                 = snd (process_location_event zones now ev sm)).
  { rewrite !process_location_event_result.
    fold (vehicle_view (fst (process_location_event zones' now' ev' sm))
            (ev_vehicle_id ev)).
    fold (vehicle_view sm (ev_vehicle_id ev)). rewrite Hview. reflexivity. }
  split; [exact Hres|].
  rewrite !process_location_event_view, Hres, Hview. reflexivity.
Qed.

(** X15: in a reachable store, two events for different vehicles can be
    processed in either order: each call returns the same zone and
    transition, the vehicle states are the same, and every zone's occupancy
    count is the same. *)
Theorem events_of_different_vehicles_commute (ops : list Op)
    (zones1 zones2 : list Zone) (now1 now2 : datetime)
    (ev1 ev2 : LocationEvent) :
  ev_vehicle_id ev1 <> ev_vehicle_id ev2 ->
  let sm := run ops StateManager_init in
  let r1 := process_location_event zones1 now1 ev1 sm in
  let r2 := process_location_event zones2 now2 ev2 sm in
  let r12 := process_location_event zones2 now2 ev2 (fst r1) in
  let r21 := process_location_event zones1 now1 ev1 (fst r2) in
  snd r12 = snd r2 /\ snd r21 = snd r1 /\
  _vehicles (fst r12) = _vehicles (fst r21) /\
  (forall z, get_zone_count (fst r12) z = get_zone_count (fst r21) z).
Proof.
  intros Hne sm r1 r2 r12 r21.
  destruct (process_location_event_independent zones2 zones1 now2 now1 ev2 ev1 sm
              (not_eq_sym Hne)) as [Hr12 Hv12].
  destruct (process_location_event_independent zones1 zones2 now1 now2 ev1 ev2 sm
              Hne) as [Hr21 Hv21].
  assert (Hveh : _vehicles (fst r12) = _vehicles (fst r21)).
  { unfold r12, r21.
    rewrite (process_location_event_vehicles zones2 now2 ev2 (fst r1)).
    rewrite (process_location_event_vehicles zones1 now1 ev1 (fst r2)).
    unfold r1, r2. rewrite Hv12, Hv21.
    rewrite (process_location_event_vehicles zones1 now1 ev1 sm).
    rewrite (process_location_event_vehicles zones2 now2 ev2 sm).
    apply insert_insert_ne. exact (not_eq_sym Hne). }
  split; [exact Hr12|]. split; [exact Hr21|]. split; [exact Hveh|].
  apply get_zone_count_consistent; [| |exact Hveh].
  - unfold r12, r1, sm.
    apply process_location_event_consistent, process_location_event_consistent,
      run_consistent, init_consistent.
  - unfold r21, r2, sm.
    apply process_location_event_consistent, process_location_event_consistent,
      run_consistent, init_consistent.
Qed.

Lemma leb_trans (x y z : float) :
  Float.leb x y = true -> Float.leb y z = true -> Float.leb x z = true.
Proof.
  unfold Float.leb, SFleb, SFcompare.
  destruct x as [sx|sx| |sx mx ex], y as [sy|sy| |sy my ey],
           z as [sz|sz| |sz mz ez];
    try discriminate; try reflexivity;
    try (destruct sx; try discriminate; try reflexivity);
    try (destruct sy; try discriminate; try reflexivity);
    try (destruct sz; try discriminate; try reflexivity);
    change (Pos.compare_cont Eq) with Pos.compare;
    destruct (Z.compare_spec ex ey), (Z.compare_spec ey ez),
             (Z.compare_spec ex ez);
    try discriminate; try reflexivity; try lia;
    destruct (Pos.compare_spec mx my), (Pos.compare_spec my mz),
             (Pos.compare_spec mx mz);
    cbn; try discriminate; try reflexivity; try lia.
Qed.

Lemma leb_ltb_exclusive (x y : float) :
  Float.leb x y = true -> Float.ltb y x = true -> False.
Proof.
  intros H1 H2. rewrite (leb_ltb_false x y H1) in H2. discriminate.
Qed.

Lemma contains_well_placed (z : Zone) (lat lng : float) :
  contains z lat lng = true -> well_placed z lat lng.
Proof.
  intros H. apply contains_within in H as (H1 & H2 & H3 & H4).
  unfold well_placed.
  split; [apply (leb_not_nan_l _ _ H2)|].
  split; [apply (leb_not_nan_l _ _ H4)|].
  split; [apply (leb_not_nan_l _ _ H1)|].
  split; [apply (leb_not_nan_r _ _ H2)|].
  split; [apply (leb_not_nan_l _ _ H3)|].
  split; [apply (leb_not_nan_r _ _ H4)|].
  split; eapply leb_trans; eassumption.
Qed.

Lemma find_zone_contains (lat lng : float) (zones : list Zone) (z : Zone) :
  find_zone lat lng zones = Some z -> contains z lat lng = true.
Proof.
  intros H. apply find_zone_some in H as (before & after & _ & _ & Hw).
  apply contains_within, Hw.
Qed.

(** X16: a zone holds a point only if nothing involved is NaN and the zone's
    bounds are in order.  So find_zone never returns a zone with a NaN bound
    or with a minimum above its maximum, and a point with a NaN coordinate
    is found in no zone of any catalog. *)
Theorem degenerate_zones_and_points :
  (forall z lat lng, contains z lat lng = true -> well_placed z lat lng) /\
  (forall lat lng zones z,
     find_zone lat lng zones = Some z -> well_placed z lat lng) /\
  (forall z lat lng,
     Float.ltb (max_lat z) (min_lat z) = true \/
     Float.ltb (max_lng z) (min_lng z) = true ->
     contains z lat lng = false) /\
  (forall lat lng zones,
     Float.is_nan lat = true \/ Float.is_nan lng = true ->
     find_zone lat lng zones = None).
Proof.
  split; [exact contains_well_placed|].
  split; [intros lat lng zones z H; apply contains_well_placed,
            (find_zone_contains lat lng zones), H|].
  split.
  - intros z lat lng Hinv.
    destruct (contains z lat lng) eqn:Hc; [|reflexivity].
    apply contains_well_placed in Hc as (_ & _ & _ & _ & _ & _ & Hlat & Hlng).
    exfalso. destruct Hinv as [H|H];
      [apply (leb_ltb_exclusive _ _ Hlat H) | apply (leb_ltb_exclusive _ _ Hlng H)].
  - intros lat lng zones Hnan.
    destruct (find_zone lat lng zones) as [z|] eqn:Hf; [|reflexivity].
    apply find_zone_contains, contains_well_placed in Hf as (H1 & H2 & _).
    destruct Hnan; congruence.
Qed.

Lemma find_zone_app_split (lat lng : float) (front back : list Zone) :
  find_zone lat lng (front ++ back) =
    match find_zone lat lng front with
    | Some z => Some z
    | None => find_zone lat lng back
    end.
Proof.
  induction front as [|z front IH]; [reflexivity|].
  cbn [app find_zone]. destruct (contains z lat lng); [reflexivity | exact IH].
Qed.

Lemma find_zone_hit (lat lng : float) (zones : list Zone) (z : Zone) :
  In z zones -> contains z lat lng = true ->
  exists z', find_zone lat lng zones = Some z'.
Proof.
  intros Hin Hc. destruct (find_zone lat lng zones) as [z'|] eqn:Hf; [eauto|].
  apply find_zone_none in Hf. rewrite List.Forall_forall in Hf.
  exfalso. apply (Hf z Hin), contains_within, Hc.
Qed.

Lemma encloses_contains (outer inner : Zone) (lat lng : float) :
  encloses outer inner -> contains inner lat lng = true ->
  contains outer lat lng = true.
Proof.
  intros (E1 & E2 & E3 & E4) H.
  apply contains_within in H as (H1 & H2 & H3 & H4).
  apply contains_within. repeat split; eapply leb_trans; eassumption.
Qed.

(** X17: a zone whose rectangle lies inside the rectangle of a zone listed
    before it is never the answer of find_zone: taking it out of the catalog
    changes no lookup. *)
Theorem enclosed_zone_is_shadowed (lat lng : float) (front back : list Zone)
    (outer inner : Zone) :
  In outer front -> encloses outer inner ->
  find_zone lat lng (front ++ inner :: back) = find_zone lat lng (front ++ back).
Proof.
  intros Hin Henc. rewrite !find_zone_app_split. cbn [find_zone].
  destruct (contains inner lat lng) eqn:Hc; [|reflexivity].
  destruct (find_zone_hit lat lng front outer Hin
              (encloses_contains outer inner lat lng Henc Hc)) as [z' ->].
  reflexivity.
Qed.

(** ** Instances of the properties that carry a hypothesis *)

Lemma zone_ids_from_catalog_witness :
  known_zone _get_default_zones
    (current_zone
       (vehicle_view
          (run [OpEvent _get_default_zones 1 ev_downtown; OpStatus "vehicle_2"]
               StateManager_init)
          "vehicle_1")).
Proof.
  assert (H : Forall (op_catalog (eq _get_default_zones))
                [OpEvent _get_default_zones 1 ev_downtown; OpStatus "vehicle_2"]).
  { constructor; [reflexivity|]. constructor; [exact I | constructor]. }
  exact (proj1 (proj1 (zone_ids_from_catalog _get_default_zones _ H) "vehicle_1"%string)).
Defined.

(** The second request finds a broken file and is still answered. *)
Lemma catalog_fixed_once_loaded_witness :
  Forall (fun r => exists body, r = Http200 body)
    (snd (post_all json_str float_field
            [(None, 1, 1, ev_downtown); (Some Undecodable, 2, 2, ev_airport)]
            App_init)).
Proof.
  exact (proj2 (catalog_fixed_once_loaded json_str float_field
                  _get_default_zones None 1 1 ev_downtown
                  [(Some Undecodable, 2, 2, ev_airport)] App_init eq_refl)).
Defined.

Lemma enter_exit_round_trip_witness :
  get_zone_count
    (update_zone_count
       (update_zone_count StateManager_init None (Some "zone_1"%string))
       (Some "zone_1"%string) None) "zone_1"
  = get_zone_count StateManager_init "zone_1".
Proof.
  exact (proj1 (enter_exit_round_trip StateManager_init "zone_1" counts_nonneg_init)
           "zone_1"%string).
Defined.

Lemma events_of_different_vehicles_commute_witness :
  snd (process_location_event _get_default_zones 2 ev_airport_2
         (fst (process_location_event _get_default_zones 1 ev_downtown
                 StateManager_init)))
  = snd (process_location_event _get_default_zones 2 ev_airport_2
           StateManager_init).
Proof.
  assert (H : ev_vehicle_id ev_downtown <> ev_vehicle_id ev_airport_2)
    by discriminate.
  exact (proj1 (events_of_different_vehicles_commute []
                  _get_default_zones _get_default_zones 1 2
                  ev_downtown ev_airport_2 H)).
Defined.

(** A second copy of the Downtown zone at the end of the catalog is never
    reached. *)
Lemma enclosed_zone_is_shadowed_witness :
  find_zone (Float.of_decimal false 3778 (-2)) (Float.of_decimal true 12241 (-2))
    (_get_default_zones ++ downtown :: [])
  = find_zone (Float.of_decimal false 3778 (-2)) (Float.of_decimal true 12241 (-2))
      (_get_default_zones ++ []).
Proof.
  assert (Hin : In downtown _get_default_zones) by (left; reflexivity).
  assert (He : encloses downtown downtown)
    by (unfold encloses; vm_compute; repeat split; reflexivity).
  exact (enclosed_zone_is_shadowed _ _ _get_default_zones [] downtown downtown Hin He).
Defined.
